(** * gando: the response envelope of [BaseAPI]

    A shallow embedding of [gando/architectures/apis/__base.py]: the
    per-request accumulator of [BaseAPI], the exception classifier
    ([handle_exception]) and the envelope builder ([response_context]),
    followed by the properties of the specification that were checked
    against them.

    Python values are embedded as a tree type [value]; a [dict] is an
    association list in insertion order, which is what Python iterates and
    what the JSON renderer emits.  A [str] is a [string] that holds one
    character per code point, so the text that is represented is the text
    of code points below 256. *)

From Stdlib Require Import List String Ascii ZArith Bool Lia DecimalString.
Import ListNotations.

Local Open Scope string_scope.
Local Open Scope Z_scope.

Set Implicit Arguments.

(** ** Python values *)

Module Py.

(** Hashable scalars, used as dictionary keys and as message codes. *)
Inductive key : Type :=
| KInt (z : Z)
| KStr (s : string).

Definition key_eqb (a b : key) : bool :=
  match a, b with
  | KInt x, KInt y => Z.eqb x y
  | KStr x, KStr y => String.eqb x y
  | _, _ => false
  end.

(** Modelled from the spec: the message-wrapper strings.  The five
    [*StringMessage] classes of [gando.http.responses.string_messages] are
    not among the sources; [__set_dynamic_message] tests for them after
    [isinstance(data, str)] and reads their [code], as it does for the REST
    framework's [ErrorDetail].  Each instance is a string of one class that
    carries a [code] attribute. *)
Inductive str_class : Type :=
| InfoStringMessage
| ErrorStringMessage
| WarningStringMessage
| LogStringMessage
| ExceptionStringMessage
| ErrorDetail.

Unset Elimination Schemes.

Inductive value : Type :=
| VNone
| VBool (b : bool)
| VInt (z : Z)
| VStr (s : string)                          (* a plain [str] *)
| VMsg (c : str_class) (code : key) (s : string)   (* a [str] subclass with [.code] *)
| VList (l : list value)
| VTuple (l : list value)
| VDict (d : list (key * value))
| VObj (attrs : list (string * value)).      (* any other object: its attributes *)

Set Elimination Schemes.

(** Structural induction that reaches the elements of lists, tuples,
    dictionaries and attribute tables. *)
Section value_induction.
Variable P : value -> Prop.
Hypothesis HNone : P VNone.
Hypothesis HBool : forall b, P (VBool b).
Hypothesis HInt : forall z, P (VInt z).
Hypothesis HStr : forall s, P (VStr s).
Hypothesis HMsg : forall c k s, P (VMsg c k s).
Hypothesis HList : forall l, Forall P l -> P (VList l).
Hypothesis HTuple : forall l, Forall P l -> P (VTuple l).
Hypothesis HDict : forall d, Forall (fun kv => P (snd kv)) d -> P (VDict d).
Hypothesis HObj : forall a, Forall (fun kv => P (snd kv)) a -> P (VObj a).

Fixpoint value_ind (v : value) : P v :=
    let fix elems (l : list value) : Forall P l :=
      match l with
      | [] => Forall_nil _
      | x :: r => Forall_cons x (value_ind x) (elems r)
      end in
    let fix items {K : Type} (d : list (K * value))
        : Forall (fun kv => P (snd kv)) d :=
      match d with
      | [] => Forall_nil _
      | kv :: r => Forall_cons kv (value_ind (snd kv)) (items r)
      end in
    match v with
    | VNone => HNone
    | VBool b => HBool b
    | VInt z => HInt z
    | VStr s => HStr s
    | VMsg c k s => HMsg c k s
    | VList l => HList (elems l)
    | VTuple l => HTuple (elems l)
    | VDict d => HDict (items d)
    | VObj a => HObj (items a)
    end.
End value_induction.

(** *** Dictionaries *)

Definition dict : Type := list (key * value).

(** [d.get(k)] / [k in d] *)
Fixpoint dict_get (d : dict) (k : key) : option value :=
  match d with
  | [] => None
  | (k', v) :: r => if key_eqb k' k then Some v else dict_get r k
  end.

Definition dict_has (d : dict) (k : key) : bool :=
  match dict_get d k with Some _ => true | None => false end.

(** [d[k] = v]: an existing key keeps its position, a new one goes last. *)
Fixpoint dict_set (d : dict) (k : key) (v : value) : dict :=
  match d with
  | [] => [(k, v)]
  | (k', v') :: r =>
      if key_eqb k' k then (k', v) :: r else (k', v') :: dict_set r k v
  end.

(** [d.update(e)] *)
Definition dict_update (d e : dict) : dict :=
  fold_left (fun acc kv => dict_set acc (fst kv) (snd kv)) e d.

Definition keys (d : dict) : list key := map fst d.

(** The loop [ret = {}; for k, v in d.items(): ret[k] = f(v)]. *)
Definition dict_rebuild (f : value -> value) (d : dict) : dict :=
  fold_left (fun ret kv => dict_set ret (fst kv) (f (snd kv))) d [].

Definition map_values (f : value -> value) (d : dict) : dict :=
  map (fun kv => (fst kv, f (snd kv))) d.

(** *** Truthiness and string comparison *)

(** [bool(v)] *)
Definition truthy (v : value) : bool :=
  match v with
  | VNone => false
  | VBool b => b
  | VInt z => negb (Z.eqb z 0)
  | VStr s | VMsg _ _ s => negb (String.eqb s EmptyString)
  | VList l | VTuple l => match l with [] => false | _ => true end
  | VDict d => match d with [] => false | _ => true end
  | VObj _ => true
  end.

(** [a or b] *)
Definition py_or (a b : value) : value := if truthy a then a else b.

(** [isinstance(v, str)] *)
Definition is_str (v : value) : bool :=
  match v with VStr _ | VMsg _ _ _ => true | _ => false end.

(** [v == 'literal'] *)
Definition eq_literal (v : value) (lit : string) : bool :=
  match v with
  | VStr s | VMsg _ _ s => String.eqb s lit
  | _ => false
  end.

Definition key_value (k : key) : value :=
  match k with
  | KInt z => VInt z
  | KStr s => VStr s
  end.

End Py.
Import Py.

Notation "k ':->' v" := (KStr k, v) (at level 60, no associativity).

(** ** The recursive response sanitizer *)

(** [BaseAPI._response_validator] *)
Fixpoint _response_validator (input_data : value) : value :=
  match input_data with
  | VList l =>
      match l with
      | [] => VList []
      | _ => VList (map _response_validator l)
      end
  | VDict d =>
      match d with
      | [] => VNone
      | _ => VDict (dict_rebuild _response_validator d)
      end
  | _ => input_data
  end.

(** ** Attribute probing

    [__messenger_code_parser] and [__messenger_message_parser] probe their
    argument under [contextlib.suppress(Exception)]: a probe that raises
    yields nothing and the next statement runs; a probe that returns, returns
    from the parser, whatever the value. *)

Definition lookup_attr (attrs : list (string * value)) (name : string)
  : option value :=
  option_map snd (find (fun kv => String.eqb (fst kv) name) attrs).

(** [x.name]; [None] stands for the [AttributeError]. *)
Definition getattr (x : value) (name : string) : option value :=
  match x with
  | VObj attrs => lookup_attr attrs name
  | VMsg _ code _ =>
      if String.eqb name "code" then Some (key_value code) else None
  | _ => None
  end.

(** [x.get(name)]: only a [dict] has the method, and [dict.get] answers
    [None] for a missing key instead of raising. *)
Definition method_get (x : value) (name : string) : option value :=
  match x with
  | VDict d =>
      Some (match dict_get d (KStr name) with Some v => v | None => VNone end)
  | _ => None
  end.

(** [x[0]]; [None] stands for [IndexError], [KeyError] or [TypeError].  Of
    a string it is the first code point, which is the first character of
    the [string]. *)
Definition index0 (x : value) : option value :=
  match x with
  | VList (y :: _) | VTuple (y :: _) => Some y
  | VStr (String c _) | VMsg _ _ (String c _) => Some (VStr (String c EmptyString))
  | VDict d => dict_get d (KInt 0)
  | _ => None
  end.

Definition and_then (a : option value) (f : value -> option value)
  : option value :=
  match a with Some v => f v | None => None end.

(** The first probe that did not raise decides. *)
Fixpoint first_returned (probes : list (option value)) (last : value) : value :=
  match probes with
  | [] => last
  | Some v :: _ => v
  | None :: rest => first_returned rest last
  end.

Definition is_int (x : value) : bool :=
  match x with VInt _ | VBool _ => true | _ => false end.

(** [BaseAPI.__messenger_code_parser] *)
Definition __messenger_code_parser (x : value) : value :=
  if is_int x || is_str x then x
  else first_returned
         [ getattr x "code";
           method_get x "code" ]
         (VStr "-1").

Definition unknown_problem : string :=
  "Unknown problem. Please report to support.".

(** [BaseAPI.__messenger_message_parser] *)
Definition __messenger_message_parser (x : value) : value :=
  if is_str x then x
  else first_returned
         [ getattr x "detail";
           and_then (getattr x "details") index0;
           getattr x "details";
           and_then (getattr x "messages") index0;
           getattr x "messages";
           getattr x "message";
           method_get x "detail";
           and_then (method_get x "details") index0;
           method_get x "details";
           and_then (method_get x "messages") index0;
           method_get x "messages";
           method_get x "message" ]
         (VStr unknown_problem).

(** ** Settings, request and exceptions *)

(** Modelled from the spec: what calling a configured monitor hook does.
    The hooks are external functions, named in the settings by a dotted
    path and not among the sources; by the specification a hook returns a
    value or raises the skip signal [PassException], which the loader turns
    into a log line.  [log_line] is that line, made from the first argument
    of the exception.  A hook that raises anything else, a path that cannot
    be imported and a [PassException] without arguments end the request
    with that error, before any envelope exists; they are not represented,
    and what is stated of a version 1.0.0 envelope is stated of the
    envelopes that are built. *)
Inductive hook_outcome : Type :=
| HookReturns (v : value)
| HookPasses (log_line : string).

(** [gando.config.SETTINGS], the part [BaseAPI] reads.  An unset support
    contact is the empty string. *)
Record Settings : Type := {
  HANDLING : bool;
  COMMUNICATION_WITH_SOFTWARE_SUPPORT : string;
  MONITOR : list (key * hook_outcome);
  MONITOR_KEYS : list key;
  DEBUG : bool;
  DEVELOPMENT_STATE : bool
}.

(** The request, and the class attribute [pagination] of the view. *)
Record Request : Type := {
  request_headers : list (string * string);
  current_scheme_host : string;
  request_path : string;
  authenticate_header : string;
  pagination : bool
}.

(** Modelled from the spec: one of the ten classes of
    [gando.utils.messages], which is not among the sources; the source reads
    its [type], [code] and [message]. *)
Record DefaultMessage : Type := {
  default_type : string;
  default_code : key;
  default_message : string
}.

(** The ten canned entries, a parameter of the model. *)
Record Messages : Type := {
  DefaultResponse100FailMessage : DefaultMessage;
  DefaultResponse200SuccessMessage : DefaultMessage;
  DefaultResponse201SuccessMessage : DefaultMessage;
  DefaultResponse300FailMessage : DefaultMessage;
  DefaultResponse400FailMessage : DefaultMessage;
  DefaultResponse401FailMessage : DefaultMessage;
  DefaultResponse403FailMessage : DefaultMessage;
  DefaultResponse404FailMessage : DefaultMessage;
  DefaultResponse421FailMessage : DefaultMessage;
  DefaultResponse500FailMessage : DefaultMessage
}.

(** Modelled from the spec: the closed set of exception categories.  These
    are the classes [handle_exception] and its helpers test with
    [isinstance]; those of [gando.http.api_exceptions] are not among the
    sources.  [DeveloperResponseAPIMessage] and [EnduserResponseAPIMessage]
    stand for an instance of the base class that is none of the three
    flavours. *)
Inductive exc_class : Type :=
| DeveloperErrorResponseAPIMessage
| DeveloperExceptionResponseAPIMessage
| DeveloperWarningResponseAPIMessage
| DeveloperResponseAPIMessage
| EnduserErrorResponseAPIMessage
| EnduserFailResponseAPIMessage
| EnduserWarningResponseAPIMessage
| EnduserResponseAPIMessage
| NotAuthenticated
| AuthenticationFailed
| Http404
| PermissionDenied
| OtherException.

Unset Elimination Schemes.

(** The [detail] of a REST-framework [APIException]: the framework
    normalises it to [ErrorDetail] strings inside lists and dicts. *)
Inductive detail : Type :=
| ErrorLeaf (code : string) (text : string)
| ErrorList (l : list detail)
| ErrorDict (d : list (string * detail)).

Set Elimination Schemes.

(** A raised exception.  [exc_api] is the detail of the [APIException] that
    [exception_handler] works on: the exception's own when it is one, and
    [None] when it is not.  Django's [Http404] and [PermissionDenied] are
    always replaced there by the framework's [NotFound] and
    [PermissionDenied], built from [exc.args]: for these two classes
    [exc_api] is the detail built from the arguments, and [None] stands for
    no argument, that is for the default detail of the framework's class.
    The framework's classes take a detail and a code, so an exception of
    Django's is one raised with at most two arguments.
    The classes of [gando.http.api_exceptions] are not among the sources;
    whether an instance is an [APIException] is read from [exc_api], and
    only an API exception has [.detail] and [.get_codes()]. *)
Record exception : Type := {
  exc_class_of : exc_class;
  exc_status_code : Z;
  exc_code : key;
  exc_message : value;
  exc_args : list value;
  exc_api : option detail;
  exc_wait : option Z
}.

(** [rest_framework.response.Response] *)
Record Response : Type := {
  resp_data : value;
  resp_status : Z;
  resp_headers : dict;
  resp_exception : bool
}.

Inductive py_error : Type :=
| TypeError
| ZeroDivisionError
| Reraised (e : exception).

Inductive result (A : Type) : Type :=
| Ok (a : A)
| Raise (err : py_error).

Arguments Ok {A} a.
Arguments Raise {A} err.

(** ** The per-request accumulator

    The private attributes of a [BaseAPI] instance.  An entry of a message
    list is the one-entry dict [{key: value}], kept as the pair. *)
Record State : Type := {
  __messenger : list value;
  __data : value;
  __logs_message : list (key * value);
  __infos_message : list (key * value);
  __warnings_message : list (key * value);
  __errors_message : list (key * value);
  __exceptions_message : list (key * value);
  __monitor : dict;
  __status_code : option Z;
  __headers : dict;
  __exception_status : bool;
  exc : option exception
}.

(** [BaseAPI.__init__] *)
Definition init : State := {|
  __messenger := [];
  __data := VNone;
  __logs_message := [];
  __infos_message := [];
  __warnings_message := [];
  __errors_message := [];
  __exceptions_message := [];
  __monitor := [];
  __status_code := None;
  __headers := [];
  __exception_status := false;
  exc := None
|}.

Definition with_messenger (m : list value) (s : State) : State :=
  {| __messenger := m; __data := __data s;
     __logs_message := __logs_message s; __infos_message := __infos_message s;
     __warnings_message := __warnings_message s;
     __errors_message := __errors_message s;
     __exceptions_message := __exceptions_message s;
     __monitor := __monitor s; __status_code := __status_code s;
     __headers := __headers s; __exception_status := __exception_status s;
     exc := exc s |}.

Definition with_data (d : value) (s : State) : State :=
  {| __messenger := __messenger s; __data := d;
     __logs_message := __logs_message s; __infos_message := __infos_message s;
     __warnings_message := __warnings_message s;
     __errors_message := __errors_message s;
     __exceptions_message := __exceptions_message s;
     __monitor := __monitor s; __status_code := __status_code s;
     __headers := __headers s; __exception_status := __exception_status s;
     exc := exc s |}.

Definition with_monitor (m : dict) (s : State) : State :=
  {| __messenger := __messenger s; __data := __data s;
     __logs_message := __logs_message s; __infos_message := __infos_message s;
     __warnings_message := __warnings_message s;
     __errors_message := __errors_message s;
     __exceptions_message := __exceptions_message s;
     __monitor := m; __status_code := __status_code s;
     __headers := __headers s; __exception_status := __exception_status s;
     exc := exc s |}.

Definition with_headers (h : dict) (s : State) : State :=
  {| __messenger := __messenger s; __data := __data s;
     __logs_message := __logs_message s; __infos_message := __infos_message s;
     __warnings_message := __warnings_message s;
     __errors_message := __errors_message s;
     __exceptions_message := __exceptions_message s;
     __monitor := __monitor s; __status_code := __status_code s;
     __headers := h; __exception_status := __exception_status s;
     exc := exc s |}.

Definition with_exc (e : option exception) (s : State) : State :=
  {| __messenger := __messenger s; __data := __data s;
     __logs_message := __logs_message s; __infos_message := __infos_message s;
     __warnings_message := __warnings_message s;
     __errors_message := __errors_message s;
     __exceptions_message := __exceptions_message s;
     __monitor := __monitor s; __status_code := __status_code s;
     __headers := __headers s; __exception_status := __exception_status s;
     exc := e |}.

(** [BaseAPI.__add_to_messenger] *)
Definition __add_to_messenger (message code : value) (type_ : string)
    (s : State) : State :=
  with_messenger
    (__messenger s ++
       [ VDict [ "type" :-> VStr type_;
                 "code" :-> __messenger_code_parser code;
                 "message" :-> __messenger_message_parser message ] ])
    s.

Definition add_fail_message_to_messenger (message code : value) : State -> State :=
  __add_to_messenger message code "FAIL".

Definition add_error_message_to_messenger (message code : value) : State -> State :=
  __add_to_messenger message code "ERROR".

Definition add_warning_message_to_messenger (message code : value) : State -> State :=
  __add_to_messenger message code "WARNING".

Definition add_success_message_to_messenger (message code : value) : State -> State :=
  __add_to_messenger message code "SUCCESS".

Definition set_log_message (k : key) (v : value) (s : State) : State :=
  {| __messenger := __messenger s; __data := __data s;
     __logs_message := __logs_message s ++ [(k, v)];
     __infos_message := __infos_message s;
     __warnings_message := __warnings_message s;
     __errors_message := __errors_message s;
     __exceptions_message := __exceptions_message s;
     __monitor := __monitor s; __status_code := __status_code s;
     __headers := __headers s; __exception_status := __exception_status s;
     exc := exc s |}.

Definition set_info_message (k : key) (v : value) (s : State) : State :=
  {| __messenger := __messenger s; __data := __data s;
     __logs_message := __logs_message s;
     __infos_message := __infos_message s ++ [(k, v)];
     __warnings_message := __warnings_message s;
     __errors_message := __errors_message s;
     __exceptions_message := __exceptions_message s;
     __monitor := __monitor s; __status_code := __status_code s;
     __headers := __headers s; __exception_status := __exception_status s;
     exc := exc s |}.

Definition set_warning_message (k : key) (v : value) (s : State) : State :=
  {| __messenger := __messenger s; __data := __data s;
     __logs_message := __logs_message s;
     __infos_message := __infos_message s;
     __warnings_message := __warnings_message s ++ [(k, v)];
     __errors_message := __errors_message s;
     __exceptions_message := __exceptions_message s;
     __monitor := __monitor s; __status_code := __status_code s;
     __headers := __headers s; __exception_status := __exception_status s;
     exc := exc s |}.

Definition set_error_message (k : key) (v : value) (s : State) : State :=
  {| __messenger := __messenger s; __data := __data s;
     __logs_message := __logs_message s;
     __infos_message := __infos_message s;
     __warnings_message := __warnings_message s;
     __errors_message := __errors_message s ++ [(k, v)];
     __exceptions_message := __exceptions_message s;
     __monitor := __monitor s; __status_code := __status_code s;
     __headers := __headers s; __exception_status := __exception_status s;
     exc := exc s |}.

Definition set_exception_message (k : key) (v : value) (s : State) : State :=
  {| __messenger := __messenger s; __data := __data s;
     __logs_message := __logs_message s;
     __infos_message := __infos_message s;
     __warnings_message := __warnings_message s;
     __errors_message := __errors_message s;
     __exceptions_message := __exceptions_message s ++ [(k, v)];
     __monitor := __monitor s; __status_code := __status_code s;
     __headers := __headers s; __exception_status := __exception_status s;
     exc := exc s |}.

(** [BaseAPI.set_status_code]; the argument may be [None]. *)
Definition set_status_code (v : option Z) (s : State) : State :=
  {| __messenger := __messenger s; __data := __data s;
     __logs_message := __logs_message s;
     __infos_message := __infos_message s;
     __warnings_message := __warnings_message s;
     __errors_message := __errors_message s;
     __exceptions_message := __exceptions_message s;
     __monitor := __monitor s; __status_code := v;
     __headers := __headers s; __exception_status := __exception_status s;
     exc := exc s |}.

(** [self.__status_code or 200] *)
Definition status_or_200 (s : State) : Z :=
  match __status_code s with
  | Some z => if Z.eqb z 0 then 200 else z
  | None => 200
  end.

(** [BaseAPI.get_status_code]: the value it returns and the state it leaves. *)
Definition get_status_code (v : option Z) (s : State) : Z * State :=
  let s' :=
    match v with
    | Some z =>
        if negb (Z.eqb z 0) && ((100 <=? z) && (z <? 600)) && negb (Z.eqb z 200)
        then set_status_code (Some z) s
        else s
    | None => s
    end in
  (status_or_200 s', s').

Definition set_exception_status (b : bool) (s : State) : State :=
  {| __messenger := __messenger s; __data := __data s;
     __logs_message := __logs_message s;
     __infos_message := __infos_message s;
     __warnings_message := __warnings_message s;
     __errors_message := __errors_message s;
     __exceptions_message := __exceptions_message s;
     __monitor := __monitor s; __status_code := __status_code s;
     __headers := __headers s; __exception_status := b;
     exc := exc s |}.

(** [BaseAPI.get_exception_status] *)
Definition get_exception_status (v : option bool) (s : State) : bool * State :=
  let s' := match v with Some b => set_exception_status b s | None => s end in
  (__exception_status s', s').

Definition set_headers (k : key) (v : value) (s : State) : State :=
  with_headers (dict_set (__headers s) k v) s.

(** [BaseAPI.get_headers] *)
Definition get_headers (v : option dict) (s : State) : dict * State :=
  let s' :=
    match v with
    | Some (kv :: r) =>
        fold_left (fun acc e => set_headers (fst e) (snd e) acc) (kv :: r) s
    | _ => s
    end in
  (__headers s', s').

(** [BaseAPI.set_monitor] *)
Definition set_monitor (cfg : Settings) (k : key) (v : value) (s : State) : State :=
  if existsb (key_eqb k) (MONITOR_KEYS cfg)
  then with_monitor (dict_set (__monitor s) k v) s
  else s.

(** ** Normalising the view's data *)

(** [BaseAPI.__set_dynamic_message] *)
Definition __set_dynamic_message (v : value) (s : State) : value * State :=
  match v with
  | VMsg InfoStringMessage code _ => (VNone, set_info_message code v s)
  | VMsg ErrorStringMessage code _
  | VMsg ErrorDetail code _ => (VNone, set_error_message code v s)
  | VMsg WarningStringMessage code _ => (VNone, set_warning_message code v s)
  | VMsg LogStringMessage code _ => (VNone, set_log_message code v s)
  | VMsg ExceptionStringMessage code _ => (VNone, set_exception_message code v s)
  | _ => (v, s)
  end.

(** [BaseAPI.__set_messages_from_data].  The loop over a dict computes
    [rslt] for every value and then stores [v]: [tmp[k] = v]. *)
Fixpoint __set_messages_from_data (data : value) (s : State) : value * State :=
  match data with
  | VStr _ | VMsg _ _ _ => __set_dynamic_message data s
  | VList l =>
      let fix walk (l : list value) (s : State) : list value * State :=
        match l with
        | [] => ([], s)
        | i :: r =>
            let (rslt, s1) := __set_messages_from_data i s in
            let (tmp, s2) := walk r s1 in
            (rslt :: tmp, s2)
        end in
      let (tmp, s') := walk l s in
      (VList tmp, s')
  | VDict d =>
      let fix walk (d : dict) (tmp : dict) (s : State) : dict * State :=
        match d with
        | [] => (tmp, s)
        | (k, v) :: r =>
            let (rslt, s1) := __set_messages_from_data v s in
            walk r (dict_set tmp k v) s1
        end in
      let (tmp, s') := walk d [] s in
      (VDict tmp, s')
  | _ => (data, s)
  end.

(** ** Default messages *)

Definition LF : string := String "010"%char EmptyString.

Definition unexpected_error_text : string :=
  "An unexpected error has occurred based on your request type." ++ LF ++
  "Please do not repeat this request without changing your request." ++ LF ++
  "Be sure to read the documents on how to use this service correctly." ++ LF ++
  "In any case, discuss the issue with software support." ++ LF.

(** [BaseAPI.__default_message] *)
Definition __default_message (s : State) : string :=
  let status_code := status_or_200 s in
  if (100 <=? status_code) && (status_code <? 200) then
    "please wait..."
  else if (200 <=? status_code) && (status_code <? 300) then
    if status_code =? 201 then "The desired object was created correctly."
    else "Your request has been successfully registered."
  else if (300 <=? status_code) && (status_code <? 400) then
    "The requirements for your request are not available."
  else if (400 <=? status_code) && (status_code <? 500) then
    if status_code =? 400 then "Bad Request..."
    else if status_code =? 401 then
      "Your authentication information is not available."
    else if status_code =? 403 then "You do not have access to this section."
    else if status_code =? 404 then
      "There is no information about your request."
    else if status_code =? 421 then unexpected_error_text
    else "There was an error in how to send the request."
  else if 500 <=? status_code then
    "The server is unable to respond to your request."
  else "Undefined.".

(** A [detail] as the Python value it is. *)
Fixpoint detail_value (d : detail) : value :=
  match d with
  | ErrorLeaf code text => VMsg ErrorDetail (KStr code) text
  | ErrorList l => VList (map detail_value l)
  | ErrorDict m =>
      VDict (map (fun kv => (KStr (fst kv), detail_value (snd kv))) m)
  end.

(** [APIException.get_codes()] *)
Fixpoint get_codes (d : detail) : value :=
  match d with
  | ErrorLeaf code _ => VStr code
  | ErrorList l => VList (map get_codes l)
  | ErrorDict m =>
      VDict (map (fun kv => (KStr (fst kv), get_codes (snd kv))) m)
  end.

(** The detail reachable as [exc.detail] on the raised object itself:
    Django's [Http404] and [PermissionDenied] have none. *)
Definition own_detail (e : exception) : option detail :=
  match exc_class_of e with
  | Http404 | PermissionDenied => None
  | _ => exc_api e
  end.

(** [self.exc.detail if self.exc else None], with the bare [except]. *)
Definition exc_detail_or_none (s : State) : value :=
  match exc s with
  | Some e =>
      match own_detail e with Some d => detail_value d | None => VNone end
  | None => VNone
  end.

(** [self.exc.get_codes() if self.exc else None], with the bare [except]. *)
Definition exc_codes_or_none (s : State) : value :=
  match exc s with
  | Some e =>
      match own_detail e with Some d => get_codes d | None => VNone end
  | None => VNone
  end.

(** The call every band makes, with its own class [D]:
    [self.__add_to_messenger(message=message or D.message,
                             code=code or D.code, type_=D.type)]. *)
Definition add_default (message code : value) (dm : DefaultMessage)
    (s : State) : State :=
  __add_to_messenger
    (py_or message (VStr (default_message dm)))
    (py_or code (key_value (default_code dm)))
    (default_type dm) s.

(** [BaseAPI.__default_messenger_message_adder] *)
Definition __default_messenger_message_adder (m : Messages) (s : State) : State :=
  let status_code := status_or_200 s in
  let message := exc_detail_or_none s in
  let code := exc_codes_or_none s in
  if (100 <=? status_code) && (status_code <? 200) then
    add_default message code (DefaultResponse100FailMessage m) s
  else if (200 <=? status_code) && (status_code <? 300) then
    if status_code =? 201 then
      add_default message code (DefaultResponse201SuccessMessage m) s
    else
      add_default message code (DefaultResponse200SuccessMessage m) s
  else if (300 <=? status_code) && (status_code <? 400) then
    add_default message code (DefaultResponse300FailMessage m) s
  else if (400 <=? status_code) && (status_code <? 500) then
    if status_code =? 400 then
      add_default message code (DefaultResponse400FailMessage m) s
    else if status_code =? 401 then
      add_default message code (DefaultResponse401FailMessage m) s
    else if status_code =? 403 then
      add_default message code (DefaultResponse403FailMessage m) s
    else if status_code =? 404 then
      add_default message code (DefaultResponse404FailMessage m) s
    else if status_code =? 421 then
      add_default message code (DefaultResponse421FailMessage m) s
    else
      add_default message code (DefaultResponse400FailMessage m) s
  else if 500 <=? status_code then
    add_default message code (DefaultResponse500FailMessage m) s
  else s.

(** [BaseAPI.__set_default_message] *)
Definition __set_default_message (m : Messages) (s : State) : State :=
  let s := __default_messenger_message_adder m s in
  let status_code := status_or_200 s in
  let text := VStr (__default_message s) in
  if (100 <=? status_code) && (status_code <? 200) then
    set_warning_message (KStr "status_code_1xx") text s
  else if (200 <=? status_code) && (status_code <? 300) then
    set_info_message (KStr "status_code_2xx") text s
  else if (300 <=? status_code) && (status_code <? 400) then
    set_error_message (KStr "status_code_3xx") text s
  else if (400 <=? status_code) && (status_code <? 500) then
    set_error_message (KStr "status_code_4xx") text s
  else if 500 <=? status_code then
    set_error_message (KStr "status_code_5xx") text s
  else
    set_error_message (KStr "status_code_xxx") text s.

(** ** Pagination links *)

Definition string_of_Z (z : Z) : string := NilZero.string_of_int (Z.to_int z).

(** A number as arithmetic sees it; [bool] is an [int]. *)
Definition as_number (v : value) : option Z :=
  match v with
  | VInt z => Some z
  | VBool b => Some (if b then 1 else 0)
  | _ => None
  end.

(** [round(c / p)] for [p <> 0].  [c / p] is a float in the source, the
    quotient rounded to 53 bits, and [round] takes a tie to the even
    neighbour.  The quotient is kept exact here.  For [0 <= c < 2^52] and
    [0 < p < 2^52] the two agree: the float is then an integer, or half an
    integer, exactly when the quotient is, and lies on the same side of
    every half integer.  Beyond that range the float may round to a
    neighbour, and a quotient of [2^1024] or more raises [OverflowError]
    in the source. *)
Definition round_div (c p : Z) : Z :=
  let n := if p <? 0 then - c else c in
  let d := Z.abs p in
  let q := n / d in
  let r := n mod d in
  if 2 * r <? d then q
  else if d <? 2 * r then q + 1
  else if Z.even q then q else q + 1.

(** [last_page = cps if rcps == cps else rcps + 1] *)
Definition last_page (count page_size : Z) : Z :=
  if count mod page_size =? 0 then count / page_size
  else round_div count page_size + 1.

(** [BaseAPI.get_request_path] *)
Definition get_request_path (rq : Request) : string :=
  current_scheme_host rq ++ request_path rq.

(** [f'{self.get_request_path}?page={n}' if n else None] *)
Definition page_url (rq : Request) (n : option Z) : value :=
  match n with
  | Some z =>
      if z =? 0 then VNone
      else VStr (get_request_path rq ++ "?page=" ++ string_of_Z z)
  | None => VNone
  end.

Definition next_page_number (page_size page_number count : Z) : option Z :=
  if last_page count page_size <=? page_number then None
  else Some (page_number + 1).

Definition previous_page_number (page_number : Z) (count : value) : option Z :=
  let first_page := if truthy count then 1 else 0 in
  if (page_number <=? first_page) && negb (first_page =? 0) then None
  else Some (page_number - 1).

(** [BaseAPI.__get_pagination_url]: the pair [(next_page, previous_page)]. *)
Definition __get_pagination_url (rq : Request) (page_size page_number count : value)
  : result (value * value) :=
  match as_number count, as_number page_size with
  | Some c, Some ps =>
      if ps =? 0 then Raise ZeroDivisionError
      else
        match as_number page_number with
        | Some pn =>
            Ok (page_url rq (next_page_number ps pn c),
                page_url rq (previous_page_number pn count))
        | None => Raise TypeError
        end
  | _, _ => Raise TypeError
  end.

(** ** Classifying the data *)

Definition get_or_none (d : dict) (k : string) : value :=
  match dict_get d (KStr k) with Some v => v | None => VNone end.

Definition len (l : list value) : value := VInt (Z.of_nat (List.length l)).

(** [BaseAPI.validate_data] *)
Definition validate_data (m : Messages) (s : State) : value * State :=
  match __data s with
  | VNone =>
      (VDict [ "result" :-> VDict [] ], __set_default_message m s)
  | VStr _ | VMsg _ _ _ =>
      let (data, s') := __set_dynamic_message (__data s) s in
      (VDict [ "result" :->
                 (if truthy data then VDict [ "string" :-> data ] else VDict []) ],
       s')
  | VList l =>
      (VDict [ "count" :-> len l;
               "next" :-> VNone;
               "previous" :-> VNone;
               "results" :-> VList l ], s)
  | VDict d => (VDict [ "result" :-> VDict d ], s)
  | _ => (VDict [ "result" :-> VDict [] ], s)
  end.

(** [BaseAPI.validate_data_v_2_0_0_response]; every branch builds a dict. *)
Definition validate_data_v_2_0_0_response (m : Messages) (rq : Request)
    (s : State) : result (dict * State) :=
  match __data s with
  | VNone =>
      Ok ([ "result" :-> VDict [] ], __set_default_message m s)
  | VStr _ | VMsg _ _ _ =>
      let (data, s') := __set_dynamic_message (__data s) s in
      Ok ([ "result" :->
              (if truthy data then VDict [ "string" :-> data ] else VDict []) ],
          s')
  | VList l =>
      if pagination rq then
        Ok ([ "count" :-> len l;
              "next" :-> VNone;
              "previous" :-> VNone;
              "result" :-> VList l ], s)
      else Ok ([ "result" :-> VList l ], s)
  | VDict d =>
      if dict_has d (KStr "count") && dict_has d (KStr "next") &&
         dict_has d (KStr "previous") && dict_has d (KStr "results") then
        if pagination rq then
          Ok ([ "count" :-> get_or_none d "count";
                "next" :-> get_or_none d "next";
                "previous" :-> get_or_none d "previous";
                "result" :-> get_or_none d "results" ], s)
        else Ok ([ "result" :-> get_or_none d "results" ], s)
      else if dict_has d (KStr "count") && dict_has d (KStr "page_size") &&
              dict_has d (KStr "page_number") && dict_has d (KStr "result") then
        match __get_pagination_url rq (get_or_none d "page_size")
                (get_or_none d "page_number") (get_or_none d "count") with
        | Ok (n, p) =>
            if pagination rq then
              Ok ([ "count" :-> get_or_none d "count";
                    "next" :-> n;
                    "previous" :-> p;
                    "result" :-> get_or_none d "result" ], s)
            else Ok ([ "result" :-> get_or_none d "result" ], s)
        | Raise err => Raise err
        end
      else Ok ([ "result" :-> VDict d ], s)
  | _ => Ok ([ "result" :-> VDict [] ], s)
  end.

(** [BaseAPI.__many] *)
Definition __many (s : State) : bool :=
  match __data s with
  | VList _ => true
  | VDict d =>
      dict_has d (KStr "count") && dict_has d (KStr "next") &&
      dict_has d (KStr "previous") && dict_has d (KStr "results")
  | _ => false
  end.

(** [BaseAPI.__many_v_2_0_0_response] *)
Definition __many_v_2_0_0_response (s : State) : bool :=
  match __data s with
  | VList _ => true
  | VDict d =>
      dict_has d (KStr "count") && dict_has d (KStr "next") &&
      dict_has d (KStr "previous") && dict_has d (KStr "result")
  | _ => false
  end.

(** ** The flags of the envelope *)

(** [msg.get('type', '')] on a messenger entry *)
Definition entry_type (msg : value) : value :=
  match msg with
  | VDict d =>
      match dict_get d (KStr "type") with
      | Some t => t
      | None => VStr EmptyString
      end
  | _ => VStr EmptyString
  end.

(** [BaseAPI.__fail_message_messenger] *)
Definition __fail_message_messenger (s : State) : bool :=
  existsb (fun msg => eq_literal (entry_type msg) "FAIL" ||
                      eq_literal (entry_type msg) "ERROR")
          (__messenger s).

(** [BaseAPI.__warning_message_messenger] *)
Definition __warning_message_messenger (s : State) : bool :=
  existsb (fun msg => eq_literal (entry_type msg) "WARNING") (__messenger s).

(** [BaseAPI.__success] *)
Definition __success (s : State) : bool :=
  if (200 <=? status_or_200 s) && (status_or_200 s <? 300) then true
  else if (Nat.eqb (List.length (__errors_message s)) 0) &&
          (Nat.eqb (List.length (__exceptions_message s)) 0) &&
          negb (__exception_status s) &&
          negb (__fail_message_messenger s) then true
  else false.

(** [BaseAPI.__has_warning] *)
Definition __has_warning (s : State) : bool :=
  if negb (Nat.eqb (List.length (__warnings_message s)) 0) &&
     __warning_message_messenger s then true
  else false.

(** ** Assembling the envelope *)

(** A message list as the list of one-entry dicts it is. *)
Definition message_list (l : list (key * value)) : value :=
  VList (map (fun kv => VDict [kv]) l).

(** [BaseAPI.__messages] *)
Definition __messages (cfg : Settings) (s : State) : value :=
  let tmp := [ "info" :-> message_list (__infos_message s);
               "warning" :-> message_list (__warnings_message s);
               "error" :-> message_list (__errors_message s) ] in
  if DEBUG cfg then
    VDict (dict_set
             (dict_set tmp (KStr "log") (message_list (__logs_message s)))
             (KStr "exception") (message_list (__exceptions_message s)))
  else VDict tmp.

(** [BaseAPI.__monitor_func_loader], given what the hook does. *)
Definition __monitor_func_loader (h : hook_outcome) (s : State) : value * State :=
  match h with
  | HookReturns v => (v, s)
  | HookPasses line => (VNone, set_log_message (KStr "pass") (VStr line) s)
  end.

(** [BaseAPI.monitor_play] on [self.__monitor]: [monitor or {}] is a fresh
    dict when the attribute is empty, and the attribute itself otherwise,
    in which case the loop writes into it. *)
Definition monitor_play (cfg : Settings) (s : State) : dict * State :=
  let run :=
    fold_left
      (fun (acc : dict * State) (kh : key * hook_outcome) =>
         let (v, s1) := __monitor_func_loader (snd kh) (snd acc) in
         (dict_set (fst acc) (fst kh) v, s1))
      (MONITOR cfg) (__monitor s, s) in
  match __monitor s with
  | [] => run
  | _ => (fst run, with_monitor (fst run) (snd run))
  end.

(** [self.request.headers.get(name)] *)
Definition header (rq : Request) (name : string) : option string :=
  option_map snd (find (fun kv => String.eqb (fst kv) name) (request_headers rq)).

Definition header_is_True (rq : Request) (name : string) : bool :=
  match header rq name with
  | Some v => String.eqb v "True"
  | None => true
  end.

(** [BaseAPI.__development_messages_display] *)
Definition __development_messages_display (cfg : Settings) (rq : Request) : bool :=
  if DEVELOPMENT_STATE cfg then header_is_True rq "Development-Messages-Display"
  else false.

(** [BaseAPI.__exception_status_display] *)
Definition __exception_status_display (cfg : Settings) (rq : Request) : bool :=
  if DEVELOPMENT_STATE cfg then header_is_True rq "Exception-Status-Display"
  else false.

(** The two optional keys both schema versions add last.  The message lists
    were captured by reference, so they show every entry appended before the
    envelope is rendered. *)
Definition add_development_keys (cfg : Settings) (rq : Request) (s : State)
    (tmp : dict) : dict :=
  let tmp :=
    if __development_messages_display cfg rq
    then dict_set tmp (KStr "development_messages") (__messages cfg s)
    else tmp in
  if __exception_status_display cfg rq
  then dict_set tmp (KStr "exception_status") (VBool (__exception_status s))
  else tmp.

(** [BaseAPI._response_context_v_1_0_0_response] *)
Definition _response_context_v_1_0_0_response (cfg : Settings) (m : Messages)
    (rq : Request) (data : value) (s : State) : value * State :=
  let (normal, s) := __set_messages_from_data data s in
  let s := with_data normal s in
  let status_code := status_or_200 s in
  let (data, s) := validate_data m s in
  let many := __many s in
  let has_warning := __has_warning s in
  let success := __success s in
  let (monitor, s) := monitor_play cfg s in
  let tmp := [ "success" :-> VBool success;
               "status_code" :-> VInt status_code;
               "has_warning" :-> VBool has_warning;
               "monitor" :-> VDict monitor;
               "messenger" :-> VList (__messenger s);
               "many" :-> VBool many;
               "data" :-> data ] in
  (VDict (add_development_keys cfg rq s tmp), s).

(** [BaseAPI._response_context_v_2_0_0_response] *)
Definition _response_context_v_2_0_0_response (cfg : Settings) (m : Messages)
    (rq : Request) (data : value) (s : State) : result (value * State) :=
  let (normal, s) := __set_messages_from_data data s in
  let s := with_data normal s in
  let status_code := status_or_200 s in
  match validate_data_v_2_0_0_response m rq s with
  | Ok (data, s) =>
      let success := __success s in
      let tmp := [ "success" :-> VBool success;
                   "status_code" :-> VInt status_code;
                   "messenger" :-> VList (__messenger s) ] in
      Ok (VDict (add_development_keys cfg rq s (dict_update tmp data)), s)
  | Raise err => Raise err
  end.

(** [self.request.headers.get('Response-Schema-Version') or '1.0.0'] *)
Definition response_schema_version (rq : Request) : string :=
  match header rq "Response-Schema-Version" with
  | Some v => if String.eqb v EmptyString then "1.0.0" else v
  | None => "1.0.0"
  end.

(** [BaseAPI.response_context] *)
Definition response_context (cfg : Settings) (m : Messages) (rq : Request)
    (data : value) (s : State) : result (value * State) :=
  if String.eqb (response_schema_version rq) "2.0.0" then
    match _response_context_v_2_0_0_response cfg m rq data s with
    | Ok (ret, s') => Ok (_response_validator ret, s')
    | Raise err => Raise err
    end
  else
    let (ret, s') := _response_context_v_1_0_0_response cfg m rq data s in
    Ok (_response_validator ret, s').

(** [BaseAPI.finalize_response] for a [Response] when no mock server is
    switched on: the body, status, headers and exception flag of the
    response that replaces it. *)
Definition finalize_response (cfg : Settings) (m : Messages) (rq : Request)
    (response : Response) (s : State) : result (Response * State) :=
  let (headers, s) := get_headers (Some (resp_headers response)) s in
  let (exception_flag, s) := get_exception_status (Some (resp_exception response)) s in
  let (status_code, s) := get_status_code (Some (resp_status response)) s in
  match response_context cfg m rq (resp_data response) s with
  | Ok (data, s) =>
      Ok ({| resp_data := data;
             resp_status := status_code;
             resp_headers := headers;
             resp_exception := exception_flag |}, s)
  | Raise err => Raise err
  end.

(** ** Classifying exceptions *)

Definition with_status (z : Z) (e : exception) : exception :=
  {| exc_class_of := exc_class_of e; exc_status_code := z;
     exc_code := exc_code e; exc_message := exc_message e;
     exc_args := exc_args e; exc_api := exc_api e; exc_wait := exc_wait e |}.

(** [BaseAPI._exception_handler_messages] *)
Fixpoint _exception_handler_messages (msg : detail) (base_key : string)
    (s : State) : State :=
  match msg with
  | ErrorList l =>
      fold_left (fun acc e => _exception_handler_messages e EmptyString acc) l s
  | ErrorDict d =>
      fold_left (fun acc kv => _exception_handler_messages (snd kv) (fst kv) acc) d s
  | ErrorLeaf code text =>
      let k := if String.eqb base_key EmptyString then code
               else base_key ++ "__" ++ code in
      set_error_message (KStr k) (VStr text) s
  end.

(** [rest_framework.exceptions.NotFound.default_detail], with its code *)
Definition not_found_detail : detail := ErrorLeaf "not_found" "Not found.".

(** [rest_framework.exceptions.PermissionDenied.default_detail], with its
    code *)
Definition permission_denied_detail : detail :=
  ErrorLeaf "permission_denied"
    "You do not have permission to perform this action.".

Definition detail_or (d : option detail) (default_detail : detail) : detail :=
  match d with Some x => x | None => default_detail end.

(** The opening of [exception_handler]: the [APIException] it goes on with,
    as its status, headers and detail, if there is one.  An [Http404] or a
    [PermissionDenied] of Django becomes a new [NotFound] (404) or
    [PermissionDenied] (403) of the framework, which has neither an
    [auth_header] nor a [wait]; an API exception is taken as it is, with
    the [auth_header] the caller may have put on it (empty when it did
    not); anything else is not handled. *)
Definition as_api_exception (e : exception) (auth_header : string)
  : option (Z * dict * detail) :=
  match exc_class_of e with
  | Http404 => Some (404, [], detail_or (exc_api e) not_found_detail)
  | PermissionDenied =>
      Some (403, [], detail_or (exc_api e) permission_denied_detail)
  | _ =>
      match exc_api e with
      | Some d =>
          let headers : dict := [] in
          let headers :=
            if String.eqb auth_header EmptyString then headers
            else dict_set headers (KStr "WWW-Authenticate") (VStr auth_header) in
          let headers :=
            match exc_wait e with
            | Some w =>
                if w =? 0 then headers
                else dict_set headers (KStr "Retry-After") (VStr (string_of_Z w))
            | None => headers
            end in
          Some (exc_status_code e, headers, d)
      | None => None
      end
  end.

(** [BaseAPI.exception_handler] *)
Definition exception_handler (e : exception) (auth_header : string) (s : State)
  : option Response * State :=
  match as_api_exception e auth_header with
  | Some (status, headers, d) =>
      (Some {| resp_data := VNone; resp_status := status;
               resp_headers := headers; resp_exception := false |},
       _exception_handler_messages d EmptyString s)
  | None => (None, s)
  end.

Definition is_authentication_error (e : exception) : bool :=
  match exc_class_of e with
  | NotAuthenticated | AuthenticationFailed => true
  | _ => false
  end.

(** The opening of both [_handle_exception_gando_handling_*]: a challenge
    header when there is one, else status 403 written on the exception,
    which is the object [self.exc] holds. *)
Definition coerce_authentication (rq : Request) (e : exception) (s : State)
  : exception * string * State :=
  if is_authentication_error e then
    if String.eqb (authenticate_header rq) EmptyString
    then (with_status 403 e, EmptyString, with_exc (Some (with_status 403 e)) s)
    else (e, authenticate_header rq, s)
  else (e, EmptyString, s).

Definition with_exception_flag (r : Response) : Response :=
  {| resp_data := resp_data r; resp_status := resp_status r;
     resp_headers := resp_headers r; resp_exception := true |}.

(** [Response()] *)
Definition empty_response : Response :=
  {| resp_data := VNone; resp_status := 200; resp_headers := [];
     resp_exception := false |}.

(** [BaseAPI._handle_exception_gando_handling_true] *)
Definition _handle_exception_gando_handling_true (cfg : Settings) (rq : Request)
    (e : exception) (s : State) : Response * State :=
  let '(e, auth_header, s) := coerce_authentication rq e s in
  let (found, s) := exception_handler e auth_header s in
  let response := match found with Some r => r | None => empty_response end in
  let s := set_exception_message (KStr "unexpectedError") (VTuple (exc_args e)) s in
  let s := set_error_message (KStr "unexpectedError") (VStr unexpected_error_text) s in
  let s := set_warning_message (KStr "unexpectedError")
             (VStr "Please discuss this matter with software support.") s in
  let s :=
    if String.eqb (COMMUNICATION_WITH_SOFTWARE_SUPPORT cfg) EmptyString then s
    else set_info_message (KStr "unexpectedError")
           (VStr ("Please share this problem with our technical experts" ++
                  " at the Email address " ++
                  "'" ++ COMMUNICATION_WITH_SOFTWARE_SUPPORT cfg ++ "'.")) s in
  let s := set_status_code (Some 421) s in
  (with_exception_flag response, s).

(** [BaseAPI._handle_exception_gando_handling_false] *)
Definition _handle_exception_gando_handling_false (rq : Request)
    (e : exception) (s : State) : result (Response * State) :=
  let '(e, auth_header, s) := coerce_authentication rq e s in
  let (found, s) := exception_handler e auth_header s in
  match found with
  | Some response => Ok (with_exception_flag response, s)
  | None => Raise (Reraised e)
  end.

(** The two [isinstance] cascades that open [handle_exception]. *)
Definition classify (e : exception) (s : State) : State :=
  let s :=
    match exc_class_of e with
    | DeveloperErrorResponseAPIMessage =>
        set_error_message (exc_code e) (exc_message e)
          (set_status_code (Some (exc_status_code e)) s)
    | DeveloperExceptionResponseAPIMessage =>
        set_exception_message (exc_code e) (exc_message e)
          (set_status_code (Some (exc_status_code e)) s)
    | DeveloperWarningResponseAPIMessage =>
        set_warning_message (exc_code e) (exc_message e)
          (set_status_code (Some (exc_status_code e)) s)
    | _ => s
    end in
  match exc_class_of e with
  | EnduserErrorResponseAPIMessage =>
      add_error_message_to_messenger (exc_message e) (key_value (exc_code e))
        (set_status_code (Some (exc_status_code e)) s)
  | EnduserFailResponseAPIMessage =>
      add_fail_message_to_messenger (exc_message e) (key_value (exc_code e))
        (set_status_code (Some (exc_status_code e)) s)
  | EnduserWarningResponseAPIMessage =>
      add_warning_message_to_messenger (exc_message e) (key_value (exc_code e))
        (set_status_code (Some (exc_status_code e)) s)
  | _ => s
  end.

(** [BaseAPI.handle_exception]: nothing returns between the cascades and
    the choice of the generic handler. *)
Definition handle_exception (cfg : Settings) (rq : Request) (e : exception)
    (s : State) : result (Response * State) :=
  let s := with_exc (Some e) s in
  let s := classify e s in
  if HANDLING cfg then Ok (_handle_exception_gando_handling_true cfg rq e s)
  else _handle_exception_gando_handling_false rq e s.

(** ** The specification's side

    The formulas of the specification, written from its words, to be
    compared with the functions above. *)

(** A key of the envelope, or of any dict. *)
Definition field (envelope : value) (k : string) : option value :=
  match envelope with
  | VDict d => dict_get d (KStr k)
  | _ => None
  end.

Definition is_nil {A : Type} (l : list A) : bool :=
  match l with [] => true | _ => false end.

Definition in_2xx (s : State) : bool :=
  (200 <=? status_or_200 s) && (status_or_200 s <? 300).

(** "status in [200,300) OR (no error/exception messages AND no FAIL/ERROR
    messenger entries)" *)
Definition success_as_specified (s : State) : bool :=
  in_2xx s ||
  (is_nil (__errors_message s) && is_nil (__exceptions_message s) &&
   negb (__fail_message_messenger s)).

(** The same with the exception flag of the response among the conditions. *)
Definition success_with_exception_flag (s : State) : bool :=
  in_2xx s ||
  (is_nil (__errors_message s) && is_nil (__exceptions_message s) &&
   negb (__exception_status s) && negb (__fail_message_messenger s)).

(** "last_page = ceil(count/page_size)", for a positive page size. *)
Definition ceiling (count page_size : Z) : Z :=
  (count + page_size - 1) / page_size.

(** The bands of the default-message table. *)
Inductive band : Type :=
| Band1xx | Band2xx | Band201 | Band3xx
| Band400 | Band401 | Band403 | Band404 | Band421 | Band5xx.

(** The band of a status code; a 4xx code without an entry of its own uses
    the one of 400, and nothing below 100 has a band. *)
Definition status_band (status_code : Z) : option band :=
  if status_code <? 100 then None
  else if status_code <? 200 then Some Band1xx
  else if status_code =? 201 then Some Band201
  else if status_code <? 300 then Some Band2xx
  else if status_code <? 400 then Some Band3xx
  else if status_code =? 401 then Some Band401
  else if status_code =? 403 then Some Band403
  else if status_code =? 404 then Some Band404
  else if status_code =? 421 then Some Band421
  else if status_code <? 500 then Some Band400
  else Some Band5xx.

Definition band_message (m : Messages) (b : band) : DefaultMessage :=
  match b with
  | Band1xx => DefaultResponse100FailMessage m
  | Band2xx => DefaultResponse200SuccessMessage m
  | Band201 => DefaultResponse201SuccessMessage m
  | Band3xx => DefaultResponse300FailMessage m
  | Band400 => DefaultResponse400FailMessage m
  | Band401 => DefaultResponse401FailMessage m
  | Band403 => DefaultResponse403FailMessage m
  | Band404 => DefaultResponse404FailMessage m
  | Band421 => DefaultResponse421FailMessage m
  | Band5xx => DefaultResponse500FailMessage m
  end.

(** The messenger entry that carries exactly the canned values. *)
Definition canned_entry (dm : DefaultMessage) : value :=
  VDict [ "type" :-> VStr (default_type dm);
          "code" :-> key_value (default_code dm);
          "message" :-> VStr (default_message dm) ].

(** An argument of [get_status_code] that is the default 200, absent, or
    outside [100,600). *)
Definition is_default_call (v : option Z) : bool :=
  match v with
  | None => true
  | Some z => (z =? 200) || negb ((100 <=? z) && (z <? 600))
  end.

(** A run of [get_status_code] calls: what each returned, and the state. *)
Fixpoint replay (calls : list (option Z)) (s : State) : list Z * State :=
  match calls with
  | [] => ([], s)
  | v :: rest =>
      let (r, s1) := get_status_code v s in
      let (rs, s2) := replay rest s1 in
      (r :: rs, s2)
  end.

(** Two states that differ at most in the log list and the monitor. *)
Definition same_but_logs (s s' : State) : Prop :=
  __messenger s' = __messenger s /\
  __data s' = __data s /\
  __infos_message s' = __infos_message s /\
  __warnings_message s' = __warnings_message s /\
  __errors_message s' = __errors_message s /\
  __exceptions_message s' = __exceptions_message s /\
  __status_code s' = __status_code s /\
  __exception_status s' = __exception_status s /\
  exc s' = exc s.

(** The keys of a messenger entry, in order. *)
Definition entry_keys (msg : value) : list key :=
  match msg with
  | VDict d => keys d
  | _ => []
  end.

(** ** Sample inputs *)

Definition sample_settings : Settings :=
  {| HANDLING := true;
     COMMUNICATION_WITH_SOFTWARE_SUPPORT := "support@example.com";
     MONITOR := [];
     MONITOR_KEYS := [];
     DEBUG := false;
     DEVELOPMENT_STATE := false |}.

(** The same with the verbose-handling flag off. *)
Definition strict_settings : Settings :=
  {| HANDLING := false;
     COMMUNICATION_WITH_SOFTWARE_SUPPORT := "support@example.com";
     MONITOR := [];
     MONITOR_KEYS := [];
     DEBUG := false;
     DEVELOPMENT_STATE := false |}.

Definition sample_request : Request :=
  {| request_headers := [];
     current_scheme_host := "http://testserver";
     request_path := "/items/";
     authenticate_header := EmptyString;
     pagination := true |}.

Definition sample_request_v2 : Request :=
  {| request_headers := [("Response-Schema-Version", "2.0.0")];
     current_scheme_host := "http://testserver";
     request_path := "/items/";
     authenticate_header := EmptyString;
     pagination := true |}.

Definition canned (t code message : string) : DefaultMessage :=
  {| default_type := t; default_code := KStr code; default_message := message |}.

(** Stand-ins for the ten classes of [gando.utils.messages]. *)
Definition sample_messages : Messages :=
  {| DefaultResponse100FailMessage := canned "FAIL" "100" "please wait...";
     DefaultResponse200SuccessMessage := canned "SUCCESS" "200" "registered";
     DefaultResponse201SuccessMessage := canned "SUCCESS" "201" "created";
     DefaultResponse300FailMessage := canned "FAIL" "300" "not available";
     DefaultResponse400FailMessage := canned "FAIL" "400" "Bad Request...";
     DefaultResponse401FailMessage := canned "FAIL" "401" "not authenticated";
     DefaultResponse403FailMessage := canned "FAIL" "403" "no access";
     DefaultResponse404FailMessage := canned "FAIL" "404" "no information";
     DefaultResponse421FailMessage := canned "FAIL" "421" "unexpected";
     DefaultResponse500FailMessage := canned "FAIL" "500" "server error" |}.

(** Modelled from the spec:
    [EnduserFailResponseAPIMessage(status_code=400, code='quota',
    message='Quota exceeded.')].  The class is not among the sources; in
    the package it is an [APIException], and its detail is taken to be its
    message under its code. *)
Definition quota_exceeded : exception :=
  {| exc_class_of := EnduserFailResponseAPIMessage;
     exc_status_code := 400;
     exc_code := KStr "quota";
     exc_message := VStr "Quota exceeded.";
     exc_args := [];
     exc_api := Some (ErrorLeaf "quota" "Quota exceeded.");
     exc_wait := None |}.

(** [rest_framework.exceptions.NotFound()] *)
Definition not_found : exception :=
  {| exc_class_of := OtherException;
     exc_status_code := 404;
     exc_code := KStr "not_found";
     exc_message := VNone;
     exc_args := [VStr "Not found."];
     exc_api := Some (ErrorLeaf "not_found" "Not found.");
     exc_wait := None |}.

(** [Response({'a': 1}, status=400, exception=True)] *)
Definition flagged_response : Response :=
  {| resp_data := VDict [ "a" :-> VInt 1 ];
     resp_status := 400;
     resp_headers := [];
     resp_exception := true |}.

(** A view on which [set_status_code(400)] and [set_exception_status(True)]
    were called. *)
Definition flagged : State :=
  set_exception_status true (set_status_code (Some 400) init).

(** The version 1.0.0 envelope of [{'a': 1}] on that view. *)
Definition flagged_envelope : value :=
  VDict [ "success" :-> VBool false; "status_code" :-> VInt 400;
          "has_warning" :-> VBool false; "monitor" :-> VNone;
          "messenger" :-> VList []; "many" :-> VBool false;
          "data" :-> VDict [ "result" :-> VDict [ "a" :-> VInt 1 ] ] ].

(** [InfoStringMessage('hi')] with code ['greeting'] *)
Definition greeting : value := VMsg InfoStringMessage (KStr "greeting") "hi".

(** ** Reading the walker and the sanitizer apart *)

(** The wrapper strings of a tree in the order the walker meets them:
    depth first, through lists and through the values of dicts. *)
Fixpoint wrappers (data : value) : list value :=
  match data with
  | VMsg _ _ _ => [data]
  | VList l => flat_map wrappers l
  | VDict d => flat_map (fun kv => wrappers (snd kv)) d
  | _ => []
  end.

(** What the walker returns, without the state: wrappers become [None]
    at the top and inside lists, a dict is rebuilt from its own values. *)
Fixpoint normalised (data : value) : value :=
  match data with
  | VMsg _ _ _ => VNone
  | VList l => VList (map normalised l)
  | VDict d => VDict (dict_rebuild (fun v => v) d)
  | _ => data
  end.

(** Recording one wrapper string. *)
Definition record (s : State) (w : value) : State :=
  snd (__set_dynamic_message w s).

(** An empty dict somewhere the sanitizer looks: at the top, in a list or
    as the value of a dict. *)
Fixpoint has_empty_dict (v : value) : bool :=
  match v with
  | VDict d =>
      match d with
      | [] => true
      | _ => existsb (fun kv => has_empty_dict (snd kv)) d
      end
  | VList l => existsb has_empty_dict l
  | _ => false
  end.

(** Every dict the sanitizer looks at has distinct keys, as a Python dict
    does. *)
Fixpoint well_keyed (v : value) : Prop :=
  match v with
  | VDict d =>
      NoDup (keys d) /\
      fold_right (fun kv rest => well_keyed (snd kv) /\ rest) True d
  | VList l => fold_right (fun x rest => well_keyed x /\ rest) True l
  | _ => True
  end.

(** ** Operations on the accumulator *)

(** The calls a view makes to add to its lists. *)
Inductive accumulation : Type :=
| AddLog (k : key) (v : value)
| AddInfo (k : key) (v : value)
| AddWarning (k : key) (v : value)
| AddError (k : key) (v : value)
| AddException (k : key) (v : value)
| AddToMessenger (message code : value) (type_ : string).

Definition accumulate (s : State) (a : accumulation) : State :=
  match a with
  | AddLog k v => set_log_message k v s
  | AddInfo k v => set_info_message k v s
  | AddWarning k v => set_warning_message k v s
  | AddError k v => set_error_message k v s
  | AddException k v => set_exception_message k v s
  | AddToMessenger message code type_ => __add_to_messenger message code type_ s
  end.

(** ** Details of an API exception *)

Section detail_induction.
Variable P : detail -> Prop.
Hypothesis HLeaf : forall code text, P (ErrorLeaf code text).
Hypothesis HList : forall l, Forall P l -> P (ErrorList l).
Hypothesis HDict : forall d, Forall (fun kv => P (snd kv)) d -> P (ErrorDict d).

Fixpoint detail_ind (d : detail) : P d :=
  match d with
  | ErrorLeaf code text => HLeaf code text
  | ErrorList l =>
      HList ((fix elems (l : list detail) : Forall P l :=
                match l with
                | [] => Forall_nil _
                | x :: r => Forall_cons x (detail_ind x) (elems r)
                end) l)
  | ErrorDict m =>
      HDict ((fix items (m : list (string * detail))
                : Forall (fun kv => P (snd kv)) m :=
                match m with
                | [] => Forall_nil _
                | kv :: r => Forall_cons kv (detail_ind (snd kv)) (items r)
                end) m)
  end.
End detail_induction.

(** The error messages a detail gives, in order, for a given [base_key]
    (empty for none): a leaf is keyed by its code, prefixed with the key of
    the dict entry that holds it directly; the elements of a list are read
    without a base key. *)
Fixpoint detail_messages (msg : detail) (base_key : string)
  : list (key * value) :=
  match msg with
  | ErrorLeaf code text =>
      [ (KStr (if String.eqb base_key EmptyString then code
               else base_key ++ "__" ++ code),
         VStr text) ]
  | ErrorList l => flat_map (fun e => detail_messages e EmptyString) l
  | ErrorDict d => flat_map (fun kv => detail_messages (snd kv) (fst kv)) d
  end.

(** ** Smaller helpers of the view *)

(** [BaseAPI.response]: the response a view returns through the helper. *)
Definition response (output_data : value) (s : State) : Response :=
  {| resp_data := output_data;
     resp_status := status_or_200 s;
     resp_headers := __headers s;
     resp_exception := false |}.

(** [fields.split(',')] *)
Fixpoint split_commas (fields : string) : list string :=
  match fields with
  | EmptyString => [EmptyString]
  | String c rest =>
      if Ascii.eqb c ","%char then EmptyString :: split_commas rest
      else
        match split_commas rest with
        | first :: others => String c first :: others
        | [] => [String c EmptyString]
        end
  end.

(** [BaseAPI.get_query_params_fields], given
    [self.request.query_params.get('fields')]. *)
Definition get_query_params_fields (fields : option string)
  : option (list string) :=
  match fields with
  | None => None
  | Some v => Some (split_commas v)
  end.

Definition has_comma (s : string) : bool :=
  existsb (fun c => Ascii.eqb c ","%char) (list_ascii_of_string s).

Definition is_pass (kh : key * hook_outcome) : bool :=
  match snd kh with
  | HookPasses _ => true
  | HookReturns _ => false
  end.

(** [rest_framework.exceptions.NotAuthenticated()] *)
Definition not_authenticated : exception :=
  {| exc_class_of := NotAuthenticated;
     exc_status_code := 401;
     exc_code := KStr "not_authenticated";
     exc_message := VNone;
     exc_args := [];
     exc_api := Some (ErrorLeaf "not_authenticated"
                        "Authentication credentials were not provided.");
     exc_wait := None |}.

(** [ValueError('boom')]: no API exception, and none of the classes the
    view tests for, so none of the message fields is read. *)
Definition value_error : exception :=
  {| exc_class_of := OtherException;
     exc_status_code := 0;
     exc_code := KStr EmptyString;
     exc_message := VNone;
     exc_args := [ VStr "boom" ];
     exc_api := None;
     exc_wait := None |}.

(** [django.http.Http404()] *)
Definition page_not_found : exception :=
  {| exc_class_of := Http404;
     exc_status_code := 0;
     exc_code := KStr EmptyString;
     exc_message := VNone;
     exc_args := [];
     exc_api := None;
     exc_wait := None |}.

(** The exceptions [exception_handler] leaves alone: no API exception and
    neither of Django's two that it converts. *)
Definition is_unhandled (e : exception) : bool :=
  match exc_class_of e, exc_api e with
  | Http404, _ | PermissionDenied, _ => false
  | _, Some _ => false
  | _, None => true
  end.

(** The status and the detail of the [APIException] that
    [exception_handler] goes on with, for an exception it handles: 404 and
    403 for the two classes it converts, with the framework's default
    detail when the exception has no argument, and the exception's own
    status, as long as nobody has changed it, and detail otherwise (a
    handled exception of another class has one). *)
Definition handled_status (e : exception) : Z :=
  match exc_class_of e with
  | Http404 => 404
  | PermissionDenied => 403
  | _ => exc_status_code e
  end.

Definition handled_detail (e : exception) : detail :=
  match exc_class_of e with
  | Http404 => detail_or (exc_api e) not_found_detail
  | PermissionDenied => detail_or (exc_api e) permission_denied_detail
  | _ => detail_or (exc_api e) (ErrorList [])
  end.

(** A request of a client that can be challenged. *)
Definition bearer_request : Request :=
  {| request_headers := [];
     current_scheme_host := "http://testserver";
     request_path := "/items/";
     authenticate_header := "Bearer";
     pagination := true |}.

(** The usual shape of a validation error: [{'name': [required]}]. *)
Definition name_required : detail :=
  ErrorDict [ ("name", ErrorList [ ErrorLeaf "required" "This field is required." ]) ].

(** One list continues another. *)
Definition extends {A : Type} (l l' : list A) : Prop :=
  exists more, l' = (l ++ more)%list.

(** Two states of which the second has, at most, longer message lists. *)
Definition only_messages_grow (s s' : State) : Prop :=
  __messenger s' = __messenger s /\
  __data s' = __data s /\
  __monitor s' = __monitor s /\
  __status_code s' = __status_code s /\
  __headers s' = __headers s /\
  __exception_status s' = __exception_status s /\
  exc s' = exc s /\
  extends (__logs_message s) (__logs_message s') /\
  extends (__infos_message s) (__infos_message s') /\
  extends (__warnings_message s) (__warnings_message s') /\
  extends (__errors_message s) (__errors_message s') /\
  extends (__exceptions_message s) (__exceptions_message s').

(** A request that asks for both development keys. *)
Definition display_request : Request :=
  {| request_headers := [ ("Development-Messages-Display", "True");
                          ("Exception-Status-Display", "True") ];
     current_scheme_host := "http://testserver";
     request_path := "/items/";
     authenticate_header := EmptyString;
     pagination := true |}.

(** The version 1.0.0 envelope of the one-item list [[1]] on a fresh view. *)
Definition one_item_envelope : value :=
  VDict [ "success" :-> VBool true; "status_code" :-> VInt 200;
          "has_warning" :-> VBool false; "monitor" :-> VNone;
          "messenger" :-> VList []; "many" :-> VBool true;
          "data" :-> VDict [ "count" :-> VInt 1; "next" :-> VNone;
                             "previous" :-> VNone;
                             "results" :-> VList [ VInt 1 ] ] ].

(** A view that has told the user one thing. *)
Definition saved : State :=
  add_success_message_to_messenger (VStr "Saved.") (VStr "saved") init.

(** The version 1.0.0 envelope of [[1]] on that view. *)
Definition saved_envelope : value :=
  VDict [ "success" :-> VBool true; "status_code" :-> VInt 200;
          "has_warning" :-> VBool false; "monitor" :-> VNone;
          "messenger" :->
            VList [ VDict [ "type" :-> VStr "SUCCESS";
                            "code" :-> VStr "saved";
                            "message" :-> VStr "Saved." ] ];
          "many" :-> VBool true;
          "data" :-> VDict [ "count" :-> VInt 1; "next" :-> VNone;
                             "previous" :-> VNone;
                             "results" :-> VList [ VInt 1 ] ] ].

(** That view after [set_status_code(301)]. *)
Definition moved : State := set_status_code (Some 301) saved.

(** The version 1.0.0 envelope of a response without data on it. *)
Definition moved_envelope : value :=
  VDict [ "success" :-> VBool false; "status_code" :-> VInt 301;
          "has_warning" :-> VBool false; "monitor" :-> VNone;
          "messenger" :->
            VList [ VDict [ "type" :-> VStr "SUCCESS";
                            "code" :-> VStr "saved";
                            "message" :-> VStr "Saved." ];
                    VDict [ "type" :-> VStr "FAIL";
                            "code" :-> VStr "300";
                            "message" :-> VStr "not available" ] ];
          "many" :-> VBool false;
          "data" :-> VDict [ "result" :-> VNone ] ].

(** The version 1.0.0 envelope of a fresh view with a given [data] field
    that is no list. *)
Definition plain_envelope (data : value) : value :=
  VDict [ "success" :-> VBool true; "status_code" :-> VInt 200;
          "has_warning" :-> VBool false; "monitor" :-> VNone;
          "messenger" :-> VList []; "many" :-> VBool false;
          "data" :-> data ].

(** A page description whose page size is 0. *)
Definition zero_page : dict :=
  [ "count" :-> VInt 5; "page_size" :-> VInt 0;
    "page_number" :-> VInt 1; "result" :-> VList [] ].

(** [get_status_code] stores its argument: a code of [100,600) other than
    200 (and than 0, which is below 100). *)
Definition is_stored_by_get (v : Z) : bool :=
  negb (v =? 0) && ((100 <=? v) && (v <? 600)) && negb (v =? 200).

(** Data that is neither [None], a string, a list nor a dict. *)
Definition is_unsupported (data : value) : bool :=
  match data with
  | VBool _ | VInt _ | VTuple _ | VObj _ => true
  | _ => false
  end.

(** * Properties *)

(** ** Keys and dictionaries *)

Lemma key_eqb_eq (a b : key) : key_eqb a b = true <-> a = b.
Proof.
  destruct a, b; simpl; split; intro H; try discriminate; try reflexivity.
  - apply Z.eqb_eq in H. now subst.
  - injection H as ->. apply Z.eqb_refl.
  - apply String.eqb_eq in H. now subst.
  - injection H as ->. apply String.eqb_refl.
Qed.

Lemma key_eqb_refl (a : key) : key_eqb a a = true.
Proof. now apply key_eqb_eq. Qed.

Lemma key_eq_dec (a b : key) : {a = b} + {a <> b}.
Proof. decide equality; [apply Z.eq_dec | apply string_dec]. Defined.

Lemma dict_set_not_nil (d : dict) (k : key) (v : value) : dict_set d k v <> [].
Proof.
  destruct d as [|[k' v'] r]; simpl; [discriminate|].
  destruct (key_eqb k' k); discriminate.
Qed.

Lemma dict_set_fresh (d : dict) (k : key) (v : value) :
  ~ In k (keys d) -> dict_set d k v = (d ++ [(k, v)])%list.
Proof.
  induction d as [|[k' v'] r IH]; simpl; intro H; [reflexivity|].
  destruct (key_eqb k' k) eqn:E.
  - apply key_eqb_eq in E. subst. exfalso. apply H. now left.
  - f_equal. apply IH. intro I. apply H. now right.
Qed.

Lemma keys_dict_set_present (d : dict) (k : key) (v : value) :
  In k (keys d) -> keys (dict_set d k v) = keys d.
Proof.
  induction d as [|[k' v'] r IH]; simpl; intro H; [contradiction|].
  destruct (key_eqb k' k) eqn:E; simpl; [reflexivity|].
  f_equal. apply IH. destruct H as [H|H]; [|exact H].
  subst. rewrite key_eqb_refl in E. discriminate.
Qed.

Lemma NoDup_keys_dict_set (d : dict) (k : key) (v : value) :
  NoDup (keys d) -> NoDup (keys (dict_set d k v)).
Proof.
  intro N.
  destruct (in_dec key_eq_dec k (keys d)) as [I|I].
  - now rewrite keys_dict_set_present.
  - rewrite dict_set_fresh by exact I. unfold keys. rewrite map_app. simpl.
    apply NoDup_app; [exact N | repeat constructor; simpl; tauto | ].
    intros x Hx [<-|[]]. exact (I Hx).
Qed.

(** ** The rebuilding loop of the sanitizer *)

Section rebuild.
Variables f g : value -> value.

Let step (h : value -> value) (ret : dict) (kv : key * value) : dict :=
  dict_set ret (fst kv) (h (snd kv)).

Lemma map_values_dict_set (d : dict) (k : key) (v : value) :
  map_values g (dict_set d k v) = dict_set (map_values g d) k (g v).
Proof.
  induction d as [|[k' v'] r IH]; simpl; [reflexivity|].
  destruct (key_eqb k' k); simpl; [reflexivity|]. now rewrite IH.
Qed.

Lemma map_values_fold (d acc : dict) :
  map_values g (fold_left (step f) d acc)
  = fold_left (step (fun v => g (f v))) d (map_values g acc).
Proof.
  revert acc. induction d as [|kv r IH]; intro acc; simpl; [reflexivity|].
  rewrite IH. unfold step at 2 4. now rewrite map_values_dict_set.
Qed.

Lemma fold_ext (d acc : dict) :
  Forall (fun kv => f (snd kv) = g (snd kv)) d ->
  fold_left (step f) d acc = fold_left (step g) d acc.
Proof.
  intro H. revert acc. induction H as [|kv r E _ IH]; intro acc; simpl.
  - reflexivity.
  - rewrite IH. unfold step at 2 4. now rewrite E.
Qed.

Lemma fold_not_nil (d acc : dict) :
  acc <> [] -> fold_left (step f) d acc <> [].
Proof.
  revert acc. induction d as [|kv r IH]; intro acc; simpl; [easy|].
  intros _. apply IH, dict_set_not_nil.
Qed.

Lemma fold_NoDup (d acc : dict) :
  NoDup (keys acc) -> NoDup (keys (fold_left (step f) d acc)).
Proof.
  revert acc. induction d as [|kv r IH]; intro acc; simpl; [easy|].
  intro N. apply IH, NoDup_keys_dict_set, N.
Qed.

Lemma fold_distinct_keys (d acc : dict) :
  NoDup (keys acc ++ keys d) ->
  fold_left (step f) d acc = (acc ++ map_values f d)%list.
Proof.
  revert acc. induction d as [|[k v] r IH]; intro acc; simpl; intro N.
  - now rewrite app_nil_r.
  - unfold step at 2. simpl. rewrite dict_set_fresh.
    + rewrite IH.
      * now rewrite <- app_assoc.
      * unfold keys in *. rewrite map_app. simpl. now rewrite <- app_assoc.
    + apply NoDup_remove_2 in N. intro I. apply N, in_or_app. now left.
Qed.

End rebuild.

Lemma dict_rebuild_not_nil (f : value -> value) (d : dict) :
  d <> [] -> dict_rebuild f d <> [].
Proof.
  destruct d as [|kv r]; [easy|]. intros _. unfold dict_rebuild. simpl.
  apply fold_not_nil. discriminate.
Qed.

Lemma dict_rebuild_twice (f : value -> value) (d : dict) :
  Forall (fun kv => f (f (snd kv)) = f (snd kv)) d ->
  dict_rebuild f (dict_rebuild f d) = dict_rebuild f d.
Proof.
  intro H. unfold dict_rebuild at 1.
  rewrite fold_distinct_keys.
  - simpl. unfold dict_rebuild. rewrite map_values_fold. simpl.
    now apply (fold_ext (fun v => f (f v)) f).
  - simpl. apply fold_NoDup. constructor.
Qed.

(** C9. The response sanitizer is idempotent: on every tree of values,
    running [_response_validator] on its own output changes nothing. *)
Theorem response_validator_idempotent (input_data : value) :
  _response_validator (_response_validator input_data)
  = _response_validator input_data.
Proof.
  induction input_data as [ | | | | | l IH | | d IH | ]
    using Py.value_ind; try reflexivity.
  - destruct l as [|x r]; [reflexivity|].
    simpl. f_equal. f_equal.
    + now inversion IH.
    + inversion IH as [|? ? _ Hr]; subst. rewrite map_map.
      apply map_ext_Forall. exact Hr.
  - destruct d as [|kv r]; [reflexivity|].
    change (_response_validator (VDict (kv :: r)))
      with (VDict (dict_rebuild _response_validator (kv :: r))).
    assert (N : dict_rebuild _response_validator (kv :: r) <> [])
      by (apply dict_rebuild_not_nil; discriminate).
    destruct (dict_rebuild _response_validator (kv :: r)) as [|kv' r'] eqn:E;
      [contradiction|].
    change (_response_validator (VDict (kv' :: r')))
      with (VDict (dict_rebuild _response_validator (kv' :: r'))).
    rewrite <- E. f_equal. apply dict_rebuild_twice. exact IH.
Qed.

(** ** Messenger entries *)

(** C10. Each of the four [add_*_message_to_messenger] methods appends one
    entry, a dict with exactly the keys [type], [code] and [message] in that
    order, whose [type] is the literal of the method. *)
Theorem messenger_entry_shape (message code : value) (s : State) :
  let appended (t : string) (s' : State) :=
    exists e,
      __messenger s' = (__messenger s ++ [e])%list /\
      entry_keys e = [KStr "type"; KStr "code"; KStr "message"] /\
      entry_type e = VStr t in
  appended "FAIL" (add_fail_message_to_messenger message code s) /\
  appended "ERROR" (add_error_message_to_messenger message code s) /\
  appended "WARNING" (add_warning_message_to_messenger message code s) /\
  appended "SUCCESS" (add_success_message_to_messenger message code s).
Proof.
  cbv zeta. repeat split; eexists; (split; [reflexivity | split; reflexivity]).
Qed.

(** ** The stored status code *)

Lemma get_status_code_default_call (v : option Z) (s : State) :
  is_default_call v = true ->
  get_status_code v s = (status_or_200 s, s).
Proof.
  unfold get_status_code, is_default_call. destruct v as [z|]; [|reflexivity].
  intro H. destruct (z =? 200) eqn:E200; simpl in H.
  - now rewrite andb_false_r.
  - apply negb_true_iff in H. rewrite H. now rewrite andb_false_r.
Qed.

Lemma replay_default_calls (calls : list (option Z)) (s : State) :
  Forall (fun v => is_default_call v = true) calls ->
  replay calls s = (repeat (status_or_200 s) (List.length calls), s).
Proof.
  induction 1 as [|v rest Hv _ IH]; [reflexivity|].
  cbn [replay]. rewrite get_status_code_default_call by exact Hv.
  now rewrite IH.
Qed.

(** C7, as the code has it.  After [set_status_code(v)] with [v] other than
    0, any run of [get_status_code] calls whose argument is 200, absent or
    outside [100,600) leaves [v] stored, and each of them returns [v]. *)
Theorem status_code_survives_default_calls
    (v : Z) (calls : list (option Z)) (s : State) :
  v <> 0 ->
  Forall (fun w => is_default_call w = true) calls ->
  replay calls (set_status_code (Some v) s)
  = (repeat v (List.length calls), set_status_code (Some v) s) /\
  fst (get_status_code None (snd (replay calls (set_status_code (Some v) s)))) = v.
Proof.
  intros Hv Hc. rewrite (replay_default_calls _ Hc).
  assert (E : status_or_200 (set_status_code (Some v) s) = v).
  { unfold status_or_200. simpl. apply Z.eqb_neq in Hv. now rewrite Hv. }
  rewrite E. split; [reflexivity|]. simpl. exact E.
Qed.

Lemma status_code_survives_default_calls_witness :
  (404 <> 0 /\
   Forall (fun w => is_default_call w = true) [Some 200; None; Some 700; Some 0]) /\
  replay [Some 200; None; Some 700; Some 0] (set_status_code (Some 404) init)
  = ([404; 404; 404; 404], set_status_code (Some 404) init) /\
  fst (get_status_code None
         (snd (replay [Some 200; None; Some 700; Some 0]
                 (set_status_code (Some 404) init)))) = 404.
Proof.
  split; [split; [lia | repeat constructor]|].
  apply (@status_code_survives_default_calls 404
           [Some 200; None; Some 700; Some 0] init).
  - lia.
  - repeat constructor.
Defined.

(** C7, as the specification has it, fails for the stored value 0: it is
    not 200, no call overwrites it, and [get_status_code] answers 200. *)
Lemma stored_zero_reads_as_200 :
  ~ (forall (v : Z) (w : option Z) (s : State),
       v <> 200 -> is_default_call w = true ->
       fst (get_status_code w (set_status_code (Some v) s)) = v).
Proof.
  intro H. specialize (H 0 (Some 200) init). simpl in H.
  assert (C : 200 = 0) by (apply H; [lia | reflexivity]). lia.
Qed.

(** ** Message extraction *)

(** On a dict the first dict probe, [x.get('detail')], always returns, so
    the parser answers the [detail] entry or [None]. *)
Lemma message_parser_on_dict (d : dict) :
  __messenger_message_parser (VDict d) = get_or_none d "detail".
Proof. reflexivity. Qed.

(** An object whose only probed attribute is [message] yields it. *)
Lemma message_parser_message_attribute (attrs : list (string * value)) (v : value) :
  lookup_attr attrs "detail" = None ->
  lookup_attr attrs "details" = None ->
  lookup_attr attrs "messages" = None ->
  lookup_attr attrs "message" = Some v ->
  __messenger_message_parser (VObj attrs) = v.
Proof.
  intros H1 H2 H3 H4. unfold __messenger_message_parser. simpl.
  now rewrite H1, H2, H3, H4.
Qed.

(** A value without the probed attributes and without a [get] method
    yields the placeholder. *)
Lemma message_parser_placeholder (x : value) :
  is_str x = false ->
  (forall d, x <> VDict d) ->
  (forall name, getattr x name = None) ->
  __messenger_message_parser x = VStr unknown_problem.
Proof.
  intros Hs Hd Ha. unfold __messenger_message_parser. rewrite Hs.
  rewrite !Ha. simpl.
  destruct x; try reflexivity. exfalso. now apply (Hd d).
Qed.

Lemma message_parser_of_None :
  __messenger_message_parser VNone = VStr unknown_problem.
Proof. reflexivity. Qed.

(** C8 at its failing inputs.  For a dict the chain stops at
    [x.get('detail')]: every dict without the key [detail] yields [None],
    whatever its other keys, and so never the placeholder. *)
Theorem message_parser_stops_at_dict_get (d : dict) :
  dict_get d (KStr "detail") = None ->
  __messenger_message_parser (VDict d) = VNone /\
  __messenger_message_parser (VDict d) <> VStr unknown_problem.
Proof.
  intro H. rewrite message_parser_on_dict. unfold get_or_none. rewrite H.
  split; [reflexivity | discriminate].
Qed.

(** The empty dict exposes none of the known keys; the second dict has the
    key [message] and loses it. *)
Lemma message_parser_stops_at_dict_get_witness :
  (dict_get [] (KStr "detail") = None /\
   __messenger_message_parser (VDict []) = VNone /\
   __messenger_message_parser (VDict []) <> VStr unknown_problem) /\
  (dict_get [ "message" :-> VStr "Saved." ] (KStr "detail") = None /\
   __messenger_message_parser (VDict [ "message" :-> VStr "Saved." ]) = VNone /\
   __messenger_message_parser (VDict [ "message" :-> VStr "Saved." ])
   <> VStr unknown_problem).
Proof.
  split.
  - split; [reflexivity|].
    apply (@message_parser_stops_at_dict_get []). reflexivity.
  - split; [reflexivity|].
    apply (@message_parser_stops_at_dict_get [ "message" :-> VStr "Saved." ]).
    reflexivity.
Defined.

(** C6 at its failing inputs.  Whichever of the four methods appends it,
    the entry made from a dict without the key [detail] has [None] as its
    [message]. *)
Theorem messenger_entry_with_null_message
    (d : dict) (code : value) (type_ : string) (s : State) :
  dict_get d (KStr "detail") = None ->
  exists e,
    __messenger (__add_to_messenger (VDict d) code type_ s)
    = (__messenger s ++ [e])%list /\
    field e "message" = Some VNone.
Proof.
  intro H. unfold __add_to_messenger.
  eexists. split; [reflexivity|].
  unfold field. cbn [dict_get key_eqb]. cbv [String.eqb Ascii.eqb Bool.eqb].
  rewrite message_parser_on_dict. unfold get_or_none. now rewrite H.
Qed.

(** [add_success_message_to_messenger(message={'message': 'Saved.'},
    code='saved')] on a fresh view. *)
Lemma messenger_entry_with_null_message_witness :
  dict_get [ "message" :-> VStr "Saved." ] (KStr "detail") = None /\
  __messenger
    (add_success_message_to_messenger
       (VDict [ "message" :-> VStr "Saved." ]) (VStr "saved") init)
  = [ VDict [ "type" :-> VStr "SUCCESS";
              "code" :-> VStr "saved";
              "message" :-> VNone ] ] /\
  exists e,
    __messenger
      (__add_to_messenger (VDict [ "message" :-> VStr "Saved." ])
         (VStr "saved") "SUCCESS" init)
    = (__messenger init ++ [e])%list /\
    field e "message" = Some VNone.
Proof.
  split; [reflexivity|]. split; [reflexivity|].
  apply (@messenger_entry_with_null_message
           [ "message" :-> VStr "Saved." ] (VStr "saved") "SUCCESS" init).
  reflexivity.
Defined.

(** ** The normalisation walker *)

(** The loop over a dict, whatever it collects, stores the values it was
    given. *)
Lemma walker_returns_dict_values (d : dict) (s : State) :
  fst (__set_messages_from_data (VDict d) s) = VDict (dict_rebuild (fun v => v) d).
Proof.
  unfold dict_rebuild. simpl. generalize (@nil (key * value)) as tmp.
  revert s. induction d as [|[k v] r IH]; intros s tmp; simpl; [reflexivity|].
  destruct (__set_messages_from_data v s) as [rslt s1]. apply IH.
Qed.

(** C3 at its failing inputs.  A string of any wrapper class held as a
    dict value is recorded in its message list and left in place in the
    returned dict, where the same string as a list element is recorded and
    replaced with [None]. *)
Theorem walker_keeps_wrapper_in_dict
    (k : key) (c : str_class) (code : key) (text : string) (s : State) :
  let wrapper := VMsg c code text in
  __set_messages_from_data (VDict [ (k, wrapper) ]) s
  = (VDict [ (k, wrapper) ], snd (__set_dynamic_message wrapper s)) /\
  __set_messages_from_data (VList [ wrapper ]) s
  = (VList [ VNone ], snd (__set_dynamic_message wrapper s)) /\
  snd (__set_dynamic_message wrapper s) <> s.
Proof.
  cbv zeta. repeat split.
  - destruct c; reflexivity.
  - destruct c; reflexivity.
  - assert (L : forall (l : list (key * value)) x, (l ++ [x])%list <> l).
    { intros l x E. apply (f_equal (@List.length _)) in E.
      rewrite length_app in E. simpl in E. lia. }
    destruct c; simpl; intro E.
    + apply (f_equal __infos_message) in E. simpl in E. exact (L _ _ E).
    + apply (f_equal __errors_message) in E. simpl in E. exact (L _ _ E).
    + apply (f_equal __warnings_message) in E. simpl in E. exact (L _ _ E).
    + apply (f_equal __logs_message) in E. simpl in E. exact (L _ _ E).
    + apply (f_equal __exceptions_message) in E. simpl in E. exact (L _ _ E).
    + apply (f_equal __errors_message) in E. simpl in E. exact (L _ _ E).
Qed.

(** [{'a': InfoStringMessage('hi')}] on a fresh view. *)
Lemma walker_keeps_greeting_in_dict :
  __set_messages_from_data (VDict [ "a" :-> greeting ]) init
  = (VDict [ "a" :-> greeting ],
     set_info_message (KStr "greeting") greeting init) /\
  __set_messages_from_data (VList [ greeting ]) init
  = (VList [ VNone ],
     set_info_message (KStr "greeting") greeting init).
Proof. split; reflexivity. Qed.

(** ** Pagination *)

(** The worked example of the specification holds. *)
Lemma pagination_worked_example (rq : Request) :
  last_page 25 10 = 3 /\
  __get_pagination_url rq (VInt 10) (VInt 1) (VInt 25)
  = Ok (VStr (get_request_path rq ++ "?page=2"), VNone) /\
  __get_pagination_url rq (VInt 10) (VInt 3) (VInt 25)
  = Ok (VNone, VStr (get_request_path rq ++ "?page=2")).
Proof. repeat split. Qed.

(** X24. For a count and a positive page size below [2^52], where the float
    quotient of the source decides as the exact one does, [round] gives the
    floor exactly when the remainder is below half the page size, or equal
    to it with an even quotient; only then, and for an exact multiple, is
    [last_page] the ceiling. *)
Lemma last_page_is_ceiling_iff (count page_size : Z) :
  0 <= count < 2 ^ 52 ->
  0 < page_size < 2 ^ 52 ->
  (last_page count page_size = ceiling count page_size <->
   count mod page_size = 0 \/
   2 * (count mod page_size) < page_size \/
   (2 * (count mod page_size) = page_size /\
    Z.even (count / page_size) = true)).
Proof.
  intros _ [Hp _].
  assert (Hm := Z.mod_pos_bound count page_size Hp).
  assert (Hd := Z.div_mod count page_size ltac:(lia)).
  assert (Hc : ceiling count page_size
               = count / page_size + (if count mod page_size =? 0 then 0 else 1)).
  { unfold ceiling. destruct (count mod page_size =? 0) eqn:E.
    - apply Z.eqb_eq in E.
      symmetry. apply (Z.div_unique _ _ _ (page_size - 1)); lia.
    - apply Z.eqb_neq in E.
      symmetry. apply (Z.div_unique _ _ _ (count mod page_size - 1)); lia. }
  rewrite Hc. unfold last_page, round_div.
  replace (page_size <? 0) with false by (symmetry; apply Z.ltb_ge; lia).
  rewrite (Z.abs_eq page_size) by lia.
  destruct (count mod page_size =? 0) eqn:E0.
  - apply Z.eqb_eq in E0. split; [now left | lia].
  - apply Z.eqb_neq in E0.
    destruct (2 * (count mod page_size) <? page_size) eqn:E1.
    + apply Z.ltb_lt in E1. split; [now right; left | lia].
    + apply Z.ltb_ge in E1.
      destruct (page_size <? 2 * (count mod page_size)) eqn:E2.
      * apply Z.ltb_lt in E2. split; [lia | intros [H|[H|[H _]]]; lia].
      * apply Z.ltb_ge in E2.
        destruct (Z.even (count / page_size)) eqn:E3.
        -- split; [intros _; right; right; split; [lia | reflexivity] | lia].
        -- split; [lia | intros [H|[H|[_ H]]]; [lia | lia | discriminate]].
Qed.

Lemma last_page_overshoots (count page_size : Z) :
  0 < page_size ->
  page_size < 2 * (count mod page_size) ->
  last_page count page_size = ceiling count page_size + 1.
Proof.
  intros Hp Hr.
  assert (Hm := Z.mod_pos_bound count page_size Hp).
  assert (Hd := Z.div_mod count page_size ltac:(lia)).
  assert (Hc : ceiling count page_size = count / page_size + 1).
  { unfold ceiling. symmetry.
    apply (Z.div_unique _ _ _ (count mod page_size - 1)); lia. }
  rewrite Hc. unfold last_page, round_div.
  replace (count mod page_size =? 0) with false by (symmetry; apply Z.eqb_neq; lia).
  replace (page_size <? 0) with false by (symmetry; apply Z.ltb_ge; lia).
  rewrite (Z.abs_eq page_size) by lia.
  replace (2 * (count mod page_size) <? page_size) with false
    by (symmetry; apply Z.ltb_ge; lia).
  replace (page_size <? 2 * (count mod page_size)) with true
    by (symmetry; apply Z.ltb_lt; lia).
  reflexivity.
Qed.

(** C4 at its failing inputs.  Whenever the remainder of [count] by a
    positive [page_size] exceeds half the page size, [round] goes up and the
    code takes the ceiling plus one for the last page, so the page that is
    really the last one is given a link to a page after it. *)
Theorem pagination_links_past_last_page
    (rq : Request) (page_size count : Z) :
  0 < page_size ->
  0 < count ->
  page_size < 2 * (count mod page_size) ->
  last_page count page_size = ceiling count page_size + 1 /\
  exists previous,
    __get_pagination_url rq (VInt page_size)
      (VInt (ceiling count page_size)) (VInt count)
    = Ok (VStr (get_request_path rq ++ "?page=" ++
                string_of_Z (ceiling count page_size + 1)),
          previous).
Proof.
  intros Hp Hc Hr. pose proof (last_page_overshoots count Hp Hr) as L.
  split; [exact L|].
  assert (Hpos : 0 <= ceiling count page_size).
  { unfold ceiling. apply Z.div_pos; lia. }
  unfold __get_pagination_url, as_number.
  replace (page_size =? 0) with false by (symmetry; apply Z.eqb_neq; lia).
  eexists. f_equal. f_equal.
  unfold next_page_number, page_url. rewrite L.
  replace (ceiling count page_size + 1 <=? ceiling count page_size) with false
    by (symmetry; apply Z.leb_gt; lia).
  replace (ceiling count page_size + 1 =? 0) with false
    by (symmetry; apply Z.eqb_neq; lia).
  reflexivity.
Qed.

(** 27 items in pages of 10: [round(2.7) + 1 = 4] where the ceiling is 3,
    and page 3 links to a page 4. *)
Lemma pagination_links_past_last_page_witness :
  (0 < 10 /\ 0 < 27 /\ 10 < 2 * (27 mod 10)) /\
  (ceiling 27 10 = 3 /\
   __get_pagination_url sample_request (VInt 10) (VInt 3) (VInt 27)
   = Ok (VStr "http://testserver/items/?page=4",
         VStr "http://testserver/items/?page=2")) /\
  last_page 27 10 = ceiling 27 10 + 1 /\
  exists previous,
    __get_pagination_url sample_request (VInt 10)
      (VInt (ceiling 27 10)) (VInt 27)
    = Ok (VStr (get_request_path sample_request ++ "?page=" ++
                string_of_Z (ceiling 27 10 + 1)),
          previous).
Proof.
  split; [repeat split; reflexivity|]. split; [split; reflexivity|].
  apply (@pagination_links_past_last_page sample_request 10 27);
    reflexivity.
Defined.

(** ** Looking a key up in a built dict *)

Lemma key_eqb_sym (a b : key) : key_eqb a b = key_eqb b a.
Proof.
  destruct a, b; simpl; try reflexivity; [apply Z.eqb_sym | apply String.eqb_sym].
Qed.

Lemma dict_get_dict_set (d : dict) (k k' : key) (v : value) :
  dict_get (dict_set d k v) k'
  = if key_eqb k k' then Some v else dict_get d k'.
Proof.
  induction d as [|[k0 v0] r IH]; simpl.
  - reflexivity.
  - destruct (key_eqb k0 k) eqn:E; simpl.
    + apply key_eqb_eq in E. subst k0. now destruct (key_eqb k k').
    + rewrite IH. destruct (key_eqb k0 k') eqn:E'; [|reflexivity].
      apply key_eqb_eq in E'. subst k0. rewrite key_eqb_sym in E.
      now rewrite E.
Qed.

Lemma dict_get_map_values (f : value -> value) (d : dict) (k : key) :
  dict_get (map_values f d) k = option_map f (dict_get d k).
Proof.
  induction d as [|[k0 v0] r IH]; simpl; [reflexivity|].
  now destruct (key_eqb k0 k).
Qed.

Lemma dict_get_dict_update (d e : dict) (k : key) :
  dict_get e k = None -> dict_get (dict_update d e) k = dict_get d k.
Proof.
  unfold dict_update. revert d.
  induction e as [|[k0 v0] r IH]; intros d H; simpl in *; [reflexivity|].
  destruct (key_eqb k0 k) eqn:E; [discriminate|].
  rewrite IH by exact H. rewrite dict_get_dict_set. now rewrite E.
Qed.

Lemma NoDup_keys_dict_update (d e : dict) :
  NoDup (keys d) -> NoDup (keys (dict_update d e)).
Proof.
  unfold dict_update. revert d.
  induction e as [|kv r IH]; intros d N; simpl; [exact N|].
  apply IH, NoDup_keys_dict_set, N.
Qed.

(** The sanitizer keeps the keys of a dict with distinct keys and
    sanitizes what they hold. *)
Lemma field_response_validator (d : dict) (k : string) (v : value) :
  NoDup (keys d) ->
  dict_get d (KStr k) = Some v ->
  field (_response_validator (VDict d)) k = Some (_response_validator v).
Proof.
  intros N H. destruct d as [|kv r]; [discriminate|].
  change (_response_validator (VDict (kv :: r)))
    with (VDict (dict_rebuild _response_validator (kv :: r))).
  unfold dict_rebuild. rewrite fold_distinct_keys by exact N.
  rewrite app_nil_l. unfold field. rewrite dict_get_map_values, H. reflexivity.
Qed.

(** ** What the envelope builder leaves alone *)

Lemma same_but_logs_refl (s : State) : same_but_logs s s.
Proof. repeat split. Qed.

Lemma same_but_logs_trans (a b c : State) :
  same_but_logs a b -> same_but_logs b c -> same_but_logs a c.
Proof.
  unfold same_but_logs. intros H1 H2.
  repeat match goal with H : _ /\ _ |- _ => destruct H end.
  repeat split; congruence.
Qed.

Lemma monitor_func_loader_logs (h : hook_outcome) (s : State) :
  same_but_logs s (snd (__monitor_func_loader h s)).
Proof. destruct h; simpl; repeat split. Qed.

Lemma monitor_play_logs (cfg : Settings) (s : State) :
  same_but_logs s (snd (monitor_play cfg s)).
Proof.
  unfold monitor_play.
  assert (G : forall hooks acc, same_but_logs s (snd acc) ->
            same_but_logs s
              (snd (fold_left
                      (fun (acc : dict * State) (kh : key * hook_outcome) =>
                         let (v, s1) := __monitor_func_loader (snd kh) (snd acc) in
                         (dict_set (fst acc) (fst kh) v, s1))
                      hooks acc))).
  { induction hooks as [|kh r IH]; intros acc H; simpl; [exact H|].
    apply IH.
    pose proof (monitor_func_loader_logs (snd kh) (snd acc)) as L.
    destruct (__monitor_func_loader (snd kh) (snd acc)) as [v s1]. simpl in *.
    eapply same_but_logs_trans; eassumption. }
  specialize (G (MONITOR cfg) (__monitor s, s) (same_but_logs_refl s)).
  destruct (__monitor s); [exact G|].
  simpl. unfold same_but_logs in *. simpl. exact G.
Qed.

Lemma success_with_exception_flag_same_but_logs (s s' : State) :
  same_but_logs s s' ->
  success_with_exception_flag s' = success_with_exception_flag s.
Proof.
  unfold same_but_logs. intro H.
  repeat match goal with H : _ /\ _ |- _ => destruct H end.
  unfold success_with_exception_flag, in_2xx, __fail_message_messenger,
    status_or_200.
  repeat match goal with E : _ s' = _ s |- _ => rewrite E; clear E end.
  reflexivity.
Qed.

(** [__success] is the formula with the exception flag. *)
Lemma success_is_formula (s : State) :
  __success s = success_with_exception_flag s.
Proof.
  unfold __success, success_with_exception_flag, in_2xx.
  destruct ((200 <=? status_or_200 s) && (status_or_200 s <? 300)); simpl;
    [reflexivity|].
  destruct (__errors_message s), (__exceptions_message s); simpl;
    try reflexivity.
  now destruct (negb (__exception_status s) && negb (__fail_message_messenger s)).
Qed.

Lemma NoDup_keys_add_development_keys
    (cfg : Settings) (rq : Request) (s : State) (tmp : dict) :
  NoDup (keys tmp) -> NoDup (keys (add_development_keys cfg rq s tmp)).
Proof.
  intro N. unfold add_development_keys.
  destruct (__development_messages_display cfg rq),
    (__exception_status_display cfg rq);
    repeat apply NoDup_keys_dict_set; exact N.
Qed.

Lemma dict_get_add_development_keys
    (cfg : Settings) (rq : Request) (s : State) (tmp : dict) (k : string) :
  k <> "development_messages" -> k <> "exception_status" ->
  dict_get (add_development_keys cfg rq s tmp) (KStr k) = dict_get tmp (KStr k).
Proof.
  intros H1 H2. unfold add_development_keys.
  assert (E1 : key_eqb (KStr "development_messages") (KStr k) = false).
  { change (String.eqb "development_messages" k = false).
    apply String.eqb_neq. congruence. }
  assert (E2 : key_eqb (KStr "exception_status") (KStr k) = false).
  { change (String.eqb "exception_status" k = false).
    apply String.eqb_neq. congruence. }
  destruct (__development_messages_display cfg rq),
    (__exception_status_display cfg rq);
    rewrite ?dict_get_dict_set, ?E1, ?E2; reflexivity.
Qed.

(** ** The success flag *)

Lemma v2_data_keys (m : Messages) (rq : Request) (s s' : State) (d : dict) :
  validate_data_v_2_0_0_response m rq s = Ok (d, s') ->
  dict_get d (KStr "success") = None.
Proof.
  unfold validate_data_v_2_0_0_response.
  destruct (__data s) as [ | | | | | | | d0 | ]; simpl;
    repeat match goal with
           | |- context [if ?b then _ else _] => destruct b
           | |- context [let (_, _) := ?x in _] => destruct x
           | |- context [match ?x with Ok _ => _ | Raise _ => _ end] =>
               destruct x as [[? ?]|?]
           end;
    intro H; inversion H; reflexivity.
Qed.

Lemma v2_data_raises (m : Messages) (rq : Request) (s : State) (err : py_error) :
  validate_data_v_2_0_0_response m rq s = Raise err ->
  exists d, __data s = VDict d /\
            __get_pagination_url rq (get_or_none d "page_size")
              (get_or_none d "page_number") (get_or_none d "count") = Raise err.
Proof.
  unfold validate_data_v_2_0_0_response.
  destruct (__data s) as [ | | | | | | | d0 | ]; simpl;
    try (repeat match goal with
                | |- context [if ?b then _ else _] => destruct b
                | |- context [let (_, _) := ?x in _] => destruct x
                end; discriminate).
  destruct (dict_has d0 (KStr "count") && dict_has d0 (KStr "next") &&
            dict_has d0 (KStr "previous") && dict_has d0 (KStr "results")).
  - destruct (pagination rq); discriminate.
  - destruct (dict_has d0 (KStr "count") && dict_has d0 (KStr "page_size") &&
              dict_has d0 (KStr "page_number") && dict_has d0 (KStr "result"));
      [|discriminate].
    destruct (__get_pagination_url rq (get_or_none d0 "page_size")
                (get_or_none d0 "page_number") (get_or_none d0 "count"))
      as [[n p]|e] eqn:E.
    + destruct (pagination rq); discriminate.
    + intro H. inversion H. subst. exists d0. now split.
Qed.

Lemma v1_envelope_keys_distinct (a b c d e f g : value) :
  NoDup (keys [ "success" :-> a; "status_code" :-> b; "has_warning" :-> c;
                "monitor" :-> d; "messenger" :-> e; "many" :-> f;
                "data" :-> g ]).
Proof.
  simpl. repeat constructor; simpl; intuition discriminate.
Qed.

(** C1, as the code has it.  Whenever [response_context] builds an envelope,
    in either schema version, its [success] field is true exactly when the
    status code lies in [200,300), or else the error list and the exception
    list are empty, the exception flag is off and no messenger entry has type
    FAIL or ERROR, all read in the state the builder leaves. *)
Theorem success_flag_formula
    (cfg : Settings) (m : Messages) (rq : Request) (data : value)
    (s s' : State) (envelope : value) :
  response_context cfg m rq data s = Ok (envelope, s') ->
  field envelope "success" = Some (VBool (success_with_exception_flag s')).
Proof.
  unfold response_context.
  destruct (String.eqb (response_schema_version rq) "2.0.0") eqn:V.
  - unfold _response_context_v_2_0_0_response.
    destruct (__set_messages_from_data data s) as [normal s0].
    destruct (validate_data_v_2_0_0_response m rq (with_data normal s0))
      as [[d s1]|err] eqn:E; [|discriminate].
    intro H.
    assert (Ee : envelope
                 = _response_validator
                     (VDict (add_development_keys cfg rq s1
                               (dict_update
                                  [ "success" :-> VBool (__success s1);
                                    "status_code" :-> VInt (status_or_200 (with_data normal s0));
                                    "messenger" :-> VList (__messenger s1) ] d))))
      by congruence.
    assert (Es : s' = s1) by congruence.
    clear H. subst envelope. subst s'.
    rewrite <- success_is_formula.
    apply (@field_response_validator _ _ (VBool (__success s1))).
    + apply NoDup_keys_add_development_keys, NoDup_keys_dict_update.
      simpl. repeat constructor; simpl; intuition discriminate.
    + rewrite dict_get_add_development_keys by discriminate.
      rewrite dict_get_dict_update by (eapply v2_data_keys; exact E).
      reflexivity.
  - unfold _response_context_v_1_0_0_response.
    destruct (__set_messages_from_data data s) as [normal s0].
    destruct (validate_data m (with_data normal s0)) as [payload s1].
    pose proof (monitor_play_logs cfg s1) as L.
    destruct (monitor_play cfg s1) as [monitor s2]. simpl in L.
    intro H.
    assert (Ee : envelope
                 = _response_validator
                     (VDict (add_development_keys cfg rq s2
                               [ "success" :-> VBool (__success s1);
                                 "status_code" :-> VInt (status_or_200 (with_data normal s0));
                                 "has_warning" :-> VBool (__has_warning s1);
                                 "monitor" :-> VDict monitor;
                                 "messenger" :-> VList (__messenger s2);
                                 "many" :-> VBool (__many s1);
                                 "data" :-> payload ])))
      by congruence.
    assert (Es : s' = s2) by congruence.
    clear H. subst envelope. subst s'.
    rewrite (success_with_exception_flag_same_but_logs L).
    rewrite <- success_is_formula.
    apply (@field_response_validator _ _ (VBool (__success s1))).
    + apply NoDup_keys_add_development_keys, v1_envelope_keys_distinct.
    + rewrite dict_get_add_development_keys by discriminate. reflexivity.
Qed.

(** A view flagged as having failed, asked for the dict [{'a': 1}]: the
    envelope that [response_context] builds says so. *)
Lemma success_flag_formula_witness :
  response_context sample_settings sample_messages sample_request
    (VDict [ "a" :-> VInt 1 ]) flagged
  = Ok (flagged_envelope, with_data (VDict [ "a" :-> VInt 1 ]) flagged) /\
  field flagged_envelope "success"
  = Some (VBool (success_with_exception_flag
                   (with_data (VDict [ "a" :-> VInt 1 ]) flagged))).
Proof.
  split; [reflexivity|].
  apply (@success_flag_formula sample_settings sample_messages sample_request
           (VDict [ "a" :-> VInt 1 ]) flagged
           (with_data (VDict [ "a" :-> VInt 1 ]) flagged) flagged_envelope).
  reflexivity.
Defined.

(** C1, as the specification has it, fails on
    [Response({'a': 1}, status=400, exception=True)], in both schema
    versions: the error list, the exception list and the messenger are
    empty, so the formula without the exception flag gives true, and the
    envelope says false. *)
Lemma success_depends_on_exception_flag :
  match finalize_response sample_settings sample_messages sample_request
          flagged_response init,
        finalize_response sample_settings sample_messages sample_request_v2
          flagged_response init with
  | Ok (v1, s1), Ok (v2, s2) =>
      (resp_status v1 = 400 /\
       field (resp_data v1) "success" = Some (VBool false) /\
       __errors_message s1 = [] /\
       __exceptions_message s1 = [] /\
       __messenger s1 = [] /\
       success_as_specified s1 = true) /\
      (resp_status v2 = 400 /\
       field (resp_data v2) "success" = Some (VBool false) /\
       field (resp_data v2) "result" = Some (VDict [ "a" :-> VInt 1 ]) /\
       success_as_specified s2 = true)
  | _, _ => False
  end.
Proof. vm_compute. repeat split. Qed.

(** ** Default messenger entries *)

Lemma code_parser_of_key (k : key) :
  __messenger_code_parser (key_value k) = key_value k.
Proof. now destruct k. Qed.

Lemma add_default_canned (message code : value) (dm : DefaultMessage) (s : State) :
  truthy message = false -> truthy code = false ->
  add_default message code dm s
  = with_messenger (__messenger s ++ [canned_entry dm]) s.
Proof.
  intros Hm Hc. unfold add_default, py_or, __add_to_messenger, canned_entry.
  rewrite Hm, Hc, code_parser_of_key. reflexivity.
Qed.

Ltac split_on_status :=
  repeat match goal with
         | |- context [Z.leb ?a ?b] => destruct (Z.leb_spec a b); try lia
         | |- context [Z.ltb ?a ?b] => destruct (Z.ltb_spec a b); try lia
         | |- context [Z.eqb ?a ?b] => destruct (Z.eqb_spec a b); try lia
         end.

Lemma default_adder_canned (m : Messages) (s : State) (b : band) :
  truthy (exc_detail_or_none s) = false ->
  truthy (exc_codes_or_none s) = false ->
  status_band (status_or_200 s) = Some b ->
  __default_messenger_message_adder m s
  = with_messenger (__messenger s ++ [canned_entry (band_message m b)]) s.
Proof.
  intros Hm Hc. unfold __default_messenger_message_adder, status_band.
  generalize (status_or_200 s) as z. intro z.
  split_on_status; simpl; intro Hb; try lia; try discriminate;
    injection Hb as <-; now apply add_default_canned.
Qed.

Lemma default_adder_below_100 (m : Messages) (s : State) :
  status_or_200 s < 100 -> __default_messenger_message_adder m s = s.
Proof.
  unfold __default_messenger_message_adder.
  generalize (status_or_200 s) as z. intros z Hz.
  split_on_status; simpl; try lia; reflexivity.
Qed.

Lemma set_default_message_messenger (m : Messages) (s : State) :
  __messenger (__set_default_message m s)
  = __messenger (__default_messenger_message_adder m s).
Proof.
  unfold __set_default_message.
  generalize (__default_messenger_message_adder m s) as s1. intro s1.
  generalize (status_or_200 s1) as z. intro z.
  split_on_status; reflexivity.
Qed.

(** C5, as the code has it.  For a status code of 100 or more, and a
    recorded exception (if any) whose detail and codes are empty or absent,
    the version 1.0.0 builder given [None] computes the payload
    [{result: {}}], which the sanitizer renders as [{result: None}], and
    appends exactly one messenger entry, whose type, code and message are
    the canned ones of the band of the status code. *)
Theorem default_entry_for_missing_data
    (cfg : Settings) (m : Messages) (rq : Request) (s : State) (b : band) :
  truthy (exc_detail_or_none s) = false ->
  truthy (exc_codes_or_none s) = false ->
  status_band (status_or_200 s) = Some b ->
  let built := _response_context_v_1_0_0_response cfg m rq VNone s in
  field (fst built) "data" = Some (VDict [ "result" :-> VDict [] ]) /\
  field (_response_validator (fst built)) "data"
  = Some (VDict [ "result" :-> VNone ]) /\
  __messenger (snd built)
  = (__messenger s ++ [canned_entry (band_message m b)])%list.
Proof.
  intros Hm Hc Hb built. subst built.
  unfold _response_context_v_1_0_0_response.
  cbn [__set_messages_from_data].
  change (validate_data m (with_data VNone s))
    with (VDict [ "result" :-> VDict [] ],
          __set_default_message m (with_data VNone s)).
  cbv iota beta.
  pose proof (monitor_play_logs cfg (__set_default_message m (with_data VNone s))) as L.
  destruct (monitor_play cfg (__set_default_message m (with_data VNone s)))
    as [monitor s2].
  cbn [fst snd] in *.
  assert (D : dict_get
                (add_development_keys cfg rq s2
                   [ "success" :-> VBool (__success (__set_default_message m (with_data VNone s)));
                     "status_code" :-> VInt (status_or_200 (with_data VNone s));
                     "has_warning" :-> VBool (__has_warning (__set_default_message m (with_data VNone s)));
                     "monitor" :-> VDict monitor;
                     "messenger" :-> VList (__messenger s2);
                     "many" :-> VBool (__many (__set_default_message m (with_data VNone s)));
                     "data" :-> VDict [ "result" :-> VDict [] ] ])
                (KStr "data")
              = Some (VDict [ "result" :-> VDict [] ])).
  { rewrite dict_get_add_development_keys by discriminate. reflexivity. }
  split; [exact D|]. split.
  - apply (@field_response_validator _ "data" (VDict [ "result" :-> VDict [] ])).
    + apply NoDup_keys_add_development_keys, v1_envelope_keys_distinct.
    + exact D.
  - destruct L as (Lm & _). rewrite Lm, set_default_message_messenger.
    now rewrite (@default_adder_canned m (with_data VNone s) b).
Qed.

Lemma default_entry_for_missing_data_witness :
  let s := set_status_code (Some 404) init in
  let built :=
    _response_context_v_1_0_0_response sample_settings sample_messages
      sample_request VNone s in
  (truthy (exc_detail_or_none s) = false /\
   truthy (exc_codes_or_none s) = false /\
   status_band (status_or_200 s) = Some Band404) /\
  field (fst built) "data" = Some (VDict [ "result" :-> VDict [] ]) /\
  field (_response_validator (fst built)) "data"
  = Some (VDict [ "result" :-> VNone ]) /\
  __messenger (snd built)
  = (__messenger s ++ [canned_entry (band_message sample_messages Band404)])%list.
Proof.
  split; [repeat split|].
  apply (@default_entry_for_missing_data sample_settings sample_messages
           sample_request (set_status_code (Some 404) init) Band404);
    reflexivity.
Defined.

(** C5, as the specification has it, fails in two ways.  When a
    [NotFound] is raised and handled with the verbose flag off, the response
    is finalized with status 404 and data [None], and the one messenger
    entry carries the detail and code of the exception, not the canned ones
    of the 404 band; and for a stored status of 50 no entry is appended. *)
Lemma default_entry_follows_exception :
  match handle_exception strict_settings sample_request not_found init with
  | Ok (response, s1) =>
      resp_data response = VNone /\
      match finalize_response strict_settings sample_messages sample_request
              response s1 with
      | Ok (final, s2) =>
          resp_status final = 404 /\
          field (resp_data final) "data" = Some (VDict [ "result" :-> VNone ]) /\
          __messenger s2
          = [ VDict [ "type" :-> VStr "FAIL";
                      "code" :-> VStr "not_found";
                      "message" :-> VMsg ErrorDetail (KStr "not_found") "Not found." ] ] /\
          __messenger s2
          <> [ canned_entry (band_message sample_messages Band404) ]
      | Raise _ => False
      end
  | Raise _ => False
  end /\
  __messenger
    (snd (_response_context_v_1_0_0_response sample_settings sample_messages
            sample_request VNone (set_status_code (Some 50) init))) = [].
Proof. vm_compute. repeat split. discriminate. Qed.

(** ** Exception classification *)

(** The cascades alone do what the specification asks of a recognised
    exception: its own status code, and one message in the accumulator of
    its flavour. *)
Lemma classify_recognized (e : exception) (s : State) :
  match exc_class_of e with
  | DeveloperErrorResponseAPIMessage =>
      classify e s
      = set_error_message (exc_code e) (exc_message e)
          (set_status_code (Some (exc_status_code e)) s)
  | DeveloperExceptionResponseAPIMessage =>
      classify e s
      = set_exception_message (exc_code e) (exc_message e)
          (set_status_code (Some (exc_status_code e)) s)
  | DeveloperWarningResponseAPIMessage =>
      classify e s
      = set_warning_message (exc_code e) (exc_message e)
          (set_status_code (Some (exc_status_code e)) s)
  | EnduserErrorResponseAPIMessage =>
      classify e s
      = add_error_message_to_messenger (exc_message e) (key_value (exc_code e))
          (set_status_code (Some (exc_status_code e)) s)
  | EnduserFailResponseAPIMessage =>
      classify e s
      = add_fail_message_to_messenger (exc_message e) (key_value (exc_code e))
          (set_status_code (Some (exc_status_code e)) s)
  | EnduserWarningResponseAPIMessage =>
      classify e s
      = add_warning_message_to_messenger (exc_message e) (key_value (exc_code e))
          (set_status_code (Some (exc_status_code e)) s)
  | _ => classify e s = s
  end.
Proof. unfold classify. destruct (exc_class_of e); reflexivity. Qed.

Lemma coerce_authentication_args (rq : Request) (e : exception) (s : State) :
  exc_args (fst (fst (coerce_authentication rq e s))) = exc_args e.
Proof.
  unfold coerce_authentication.
  destruct (is_authentication_error e); [|reflexivity].
  now destruct (String.eqb (authenticate_header rq) EmptyString).
Qed.

(** C2 at work.  With the verbose-handling flag on, [handle_exception]
    hands every exception, recognised or not, to the generic handler: it
    returns a response, the stored status code is 421, and the error,
    exception and warning lists end with the [unexpectedError] messages. *)
Theorem verbose_handler_runs_for_every_exception
    (cfg : Settings) (rq : Request) (e : exception) (s : State) :
  HANDLING cfg = true ->
  exists response s',
    handle_exception cfg rq e s = Ok (response, s') /\
    __status_code s' = Some 421 /\
    (exists before,
       __errors_message s'
       = (before ++ [(KStr "unexpectedError", VStr unexpected_error_text)])%list) /\
    (exists before,
       __exceptions_message s'
       = (before ++ [(KStr "unexpectedError", VTuple (exc_args e))])%list) /\
    (exists before,
       __warnings_message s'
       = (before ++ [(KStr "unexpectedError",
                      VStr "Please discuss this matter with software support.")])%list).
Proof.
  intro H. unfold handle_exception. rewrite H.
  unfold _handle_exception_gando_handling_true.
  pose proof (coerce_authentication_args rq e (classify e (with_exc (Some e) s))) as A.
  destruct (coerce_authentication rq e (classify e (with_exc (Some e) s)))
    as [[e1 auth_header] s1].
  cbn [fst] in A.
  destruct (exception_handler e1 auth_header s1) as [found s2].
  do 2 eexists. split; [reflexivity|].
  destruct (String.eqb (COMMUNICATION_WITH_SOFTWARE_SUPPORT cfg) EmptyString);
    cbn; rewrite ?A; (split; [reflexivity|]);
    repeat split; eexists; reflexivity.
Qed.

Lemma verbose_handler_runs_for_every_exception_witness :
  HANDLING sample_settings = true /\
  exists response s',
    handle_exception sample_settings sample_request quota_exceeded init
    = Ok (response, s') /\
    __status_code s' = Some 421 /\
    (exists before,
       __errors_message s'
       = (before ++ [(KStr "unexpectedError", VStr unexpected_error_text)])%list) /\
    (exists before,
       __exceptions_message s'
       = (before ++ [(KStr "unexpectedError", VTuple (exc_args quota_exceeded))])%list) /\
    (exists before,
       __warnings_message s'
       = (before ++ [(KStr "unexpectedError",
                      VStr "Please discuss this matter with software support.")])%list).
Proof.
  split; [reflexivity|].
  apply (@verbose_handler_runs_for_every_exception sample_settings
           sample_request quota_exceeded init).
  reflexivity.
Defined.

(** The failing input end to end: an [EnduserFailResponseAPIMessage] raised
    with status 400 leaves the view with the stored status 421 and the
    [unexpectedError] messages next to its own messenger entry.  The class
    being an API exception, the handler's response carries 400, which the
    finalized response takes again; the [unexpectedError] messages stay,
    and so does the exception message that no API exception was meant to
    get. *)
Lemma quota_exceeded_keeps_unexpected_error :
  match handle_exception sample_settings sample_request quota_exceeded init with
  | Ok (response, s1) =>
      exc_status_code quota_exceeded = 400 /\
      __status_code s1 = Some 421 /\
      __messenger s1
      = [ VDict [ "type" :-> VStr "FAIL";
                  "code" :-> VStr "quota";
                  "message" :-> VStr "Quota exceeded." ] ] /\
      (exists before,
         __errors_message s1
         = (before ++ [ (KStr "unexpectedError", VStr unexpected_error_text) ])%list) /\
      __exceptions_message s1 = [ (KStr "unexpectedError", VTuple []) ] /\
      match finalize_response sample_settings sample_messages sample_request
              response s1 with
      | Ok (final, s2) =>
          resp_status final = 400 /\
          field (resp_data final) "success" = Some (VBool false) /\
          __exceptions_message s2 = [ (KStr "unexpectedError", VTuple []) ]
      | Raise _ => False
      end
  | Raise _ => False
  end.
Proof.
  vm_compute. repeat split.
  exists [ (KStr "quota", VStr "Quota exceeded.") ]. reflexivity.
Qed.

(** * Beyond the claims *)

(** ** The walker, value and state apart *)

(** The walker returns [normalised data] and leaves the state in which
    every wrapper of the tree has been recorded, in order. *)
Lemma walker_value_and_state (data : value) (st : State) :
  __set_messages_from_data data st
  = (normalised data, fold_left record (wrappers data) st).
Proof.
  revert st.
  induction data as [ | | | | c k t | l IH | | d IH | ] using Py.value_ind;
    intro st; try reflexivity.
  - simpl. unfold record. simpl. destruct c; reflexivity.
  - cbn [__set_messages_from_data normalised wrappers].
    match goal with
    | |- (let (_, _) := ?walk l st in _) = _ =>
        assert (W : forall s0,
                   walk l s0
                   = (map normalised l, fold_left record (flat_map wrappers l) s0))
    end.
    { induction IH as [|x r Hx _ IHr]; intro s0; [reflexivity|].
      cbn [map flat_map]. rewrite Hx, IHr, fold_left_app. reflexivity. }
    rewrite W. reflexivity.
  - cbn [__set_messages_from_data normalised wrappers]. unfold dict_rebuild.
    generalize (@nil (key * value)) as tmp.
    intro tmp.
    match goal with
    | |- (let (_, _) := ?walk d tmp st in _) = _ =>
        assert (W : forall tmp0 s0,
                   walk d tmp0 s0
                   = (fold_left (fun ret kv => dict_set ret (fst kv) (snd kv)) d tmp0,
                      fold_left record
                        (flat_map (fun kv => wrappers (snd kv)) d) s0))
    end.
    { clear tmp st. induction IH as [|[k v] r Hx _ IHr]; intros tmp0 s0;
        [reflexivity|].
      cbn [flat_map fold_left snd fst]. rewrite Hx, IHr, fold_left_app.
      reflexivity. }
    rewrite W. reflexivity.
Qed.

(** X1. For every tree and every state, the walker's result does not depend
    on the state, and the state it leaves is the one in which every wrapper
    string of the tree, those held as dict values included, has been
    recorded, depth first and in order. *)
Theorem walker_records_every_wrapper (data : value) (s : State) :
  fst (__set_messages_from_data data s) = normalised data /\
  snd (__set_messages_from_data data s) = fold_left record (wrappers data) s /\
  (wrappers data = [] -> snd (__set_messages_from_data data s) = s).
Proof.
  rewrite walker_value_and_state. cbn [fst snd].
  repeat split. intro E. now rewrite E.
Qed.

Lemma extends_refl {A : Type} (l : list A) : extends l l.
Proof. exists []. now rewrite app_nil_r. Qed.

Lemma extends_trans {A : Type} (a b c : list A) :
  extends a b -> extends b c -> extends a c.
Proof.
  intros [x ->] [y ->]. exists (x ++ y)%list. now rewrite app_assoc.
Qed.

Lemma extends_one {A : Type} (l : list A) (x : A) : extends l (l ++ [x]).
Proof. now exists [x]. Qed.

Lemma only_messages_grow_refl (s : State) : only_messages_grow s s.
Proof. repeat split; apply extends_refl. Qed.

Lemma only_messages_grow_trans (a b c : State) :
  only_messages_grow a b -> only_messages_grow b c -> only_messages_grow a c.
Proof.
  unfold only_messages_grow. intros H1 H2.
  repeat match goal with H : _ /\ _ |- _ => destruct H end.
  repeat split; try congruence; eapply extends_trans; eassumption.
Qed.

Lemma record_grows (s : State) (w : value) : only_messages_grow s (record s w).
Proof.
  unfold record.
  destruct w as [ | | | | c k t | | | | ]; try apply only_messages_grow_refl.
  destruct c; simpl; repeat split;
    first [apply extends_refl | apply extends_one].
Qed.

Lemma fold_record_grows (ws : list value) (s : State) :
  only_messages_grow s (fold_left record ws s).
Proof.
  revert s. induction ws as [|w r IH]; intro s; simpl.
  - apply only_messages_grow_refl.
  - eapply only_messages_grow_trans; [apply record_grows | apply IH].
Qed.

Lemma walker_grows (data : value) (s : State) :
  only_messages_grow s (snd (__set_messages_from_data data s)).
Proof. rewrite walker_value_and_state. apply fold_record_grows. Qed.

(** X2. Normalising the data never touches the messenger, the status code,
    the exception flag, the headers, the monitor or the recorded exception,
    and each of the five message lists keeps what it held, in place, in
    front of what was added. *)
Theorem walker_only_appends (data : value) (s : State) :
  let s' := snd (__set_messages_from_data data s) in
  __messenger s' = __messenger s /\
  __status_code s' = __status_code s /\
  __exception_status s' = __exception_status s /\
  __headers s' = __headers s /\
  __monitor s' = __monitor s /\
  exc s' = exc s /\
  extends (__logs_message s) (__logs_message s') /\
  extends (__infos_message s) (__infos_message s') /\
  extends (__warnings_message s) (__warnings_message s') /\
  extends (__errors_message s) (__errors_message s') /\
  extends (__exceptions_message s) (__exceptions_message s').
Proof.
  cbv zeta. pose proof (walker_grows data s) as G.
  unfold only_messages_grow in G.
  repeat match goal with H : _ /\ _ |- _ => destruct H end.
  repeat split; assumption.
Qed.

(** ** The sanitizer leaves no empty dict *)

Lemma fold_dict_set_values (P : value -> Prop) (f : value -> value)
    (d acc : dict) :
  Forall (fun kv => P (snd kv)) acc ->
  Forall (fun kv => P (f (snd kv))) d ->
  Forall (fun kv => P (snd kv))
    (fold_left (fun ret kv => dict_set ret (fst kv) (f (snd kv))) d acc).
Proof.
  intros Ha Hd. revert acc Ha.
  induction Hd as [|kv r Hkv _ IH]; intros acc Ha; simpl; [exact Ha|].
  apply IH. clear IH.
  induction acc as [|[k0 v0] acc' IHa]; simpl.
  - now constructor.
  - inversion Ha; subst. destruct (key_eqb k0 (fst kv)).
    + constructor; assumption.
    + constructor; [assumption | now apply IHa].
Qed.

Lemma existsb_false_Forall {A : Type} (p : A -> bool) (l : list A) :
  Forall (fun x => p x = false) l -> existsb p l = false.
Proof.
  induction 1 as [|x r Hx _ IH]; simpl; [reflexivity|]. now rewrite Hx, IH.
Qed.

(** X3. Whatever the input, the sanitized value holds no empty dict: not at
    the top, not in a list, not as the value of a dict, at any depth the
    sanitizer reaches. *)
Theorem response_validator_leaves_no_empty_dict (input_data : value) :
  has_empty_dict (_response_validator input_data) = false.
Proof.
  induction input_data as [ | | | | | l IH | | d IH | ]
    using Py.value_ind; try reflexivity.
  - destruct l as [|x r]; [reflexivity|].
    cbn [_response_validator has_empty_dict].
    apply existsb_false_Forall. apply Forall_map. exact IH.
  - destruct d as [|kv r]; [reflexivity|].
    change (_response_validator (VDict (kv :: r)))
      with (VDict (dict_rebuild _response_validator (kv :: r))).
    assert (N : dict_rebuild _response_validator (kv :: r) <> [])
      by (apply dict_rebuild_not_nil; discriminate).
    assert (F : Forall (fun e => has_empty_dict (snd e) = false)
                  (dict_rebuild _response_validator (kv :: r))).
    { unfold dict_rebuild.
      apply (fold_dict_set_values (fun v => has_empty_dict v = false));
        [constructor | exact IH]. }
    destruct (dict_rebuild _response_validator (kv :: r)) as [|e es];
      [contradiction|].
    cbn [has_empty_dict].
    apply (existsb_false_Forall (fun e0 => has_empty_dict (snd e0))). exact F.
Qed.

Lemma well_keyed_list (l : list value) :
  well_keyed (VList l) <-> Forall well_keyed l.
Proof.
  cbn [well_keyed]. induction l as [|x r IH]; simpl.
  - split; constructor.
  - split.
    + intros [Hx Hr]. constructor; [exact Hx | now apply IH].
    + intro H. inversion H; subst. split; [assumption | now apply IH].
Qed.

Lemma well_keyed_dict (d : dict) :
  well_keyed (VDict d) <->
  NoDup (keys d) /\ Forall (fun kv => well_keyed (snd kv)) d.
Proof.
  cbn [well_keyed].
  assert (E : fold_right (fun kv rest => well_keyed (snd kv) /\ rest) True d
              <-> Forall (fun kv => well_keyed (snd kv)) d).
  { induction d as [|x r IH]; simpl.
    - split; constructor.
    - split.
      + intros [Hx Hr]. constructor; [exact Hx | now apply IH].
      + intro H. inversion H; subst. split; [assumption | now apply IH]. }
  tauto.
Qed.

Lemma map_values_id_on (f : value -> value) (d : dict) :
  Forall (fun kv => f (snd kv) = snd kv) d -> map_values f d = d.
Proof.
  induction 1 as [|[k v] r Hx _ IH]; simpl; [reflexivity|].
  simpl in Hx. now rewrite Hx, IH.
Qed.

(** X4. A tree that holds no empty dict, and whose dicts have distinct
    keys, comes out of the sanitizer as it went in. *)
Theorem response_validator_fixes_clean_data (input_data : value) :
  has_empty_dict input_data = false ->
  well_keyed input_data ->
  _response_validator input_data = input_data.
Proof.
  induction input_data as [ | | | | | l IH | | d IH | ]
    using Py.value_ind; try reflexivity.
  - intros He Hk. destruct l as [|x r]; [reflexivity|].
    cbn [_response_validator]. f_equal.
    apply well_keyed_list in Hk. cbn [has_empty_dict] in He.
    revert IH He Hk. generalize (x :: r) as l'. intros l' IH.
    induction IH as [|y ys Hy _ IHys]; intros He Hk; [reflexivity|].
    simpl in He. apply orb_false_iff in He. destruct He as [He1 He2].
    inversion Hk; subst. simpl. rewrite Hy by assumption.
    f_equal. now apply IHys.
  - intros He Hk. destruct d as [|kv r]; [discriminate|].
    change (_response_validator (VDict (kv :: r)))
      with (VDict (dict_rebuild _response_validator (kv :: r))).
    apply well_keyed_dict in Hk. destruct Hk as [Hn Hw].
    unfold dict_rebuild. rewrite fold_distinct_keys by exact Hn.
    rewrite app_nil_l. f_equal. apply map_values_id_on.
    cbn [has_empty_dict] in He.
    clear Hn. revert IH He Hw. generalize (kv :: r) as d'. intros d' IH.
    induction IH as [|y ys Hy _ IHys]; intros He Hw; [constructor|].
    assert (He' : has_empty_dict (snd y) = false /\
                  existsb (fun e => has_empty_dict (snd e)) ys = false).
    { destruct ys; simpl in He; apply orb_false_iff in He; exact He. }
    destruct He' as [He1 He2].
    inversion Hw; subst. constructor; [now apply Hy|].
    destruct ys as [|z zs]; [constructor|]. apply IHys; assumption.
Qed.

Lemma response_validator_fixes_clean_data_witness :
  let page := VDict [ "count" :-> VInt 1; "results" :-> VList [ VDict [ "id" :-> VInt 7 ] ] ] in
  (has_empty_dict page = false /\ well_keyed page) /\
  _response_validator page = page.
Proof.
  cbv zeta. assert (K : well_keyed
    (VDict [ "count" :-> VInt 1; "results" :-> VList [ VDict [ "id" :-> VInt 7 ] ] ])).
  { simpl. repeat split; repeat constructor; simpl; intuition discriminate. }
  split; [split; [reflexivity | exact K]|].
  apply (@response_validator_fixes_clean_data
           (VDict [ "count" :-> VInt 1; "results" :-> VList [ VDict [ "id" :-> VInt 7 ] ] ])).
  - reflexivity.
  - exact K.
Defined.

(** ** What adding to the accumulator can do to the flags *)

Lemma is_nil_app_false {A : Type} (l : list A) (x : A) :
  Nat.eqb (List.length (l ++ [x])) 0 = false.
Proof. rewrite length_app. simpl. apply Nat.eqb_neq. lia. Qed.

Lemma success_after_accumulate (s : State) (a : accumulation) :
  __success (accumulate s a) = true -> __success s = true.
Proof.
  unfold __success, __fail_message_messenger, status_or_200.
  destruct a; simpl; try (intro H; exact H).
  - rewrite is_nil_app_false. simpl.
    destruct ((200 <=? _) && (_ <? 300)); [reflexivity | discriminate].
  - rewrite is_nil_app_false. rewrite andb_false_r. simpl.
    destruct ((200 <=? _) && (_ <? 300)); [reflexivity | discriminate].
  - rewrite existsb_app. simpl.
    destruct ((200 <=? _) && (_ <? 300)); [reflexivity|].
    destruct (Nat.eqb (List.length (__errors_message s)) 0); [|discriminate].
    destruct (Nat.eqb (List.length (__exceptions_message s)) 0); [|discriminate].
    destruct (negb (__exception_status s)); [|discriminate].
    destruct (existsb _ (__messenger s)); simpl; [discriminate | reflexivity].
Qed.

(** X5. Adding to the accumulator can only take success away: if the view
    is successful after any run of [set_*_message] and messenger calls, it
    was successful before them. *)
Theorem success_never_regained (ops : list accumulation) (s : State) :
  __success (fold_left accumulate ops s) = true -> __success s = true.
Proof.
  revert s. induction ops as [|a r IH]; intro s; simpl; [easy|].
  intro H. apply (success_after_accumulate s a), IH, H.
Qed.

Lemma success_never_regained_witness :
  let ops := [ AddInfo (KStr "note") (VStr "cached");
               AddToMessenger (VStr "Saved.") (VStr "saved") "SUCCESS" ] in
  let s := set_status_code (Some 404) init in
  __success (fold_left accumulate ops s) = true /\ __success s = true.
Proof.
  cbv zeta. split; [reflexivity|].
  apply (@success_never_regained
           [ AddInfo (KStr "note") (VStr "cached");
             AddToMessenger (VStr "Saved.") (VStr "saved") "SUCCESS" ]
           (set_status_code (Some 404) init)).
  reflexivity.
Defined.

Lemma has_warning_after_accumulate (s : State) (a : accumulation) :
  __has_warning s = true -> __has_warning (accumulate s a) = true.
Proof.
  unfold __has_warning, __warning_message_messenger.
  destruct a; simpl; try (intro H; exact H).
  - rewrite is_nil_app_false. simpl.
    destruct (negb (Nat.eqb (List.length (__warnings_message s)) 0)); simpl;
      [|discriminate].
    destruct (existsb _ (__messenger s)); [reflexivity | discriminate].
  - rewrite existsb_app.
    destruct (negb (Nat.eqb (List.length (__warnings_message s)) 0)); simpl;
      [|discriminate].
    destruct (existsb _ (__messenger s)); [reflexivity | discriminate].
Qed.

(** X6. Adding to the accumulator never clears the warning flag: once
    [__has_warning] holds, it holds after any run of [set_*_message] and
    messenger calls. *)
Theorem has_warning_never_cleared (ops : list accumulation) (s : State) :
  __has_warning s = true -> __has_warning (fold_left accumulate ops s) = true.
Proof.
  revert s. induction ops as [|a r IH]; intro s; simpl; [easy|].
  intro H. apply IH, has_warning_after_accumulate, H.
Qed.

Lemma has_warning_never_cleared_witness :
  let s := accumulate (accumulate init (AddWarning (KStr "slow") (VStr "Slow."))) 
             (AddToMessenger (VStr "Slow.") (VStr "slow") "WARNING") in
  (__has_warning s = true /\
   __has_warning (accumulate init (AddWarning (KStr "slow") (VStr "Slow."))) = false /\
   __has_warning (accumulate init (AddToMessenger (VStr "Slow.") (VStr "slow") "WARNING")) = false) /\
  __has_warning (fold_left accumulate [ AddError (KStr "e") (VStr "Failed.") ] s) = true.
Proof.
  cbv zeta. split; [repeat split|].
  apply (@has_warning_never_cleared [ AddError (KStr "e") (VStr "Failed.") ]
           (accumulate (accumulate init (AddWarning (KStr "slow") (VStr "Slow.")))
              (AddToMessenger (VStr "Slow.") (VStr "slow") "WARNING"))).
  reflexivity.
Defined.

(** ** The envelope, field by field *)

Lemma v1_envelope (cfg : Settings) (m : Messages) (rq : Request)
    (data : value) (s : State) :
  let s0 := with_data (normalised data) (fold_left record (wrappers data) s) in
  let vd := validate_data m s0 in
  let mp := monitor_play cfg (snd vd) in
  _response_context_v_1_0_0_response cfg m rq data s
  = (VDict (add_development_keys cfg rq (snd mp)
              [ "success" :-> VBool (__success (snd vd));
                "status_code" :-> VInt (status_or_200 s0);
                "has_warning" :-> VBool (__has_warning (snd vd));
                "monitor" :-> VDict (fst mp);
                "messenger" :-> VList (__messenger (snd mp));
                "many" :-> VBool (__many (snd vd));
                "data" :-> fst vd ]),
     snd mp).
Proof.
  cbv zeta. unfold _response_context_v_1_0_0_response.
  rewrite walker_value_and_state.
  destruct (validate_data m _) as [payload s1]. cbn [fst snd].
  destruct (monitor_play cfg s1) as [monitor s2]. reflexivity.
Qed.

Lemma v2_envelope (cfg : Settings) (m : Messages) (rq : Request)
    (data : value) (s : State) :
  let s0 := with_data (normalised data) (fold_left record (wrappers data) s) in
  _response_context_v_2_0_0_response cfg m rq data s
  = match validate_data_v_2_0_0_response m rq s0 with
    | Ok (d, s1) =>
        Ok (VDict (add_development_keys cfg rq s1
                     (dict_update
                        [ "success" :-> VBool (__success s1);
                          "status_code" :-> VInt (status_or_200 s0);
                          "messenger" :-> VList (__messenger s1) ] d)),
            s1)
    | Raise err => Raise err
    end.
Proof.
  cbv zeta. unfold _response_context_v_2_0_0_response.
  rewrite walker_value_and_state.
  destruct (validate_data_v_2_0_0_response m rq _) as [[d s1]|err];
    reflexivity.
Qed.

Lemma v2_head_keys_distinct (a b c : value) (d : dict) :
  NoDup (keys (dict_update [ "success" :-> a; "status_code" :-> b;
                             "messenger" :-> c ] d)).
Proof.
  apply NoDup_keys_dict_update. simpl.
  repeat constructor; simpl; intuition discriminate.
Qed.

Lemma v2_data_only_page_keys (m : Messages) (rq : Request) (s s' : State)
    (d : dict) (k : string) :
  validate_data_v_2_0_0_response m rq s = Ok (d, s') ->
  k <> "count" -> k <> "next" -> k <> "previous" -> k <> "result" ->
  dict_get d (KStr k) = None.
Proof.
  intros H H1 H2 H3 H4.
  assert (E1 : String.eqb "count" k = false) by (apply String.eqb_neq; congruence).
  assert (E2 : String.eqb "next" k = false) by (apply String.eqb_neq; congruence).
  assert (E3 : String.eqb "previous" k = false) by (apply String.eqb_neq; congruence).
  assert (E4 : String.eqb "result" k = false) by (apply String.eqb_neq; congruence).
  revert H. unfold validate_data_v_2_0_0_response.
  destruct (__data s) as [ | | | | | | | d0 | ];
    repeat match goal with
           | |- context [if ?b then _ else _] => destruct b
           | |- context [let (_, _) := ?x in _] => destruct x
           | |- context [match ?x with Ok _ => _ | Raise _ => _ end] =>
               destruct x as [[? ?]|?]
           end;
    intro H; inversion H; subst; cbn [dict_get key_eqb];
    rewrite ?E1, ?E2, ?E3, ?E4; reflexivity.
Qed.

Lemma field_response_validator_absent (d : dict) (k : string) :
  NoDup (keys d) ->
  dict_get d (KStr k) = None ->
  field (_response_validator (VDict d)) k = None.
Proof.
  intros N H. destruct d as [|kv r]; [reflexivity|].
  change (_response_validator (VDict (kv :: r)))
    with (VDict (dict_rebuild _response_validator (kv :: r))).
  unfold dict_rebuild. rewrite fold_distinct_keys by exact N.
  rewrite app_nil_l. unfold field. rewrite dict_get_map_values, H. reflexivity.
Qed.

(** From [Ok (a, b) = Ok (x, y)], [x] and [y] replaced by [a] and [b],
    without reducing either. *)
Ltac ok_injection H :=
  match type of H with
  | Ok (?a, ?b) = Ok (?x, ?y) =>
      let Ex := fresh in
      let Ey := fresh in
      assert (Ex : x = a) by congruence;
      assert (Ey : y = b) by congruence;
      clear H; subst x; subst y
  end.

Lemma add_development_keys_off (cfg : Settings) (rq : Request) (s : State)
    (tmp : dict) :
  DEVELOPMENT_STATE cfg = false -> add_development_keys cfg rq s tmp = tmp.
Proof.
  intro H. unfold add_development_keys, __development_messages_display,
    __exception_status_display. now rewrite H.
Qed.

(** X7. When the global development-state flag is off, no envelope, in
    either schema version and whatever the request headers say, has the key
    [development_messages] or the key [exception_status]. *)
Theorem development_keys_need_development_state
    (cfg : Settings) (m : Messages) (rq : Request) (data : value)
    (s s' : State) (envelope : value) :
  DEVELOPMENT_STATE cfg = false ->
  response_context cfg m rq data s = Ok (envelope, s') ->
  field envelope "development_messages" = None /\
  field envelope "exception_status" = None.
Proof.
  intros Hoff. unfold response_context.
  destruct (String.eqb (response_schema_version rq) "2.0.0").
  - rewrite v2_envelope. cbv zeta.
    destruct (validate_data_v_2_0_0_response m rq _) as [[d s1]|err] eqn:E;
      [|discriminate].
    cbv beta iota. intro H. ok_injection H.
    rewrite add_development_keys_off by exact Hoff.
    split; apply field_response_validator_absent;
      try apply v2_head_keys_distinct;
      (rewrite dict_get_dict_update;
       [reflexivity | eapply v2_data_only_page_keys; [exact E | discriminate ..]]).
  - rewrite v1_envelope. cbv beta iota zeta. intro H. ok_injection H.
    rewrite add_development_keys_off by exact Hoff.
    split; apply field_response_validator_absent;
      try apply v1_envelope_keys_distinct; reflexivity.
Qed.

Lemma development_keys_need_development_state_witness :
  (DEVELOPMENT_STATE sample_settings = false /\
   response_context sample_settings sample_messages display_request
     (VList [ VInt 1 ]) init
   = Ok (one_item_envelope, with_data (VList [ VInt 1 ]) init)) /\
  field one_item_envelope "development_messages" = None /\
  field one_item_envelope "exception_status" = None.
Proof.
  split; [split; reflexivity|].
  apply (@development_keys_need_development_state sample_settings
           sample_messages display_request (VList [ VInt 1 ]) init
           (with_data (VList [ VInt 1 ]) init) one_item_envelope);
    reflexivity.
Defined.

Lemma response_validator_list (l : list value) :
  _response_validator (VList l) = VList (map _response_validator l).
Proof. now destruct l. Qed.

Lemma walked_state_status (data : value) (s : State) :
  status_or_200 (with_data (normalised data) (fold_left record (wrappers data) s))
  = status_or_200 s.
Proof.
  pose proof (fold_record_grows (wrappers data) s) as G.
  unfold only_messages_grow in G.
  repeat match goal with H : _ /\ _ |- _ => destruct H end.
  unfold status_or_200. simpl.
  match goal with E : __status_code _ = __status_code s |- _ => now rewrite E end.
Qed.

(** The fields every envelope has, in either schema version. *)
Lemma response_context_fields
    (cfg : Settings) (m : Messages) (rq : Request) (data : value)
    (s s' : State) (envelope : value) :
  response_context cfg m rq data s = Ok (envelope, s') ->
  field envelope "status_code" = Some (VInt (status_or_200 s)) /\
  field envelope "messenger"
  = Some (VList (map _response_validator (__messenger s'))) /\
  exists b, field envelope "success" = Some (VBool b).
Proof.
  unfold response_context.
  destruct (String.eqb (response_schema_version rq) "2.0.0").
  - rewrite v2_envelope. cbv zeta.
    destruct (validate_data_v_2_0_0_response m rq _) as [[d s1]|err] eqn:E;
      [|discriminate].
    cbv beta iota. intro H. ok_injection H.
    rewrite <- (walked_state_status data s), <- response_validator_list.
    repeat split; [| |eexists];
      [ apply (@field_response_validator _ "status_code" (VInt _))
      | apply (@field_response_validator _ "messenger" (VList _))
      | apply (@field_response_validator _ "success" (VBool _)) ];
      try apply NoDup_keys_add_development_keys, v2_head_keys_distinct;
      (rewrite dict_get_add_development_keys by discriminate;
       rewrite dict_get_dict_update;
       [reflexivity | eapply v2_data_only_page_keys; [exact E | discriminate ..]]).
  - rewrite v1_envelope. cbv beta iota zeta. intro H. ok_injection H.
    rewrite <- (walked_state_status data s), <- response_validator_list.
    repeat split; [| |eexists];
      [ apply (@field_response_validator _ "status_code" (VInt _))
      | apply (@field_response_validator _ "messenger" (VList _))
      | apply (@field_response_validator _ "success" (VBool _)) ];
      try apply NoDup_keys_add_development_keys, v1_envelope_keys_distinct;
      (rewrite dict_get_add_development_keys by discriminate; reflexivity).
Qed.

Lemma set_default_message_extends (m : Messages) (s : State) :
  extends (__messenger s) (__messenger (__set_default_message m s)).
Proof.
  rewrite set_default_message_messenger.
  unfold __default_messenger_message_adder.
  generalize (status_or_200 s). intro z.
  split_on_status; first [apply extends_refl | apply extends_one].
Qed.

Lemma set_dynamic_message_messenger (v : value) (s : State) :
  __messenger (snd (__set_dynamic_message v s)) = __messenger s.
Proof. pose proof (record_grows s v) as G. now destruct G as (G & _). Qed.

Lemma validate_data_extends (m : Messages) (s : State) :
  extends (__messenger s) (__messenger (snd (validate_data m s))).
Proof.
  unfold validate_data.
  destruct (__data s) as [ | | | | c k t | | | | ] eqn:D; cbn [snd];
    try apply extends_refl.
  - apply set_default_message_extends.
  - destruct c; apply extends_refl.
Qed.

Lemma validate_data_v2_extends (m : Messages) (rq : Request) (s s' : State)
    (d : dict) :
  validate_data_v_2_0_0_response m rq s = Ok (d, s') ->
  extends (__messenger s) (__messenger s').
Proof.
  unfold validate_data_v_2_0_0_response.
  destruct (__data s) as [ | | | z | c k t | l | | d0 | ] eqn:D.
  - intro H. ok_injection H. apply set_default_message_extends.
  - intro H. ok_injection H. apply extends_refl.
  - intro H. ok_injection H. apply extends_refl.
  - cbn [__set_dynamic_message]. intro H. ok_injection H. apply extends_refl.
  - destruct c; cbn [__set_dynamic_message]; intro H; ok_injection H;
      apply extends_refl.
  - destruct (pagination rq); intro H; ok_injection H; apply extends_refl.
  - intro H. ok_injection H. apply extends_refl.
  - repeat match goal with
           | |- context [if ?b then _ else _] => destruct b
           | |- context [match ?x with Ok _ => _ | Raise _ => _ end] =>
               destruct x as [[? ?]|?]
           end;
      intro H; try discriminate; ok_injection H; apply extends_refl.
  - intro H. ok_injection H. apply extends_refl.
Qed.

(** X8. In every envelope the builder produces, in either schema version,
    the [messenger] field lists the entries of the view's messenger, each
    sanitized, in the order they were appended and none left out; the
    entries the view held before come first. *)
Theorem envelope_messenger_keeps_order
    (cfg : Settings) (m : Messages) (rq : Request) (data : value)
    (s s' : State) (envelope : value) :
  response_context cfg m rq data s = Ok (envelope, s') ->
  exists entries,
    field envelope "messenger" = Some (VList entries) /\
    entries = map _response_validator (__messenger s') /\
    List.length entries = List.length (__messenger s') /\
    extends (__messenger s) (__messenger s').
Proof.
  intro H. pose proof (response_context_fields _ _ _ _ _ H) as (_ & Hm & _).
  eexists. split; [exact Hm|]. split; [reflexivity|].
  split; [apply length_map|].
  pose proof (fold_record_grows (wrappers data) s) as (Gm & _).
  revert H. unfold response_context.
  destruct (String.eqb (response_schema_version rq) "2.0.0").
  - rewrite v2_envelope. cbv zeta.
    destruct (validate_data_v_2_0_0_response m rq _) as [[d s1]|err] eqn:E;
      [|discriminate].
    cbv beta iota. intro H. ok_injection H.
    apply validate_data_v2_extends in E. cbn [__messenger with_data] in E.
    now rewrite Gm in E.
  - rewrite v1_envelope. cbv beta iota zeta. intro H. ok_injection H.
    pose proof (monitor_play_logs cfg
                  (snd (validate_data m
                          (with_data (normalised data)
                             (fold_left record (wrappers data) s))))) as (Lm & _).
    rewrite Lm.
    pose proof (validate_data_extends m
                  (with_data (normalised data)
                     (fold_left record (wrappers data) s))) as V.
    cbn [__messenger with_data] in V. now rewrite Gm in V.
Qed.

Lemma envelope_messenger_keeps_order_witness :
  response_context sample_settings sample_messages sample_request
    (VList [ VInt 1 ]) saved
  = Ok (saved_envelope, with_data (VList [ VInt 1 ]) saved) /\
  exists entries,
    field saved_envelope "messenger" = Some (VList entries) /\
    entries = map _response_validator
                (__messenger (with_data (VList [ VInt 1 ]) saved)) /\
    List.length entries
    = List.length (__messenger (with_data (VList [ VInt 1 ]) saved)) /\
    extends (__messenger saved)
      (__messenger (with_data (VList [ VInt 1 ]) saved)).
Proof.
  split; [reflexivity|].
  apply (@envelope_messenger_keeps_order sample_settings sample_messages
           sample_request (VList [ VInt 1 ]) saved
           (with_data (VList [ VInt 1 ]) saved) saved_envelope).
  reflexivity.
Defined.

(** ** The finalized response *)

Lemma status_or_200_not_zero (s : State) : status_or_200 s <> 0.
Proof.
  unfold status_or_200. destruct (__status_code s) as [z|]; [|lia].
  destruct (Z.eqb_spec z 0); lia.
Qed.

Lemma fold_set_headers_status (l : dict) (s : State) :
  __status_code (fold_left (fun acc e => set_headers (fst e) (snd e) acc) l s)
  = __status_code s.
Proof.
  revert s. induction l as [|e l IH]; intro s; [reflexivity|].
  simpl. now rewrite IH.
Qed.

Lemma get_headers_status (v : option dict) (s : State) :
  __status_code (snd (get_headers v s)) = __status_code s.
Proof.
  unfold get_headers. destruct v as [[|kv r]|]; try reflexivity.
  cbn [snd]. apply fold_set_headers_status.
Qed.

(** What [finalize_response] does before and after building the body. *)
Lemma finalize_response_parts
    (cfg : Settings) (m : Messages) (rq : Request) (r final : Response)
    (s s' : State) :
  finalize_response cfg m rq r s = Ok (final, s') ->
  exists s3,
    response_context cfg m rq (resp_data r) s3 = Ok (resp_data final, s') /\
    resp_status final = status_or_200 s3 /\
    resp_exception final = resp_exception r /\
    __exception_status s3 = resp_exception r /\
    status_or_200 s3
    = (if is_stored_by_get (resp_status r) then resp_status r
       else status_or_200 s).
Proof.
  unfold finalize_response.
  destruct (get_headers (Some (resp_headers r)) s) as [headers s1] eqn:Eh.
  cbn [get_exception_status get_status_code].
  set (s2 := set_exception_status (resp_exception r) s1).
  set (s3 := if negb (resp_status r =? 0) &&
                ((100 <=? resp_status r) && (resp_status r <? 600)) &&
                negb (resp_status r =? 200)
             then set_status_code (Some (resp_status r)) s2 else s2).
  destruct (response_context cfg m rq (resp_data r) s3) as [[env s4]|err] eqn:E;
    [|discriminate].
  intro H. injection H as <- <-. cbn [resp_data resp_status resp_exception].
  exists s3. split; [exact E|]. split; [reflexivity|]. split; [reflexivity|].
  assert (S1 : __status_code s1 = __status_code s).
  { pose proof (get_headers_status (Some (resp_headers r)) s) as G.
    now rewrite Eh in G. }
  unfold is_stored_by_get. subst s3 s2.
  destruct (negb (resp_status r =? 0) &&
            ((100 <=? resp_status r) && (resp_status r <? 600)) &&
            negb (resp_status r =? 200)) eqn:V.
  - split; [reflexivity|]. unfold status_or_200. simpl.
    apply andb_true_iff in V. destruct V as [V _].
    apply andb_true_iff in V. destruct V as [V _].
    apply negb_true_iff in V. now rewrite V.
  - split; [reflexivity|]. unfold status_or_200. simpl. now rewrite S1.
Qed.

(** X9. The response that [finalize_response] builds is consistent: the
    [status_code] field of its body is its HTTP status, which is never 0;
    that status is the one of the view's response when it is a code of
    [100,600) other than 200, and the stored one (200 when none is stored)
    otherwise; and its exception flag is that of the view's response. *)
Theorem finalized_status_is_consistent
    (cfg : Settings) (m : Messages) (rq : Request) (r final : Response)
    (s s' : State) :
  finalize_response cfg m rq r s = Ok (final, s') ->
  field (resp_data final) "status_code" = Some (VInt (resp_status final)) /\
  resp_status final <> 0 /\
  resp_status final
  = (if is_stored_by_get (resp_status r) then resp_status r
     else status_or_200 s) /\
  resp_exception final = resp_exception r.
Proof.
  intro H. apply finalize_response_parts in H.
  destruct H as (s3 & E & Es & Ee & _ & Ev).
  apply response_context_fields in E. destruct E as (Ef & _).
  rewrite Es. split; [exact Ef|]. split; [apply status_or_200_not_zero|].
  split; [exact Ev | exact Ee].
Qed.

Lemma finalized_status_is_consistent_witness :
  match finalize_response sample_settings sample_messages sample_request
          flagged_response init with
  | Ok (final, s') =>
      finalize_response sample_settings sample_messages sample_request
        flagged_response init = Ok (final, s') /\
      field (resp_data final) "status_code" = Some (VInt (resp_status final)) /\
      resp_status final <> 0 /\
      resp_status final
      = (if is_stored_by_get (resp_status flagged_response)
         then resp_status flagged_response else status_or_200 init) /\
      resp_exception final = resp_exception flagged_response
  | Raise _ => False
  end.
Proof.
  destruct (finalize_response sample_settings sample_messages sample_request
              flagged_response init) as [[final s']|err] eqn:E.
  - split; [reflexivity|].
    apply (@finalized_status_is_consistent sample_settings sample_messages
             sample_request flagged_response final init s'). exact E.
  - vm_compute in E. discriminate.
Defined.

(** ** A response without data *)

Lemma default_adder_cases (m : Messages) (s : State) :
  __default_messenger_message_adder m s = s \/
  exists message code type_,
    __default_messenger_message_adder m s
    = __add_to_messenger message code type_ s.
Proof.
  unfold __default_messenger_message_adder, add_default.
  generalize (status_or_200 s). intro z.
  split_on_status; first [now left | right; do 3 eexists; reflexivity].
Qed.

Lemma default_adder_status (m : Messages) (s : State) :
  __status_code (__default_messenger_message_adder m s) = __status_code s /\
  __errors_message (__default_messenger_message_adder m s) = __errors_message s.
Proof.
  destruct (default_adder_cases m s) as [E|(a & b & t & E)]; rewrite E;
    split; reflexivity.
Qed.

Lemma default_message_fails (m : Messages) (s : State) :
  status_or_200 s < 100 \/ 300 <= status_or_200 s ->
  __success (__set_default_message m s) = false.
Proof.
  intro H. unfold __set_default_message.
  pose proof (default_adder_status m s) as (Es & Ee).
  assert (E : status_or_200 (__default_messenger_message_adder m s)
              = status_or_200 s) by (unfold status_or_200; now rewrite Es).
  set (s1 := __default_messenger_message_adder m s) in *.
  rewrite E.
  assert (F : forall k t, __success (set_error_message k t s1) = false).
  { intros k t. unfold __success.
    replace (status_or_200 (set_error_message k t s1)) with (status_or_200 s)
      by (rewrite <- E; reflexivity).
    replace ((200 <=? status_or_200 s) && (status_or_200 s <? 300)) with false
      by (symmetry; apply andb_false_iff;
          destruct H; [left; apply Z.leb_gt; lia | right; apply Z.ltb_ge; lia]).
    cbn [__errors_message set_error_message]. now rewrite is_nil_app_false. }
  generalize dependent (status_or_200 s). intros z H _.
  split_on_status; apply F.
Qed.

(** The envelope of a response without data, when one is built. *)
Lemma no_data_envelope
    (cfg : Settings) (m : Messages) (rq : Request) (s s' : State)
    (envelope : value) :
  response_context cfg m rq VNone s = Ok (envelope, s') ->
  field envelope "success"
  = Some (VBool (__success (__set_default_message m (with_data VNone s)))).
Proof.
  unfold response_context.
  destruct (String.eqb (response_schema_version rq) "2.0.0").
  - rewrite v2_envelope. cbv zeta. cbn [normalised wrappers fold_left].
    change (validate_data_v_2_0_0_response m rq (with_data VNone s))
      with (Ok ([ "result" :-> VDict [] ],
                __set_default_message m (with_data VNone s))).
    cbv beta iota. intro H. ok_injection H.
    apply (@field_response_validator _ "success" (VBool _)).
    + apply NoDup_keys_add_development_keys, v2_head_keys_distinct.
    + rewrite dict_get_add_development_keys by discriminate. reflexivity.
  - rewrite v1_envelope. cbv zeta. cbn [normalised wrappers fold_left].
    change (validate_data m (with_data VNone s))
      with (VDict [ "result" :-> VDict [] ],
            __set_default_message m (with_data VNone s)).
    cbv beta iota. cbn [fst snd]. intro H. ok_injection H.
    apply (@field_response_validator _ "success" (VBool _)).
    + apply NoDup_keys_add_development_keys, v1_envelope_keys_distinct.
    + rewrite dict_get_add_development_keys by discriminate. reflexivity.
Qed.

(** Version 2.0.0 runs no monitor hook: without data it always builds an
    envelope. *)
Lemma no_data_builds_in_v2
    (cfg : Settings) (m : Messages) (rq : Request) (s : State) :
  response_schema_version rq = "2.0.0" ->
  exists envelope s', response_context cfg m rq VNone s = Ok (envelope, s').
Proof.
  intro V. unfold response_context. apply String.eqb_eq in V. rewrite V.
  rewrite v2_envelope. cbv zeta. cbn [normalised wrappers fold_left].
  change (validate_data_v_2_0_0_response m rq (with_data VNone s))
    with (Ok ([ "result" :-> VDict [] ],
              __set_default_message m (with_data VNone s))).
  cbv beta iota. do 2 eexists. reflexivity.
Qed.

(** X10. A response without data whose status code is below 100 or at least
    300 is never successful: whenever the builder returns an envelope, in
    either schema version, its [success] field is false, whatever the view
    had accumulated. *)
Theorem no_data_fails_outside_1xx_2xx
    (cfg : Settings) (m : Messages) (rq : Request) (s s' : State)
    (envelope : value) :
  status_or_200 s < 100 \/ 300 <= status_or_200 s ->
  response_context cfg m rq VNone s = Ok (envelope, s') ->
  field envelope "success" = Some (VBool false).
Proof.
  intros H E. rewrite (no_data_envelope _ _ _ _ E).
  now rewrite default_message_fails by exact H.
Qed.

Lemma no_data_fails_outside_1xx_2xx_witness :
  ((status_or_200 moved < 100 \/ 300 <= status_or_200 moved) /\
   response_context sample_settings sample_messages sample_request VNone moved
   = Ok (moved_envelope,
         __set_default_message sample_messages (with_data VNone moved))) /\
  field moved_envelope "success" = Some (VBool false).
Proof.
  split; [split; [right; vm_compute; discriminate | reflexivity]|].
  apply (@no_data_fails_outside_1xx_2xx sample_settings sample_messages
           sample_request moved
           (__set_default_message sample_messages (with_data VNone moved))
           moved_envelope).
  - right. vm_compute. discriminate.
  - reflexivity.
Defined.

(** ** How the builder treats its state *)

Lemma set_default_message_flags (m : Messages) (s : State) :
  __status_code (__set_default_message m s) = __status_code s /\
  __exception_status (__set_default_message m s) = __exception_status s.
Proof.
  unfold __set_default_message.
  assert (A : __status_code (__default_messenger_message_adder m s) = __status_code s /\
              __exception_status (__default_messenger_message_adder m s)
              = __exception_status s).
  { destruct (default_adder_cases m s) as [E|(a & b & t & E)]; rewrite E;
      split; reflexivity. }
  destruct A as [A1 A2].
  generalize dependent (__default_messenger_message_adder m s). intros s1 A1 A2.
  generalize (status_or_200 s1). intro z.
  split_on_status; cbn [__status_code __exception_status set_warning_message
                          set_info_message set_error_message]; now split.
Qed.

Lemma validate_data_flags (m : Messages) (s : State) :
  __status_code (snd (validate_data m s)) = __status_code s /\
  __exception_status (snd (validate_data m s)) = __exception_status s.
Proof.
  unfold validate_data.
  destruct (__data s) as [ | | | | c k t | | | | ]; cbn [snd];
    try (split; reflexivity).
  - apply set_default_message_flags.
  - destruct c; split; reflexivity.
Qed.

Lemma validate_data_v2_flags (m : Messages) (rq : Request) (s s' : State)
    (d : dict) :
  validate_data_v_2_0_0_response m rq s = Ok (d, s') ->
  __status_code s' = __status_code s /\
  __exception_status s' = __exception_status s.
Proof.
  unfold validate_data_v_2_0_0_response.
  destruct (__data s) as [ | | | z | c k t | l | | d0 | ] eqn:D.
  - intro H. ok_injection H. apply set_default_message_flags.
  - intro H. ok_injection H. now split.
  - intro H. ok_injection H. now split.
  - cbn [__set_dynamic_message]. intro H. ok_injection H. now split.
  - destruct c; cbn [__set_dynamic_message]; intro H; ok_injection H; now split.
  - destruct (pagination rq); intro H; ok_injection H; now split.
  - intro H. ok_injection H. now split.
  - repeat match goal with
           | |- context [if ?b then _ else _] => destruct b
           | |- context [match ?x with Ok _ => _ | Raise _ => _ end] =>
               destruct x as [[? ?]|?]
           end;
      intro H; try discriminate; ok_injection H; now split.
  - intro H. ok_injection H. now split.
Qed.

Lemma response_context_flags
    (cfg : Settings) (m : Messages) (rq : Request) (data : value)
    (s s' : State) (envelope : value) :
  response_context cfg m rq data s = Ok (envelope, s') ->
  __status_code s' = __status_code s /\
  __exception_status s' = __exception_status s.
Proof.
  pose proof (fold_record_grows (wrappers data) s) as G.
  destruct G as (_ & _ & _ & Gs & _ & Ge & _).
  unfold response_context.
  destruct (String.eqb (response_schema_version rq) "2.0.0").
  - rewrite v2_envelope. cbv zeta.
    destruct (validate_data_v_2_0_0_response m rq _) as [[d s1]|err] eqn:E;
      [|discriminate].
    cbv beta iota. intro H. ok_injection H.
    apply validate_data_v2_flags in E. cbn [__status_code __exception_status with_data] in E.
    destruct E as [E1 E2]. split; congruence.
  - rewrite v1_envelope. cbv beta iota zeta. intro H. ok_injection H.
    pose proof (monitor_play_logs cfg
                  (snd (validate_data m
                          (with_data (normalised data)
                             (fold_left record (wrappers data) s))))) as L.
    destruct L as (_ & _ & _ & _ & _ & _ & Ls & Le & _).
    pose proof (validate_data_flags m
                  (with_data (normalised data)
                     (fold_left record (wrappers data) s))) as [V1 V2].
    cbn [__status_code __exception_status with_data] in V1, V2.
    split; congruence.
Qed.

(** X11. Building the body changes neither the stored status code nor the
    exception flag: after [finalize_response] of the view's own
    [self.response(data)], the HTTP status is the stored status code (200
    when none is stored), and the exception flag of the response and of the
    view is false, whatever the view had set it to. *)
Theorem finalizing_own_response
    (cfg : Settings) (m : Messages) (rq : Request) (data : value)
    (final : Response) (s s' : State) :
  finalize_response cfg m rq (response data s) s = Ok (final, s') ->
  resp_status final = status_or_200 s /\
  status_or_200 s' = status_or_200 s /\
  resp_exception final = false /\
  __exception_status s' = false.
Proof.
  intro H. apply finalize_response_parts in H.
  destruct H as (s3 & E & Es & Ee & Ef & Ev).
  cbn [resp_status resp_exception response] in *.
  assert (V : status_or_200 s3 = status_or_200 s)
    by (rewrite Ev; now destruct (is_stored_by_get (status_or_200 s))).
  apply response_context_flags in E. destruct E as [E1 E2].
  split; [congruence|]. split; [|split; [exact Ee | congruence]].
  rewrite <- V. unfold status_or_200. now rewrite E1.
Qed.

Lemma finalizing_own_response_witness :
  let s := set_exception_status true (set_status_code (Some 202) init) in
  match finalize_response sample_settings sample_messages sample_request
          (response (VStr "queued") s) s with
  | Ok (final, s') =>
      finalize_response sample_settings sample_messages sample_request
        (response (VStr "queued") s) s = Ok (final, s') /\
      __exception_status s = true /\
      resp_status final = status_or_200 s /\
      status_or_200 s' = status_or_200 s /\
      resp_exception final = false /\
      __exception_status s' = false
  | Raise _ => False
  end.
Proof.
  cbv zeta.
  destruct (finalize_response sample_settings sample_messages sample_request
              (response (VStr "queued")
                 (set_exception_status true (set_status_code (Some 202) init)))
              (set_exception_status true (set_status_code (Some 202) init)))
    as [[final s']|err] eqn:E.
  - split; [reflexivity|]. split; [reflexivity|].
    apply (@finalizing_own_response sample_settings sample_messages
             sample_request (VStr "queued") final
             (set_exception_status true (set_status_code (Some 202) init)) s').
    exact E.
  - vm_compute in E. discriminate.
Defined.

(** X12. A view that returns a bare wrapper string is answered like one
    that returned nothing: the builder records the message and then builds,
    in either schema version, exactly the envelope it builds for [None] in
    the state that holds the message. *)
Theorem wrapper_as_data_is_no_data
    (cfg : Settings) (m : Messages) (rq : Request)
    (c : str_class) (code : key) (text : string) (s : State) :
  response_context cfg m rq (VMsg c code text) s
  = response_context cfg m rq VNone (record s (VMsg c code text)) /\
  record s (VMsg c code text) <> s.
Proof.
  split.
  - unfold response_context.
    destruct (String.eqb (response_schema_version rq) "2.0.0").
    + rewrite !v2_envelope. reflexivity.
    + rewrite !v1_envelope. reflexivity.
  - assert (L : forall (l : list (key * value)) x, (l ++ [x])%list <> l).
    { intros l x E. apply (f_equal (@List.length _)) in E.
      rewrite length_app in E. simpl in E. lia. }
    unfold record. destruct c; simpl; intro E.
    + apply (f_equal __infos_message) in E. simpl in E. exact (L _ _ E).
    + apply (f_equal __errors_message) in E. simpl in E. exact (L _ _ E).
    + apply (f_equal __warnings_message) in E. simpl in E. exact (L _ _ E).
    + apply (f_equal __logs_message) in E. simpl in E. exact (L _ _ E).
    + apply (f_equal __exceptions_message) in E. simpl in E. exact (L _ _ E).
    + apply (f_equal __errors_message) in E. simpl in E. exact (L _ _ E).
Qed.

(** ** A list as data, in both schema versions *)

Lemma v2_page_envelope (a b c n x y z : value) :
  dict_update [ "success" :-> a; "status_code" :-> b; "messenger" :-> c ]
              [ "count" :-> n; "next" :-> x; "previous" :-> y; "result" :-> z ]
  = [ "success" :-> a; "status_code" :-> b; "messenger" :-> c;
      "count" :-> n; "next" :-> x; "previous" :-> y; "result" :-> z ].
Proof. reflexivity. Qed.

Lemma v2_page_envelope_keys_distinct (a b c n x y z : value) :
  NoDup (keys [ "success" :-> a; "status_code" :-> b; "messenger" :-> c;
                "count" :-> n; "next" :-> x; "previous" :-> y; "result" :-> z ]).
Proof. simpl. repeat constructor; simpl; intuition discriminate. Qed.

(** X13. The same list as data gives the paginated shape under the key
    [results], nested in [data], in any schema version other than 2.0.0
    whenever an envelope is built there, and under the key [result], at the
    top of the envelope, in version 2.0.0 with pagination on, where one
    always is; the count is the length of the list, both links are null,
    and the items are the normalised, sanitized elements in order. *)
Theorem list_is_results_in_v1_and_result_in_v2
    (cfg : Settings) (m : Messages) (rq1 rq2 : Request) (l : list value)
    (s s1 : State) (e1 : value) :
  response_schema_version rq1 <> "2.0.0" ->
  response_schema_version rq2 = "2.0.0" ->
  pagination rq2 = true ->
  response_context cfg m rq1 (VList l) s = Ok (e1, s1) ->
  let items := VList (map _response_validator (map normalised l)) in
  let n := VInt (Z.of_nat (List.length l)) in
  (field e1 "data"
   = Some (VDict [ "count" :-> n; "next" :-> VNone; "previous" :-> VNone;
                   "results" :-> items ]) /\
   field e1 "many" = Some (VBool true)) /\
  exists e2 s2,
    response_context cfg m rq2 (VList l) s = Ok (e2, s2) /\
    field e2 "count" = Some n /\
    field e2 "next" = Some VNone /\
    field e2 "previous" = Some VNone /\
    field e2 "result" = Some items /\
    field e2 "results" = None /\
    field e2 "data" = None.
Proof.
  intros V1 V2 P H1. cbv zeta.
  assert (Len : Z.of_nat (List.length (map normalised l)) = Z.of_nat (List.length l))
    by now rewrite length_map.
  split.
  - revert H1. unfold response_context.
    apply String.eqb_neq in V1. rewrite V1.
    rewrite v1_envelope. cbv beta iota zeta. intro H. ok_injection H.
    cbn [normalised]. unfold validate_data.
    cbn [__data with_data]. cbv beta iota. cbn [fst snd].
    unfold len. rewrite Len.
    split.
    + rewrite <- response_validator_list.
      change (VDict [ "count" :-> VInt (Z.of_nat (List.length l));
                      "next" :-> VNone; "previous" :-> VNone;
                      "results" :-> _response_validator (VList (map normalised l)) ])
        with (_response_validator
                (VDict [ "count" :-> VInt (Z.of_nat (List.length l));
                         "next" :-> VNone; "previous" :-> VNone;
                         "results" :-> VList (map normalised l) ])).
      apply field_response_validator.
      * apply NoDup_keys_add_development_keys, v1_envelope_keys_distinct.
      * rewrite dict_get_add_development_keys by discriminate. reflexivity.
    + apply (@field_response_validator _ "many" (VBool true)).
      * apply NoDup_keys_add_development_keys, v1_envelope_keys_distinct.
      * rewrite dict_get_add_development_keys by discriminate. reflexivity.
  - clear H1. unfold response_context.
    apply String.eqb_eq in V2. rewrite V2.
    rewrite v2_envelope. cbv zeta.
    cbn [normalised].
    unfold validate_data_v_2_0_0_response.
    cbn [__data with_data]. rewrite P. cbv beta iota.
    unfold len. rewrite Len, v2_page_envelope.
    do 2 eexists. split; [reflexivity|]. repeat split.
    + apply (@field_response_validator _ "count" (VInt _)).
      * apply NoDup_keys_add_development_keys, v2_page_envelope_keys_distinct.
      * rewrite dict_get_add_development_keys by discriminate. reflexivity.
    + apply (@field_response_validator _ "next" VNone).
      * apply NoDup_keys_add_development_keys, v2_page_envelope_keys_distinct.
      * rewrite dict_get_add_development_keys by discriminate. reflexivity.
    + apply (@field_response_validator _ "previous" VNone).
      * apply NoDup_keys_add_development_keys, v2_page_envelope_keys_distinct.
      * rewrite dict_get_add_development_keys by discriminate. reflexivity.
    + rewrite <- response_validator_list.
      apply field_response_validator.
      * apply NoDup_keys_add_development_keys, v2_page_envelope_keys_distinct.
      * rewrite dict_get_add_development_keys by discriminate. reflexivity.
    + apply field_response_validator_absent.
      * apply NoDup_keys_add_development_keys, v2_page_envelope_keys_distinct.
      * rewrite dict_get_add_development_keys by discriminate. reflexivity.
    + apply field_response_validator_absent.
      * apply NoDup_keys_add_development_keys, v2_page_envelope_keys_distinct.
      * rewrite dict_get_add_development_keys by discriminate. reflexivity.
Qed.

Lemma list_is_results_in_v1_and_result_in_v2_witness :
  (response_schema_version display_request <> "2.0.0" /\
   response_schema_version sample_request_v2 = "2.0.0" /\
   pagination sample_request_v2 = true /\
   response_context sample_settings sample_messages display_request
     (VList [ VInt 1 ]) init
   = Ok (one_item_envelope, with_data (VList [ VInt 1 ]) init)) /\
  let items := VList (map _response_validator (map normalised [ VInt 1 ])) in
  let n := VInt (Z.of_nat (List.length [ VInt 1 ])) in
  (field one_item_envelope "data"
   = Some (VDict [ "count" :-> n; "next" :-> VNone; "previous" :-> VNone;
                   "results" :-> items ]) /\
   field one_item_envelope "many" = Some (VBool true)) /\
  exists e2 s2,
    response_context sample_settings sample_messages sample_request_v2
      (VList [ VInt 1 ]) init = Ok (e2, s2) /\
    field e2 "count" = Some n /\
    field e2 "next" = Some VNone /\
    field e2 "previous" = Some VNone /\
    field e2 "result" = Some items /\
    field e2 "results" = None /\
    field e2 "data" = None.
Proof.
  split; [split; [discriminate | repeat split]|].
  apply (@list_is_results_in_v1_and_result_in_v2 sample_settings
           sample_messages display_request sample_request_v2
           [ VInt 1 ] init (with_data (VList [ VInt 1 ]) init)
           one_item_envelope).
  - discriminate.
  - reflexivity.
  - reflexivity.
  - reflexivity.
Defined.

(** ** Pagination at its edges *)

Lemma dict_rebuild_distinct_keys (d : dict) :
  NoDup (keys d) -> dict_rebuild (fun v => v) d = d.
Proof.
  intro N. pose proof (@fold_distinct_keys (fun v => v) d [] N) as F.
  transitivity (map_values (fun v => v) d); [exact F|].
  apply map_values_id_on. clear N F.
  induction d as [|kv r IH]; constructor; [reflexivity | exact IH].
Qed.

Lemma get_or_none_of (d : dict) (k : string) (v : value) :
  dict_get d (KStr k) = Some v -> get_or_none d k = v.
Proof. unfold get_or_none. now intros ->. Qed.

(** X14. A page size of 0 is not guarded against.  For a dict with distinct
    keys that has [count], [page_size], [page_number] and [result], no
    [results], a numeric count and a page size of 0, the builder raises
    [ZeroDivisionError] in schema version 2.0.0; in any other version, the
    envelope it builds has the dict as the result. *)
Theorem zero_page_size_raises_in_v2
    (cfg : Settings) (m : Messages) (rq1 rq2 : Request) (d : dict)
    (count page_size : value) (n : Z) (s : State) :
  NoDup (keys d) ->
  dict_get d (KStr "count") = Some count ->
  as_number count = Some n ->
  dict_get d (KStr "page_size") = Some page_size ->
  as_number page_size = Some 0 ->
  dict_has d (KStr "page_number") = true ->
  dict_has d (KStr "result") = true ->
  dict_has d (KStr "results") = false ->
  response_schema_version rq1 <> "2.0.0" ->
  response_schema_version rq2 = "2.0.0" ->
  response_context cfg m rq2 (VDict d) s = Raise ZeroDivisionError /\
  forall envelope s',
    response_context cfg m rq1 (VDict d) s = Ok (envelope, s') ->
    field envelope "data"
    = Some (_response_validator (VDict [ "result" :-> VDict d ])).
Proof.
  intros N Hc Hn Hp Hz Hpn Hr Hrs V1 V2.
  assert (Hcount : dict_has d (KStr "count") = true)
    by (unfold dict_has; now rewrite Hc).
  assert (Hsize : dict_has d (KStr "page_size") = true)
    by (unfold dict_has; now rewrite Hp).
  unfold response_context.
  apply String.eqb_neq in V1. rewrite V1.
  apply String.eqb_eq in V2. rewrite V2.
  rewrite v2_envelope. cbv zeta.
  cbn [normalised]. rewrite (@dict_rebuild_distinct_keys d N).
  split.
  - unfold validate_data_v_2_0_0_response.
    cbn [__data with_data].
    rewrite Hcount, Hsize, Hpn, Hr, Hrs, !andb_false_r. cbn [andb].
    unfold __get_pagination_url.
    rewrite (@get_or_none_of d _ _ Hc), (@get_or_none_of d _ _ Hp), Hn, Hz.
    reflexivity.
  - intros envelope s'. rewrite v1_envelope. cbv beta iota zeta.
    intro H. ok_injection H.
    cbn [normalised]. rewrite (@dict_rebuild_distinct_keys d N).
    unfold validate_data. cbn [__data with_data]. cbn [fst snd].
    apply field_response_validator.
    + apply NoDup_keys_add_development_keys, v1_envelope_keys_distinct.
    + rewrite dict_get_add_development_keys by discriminate. reflexivity.
Qed.

Lemma zero_page_size_raises_in_v2_witness :
  (NoDup (keys zero_page) /\
   dict_get zero_page (KStr "count") = Some (VInt 5) /\
   as_number (VInt 5) = Some 5 /\
   dict_get zero_page (KStr "page_size") = Some (VInt 0) /\
   as_number (VInt 0) = Some 0 /\
   dict_has zero_page (KStr "page_number") = true /\
   dict_has zero_page (KStr "result") = true /\
   dict_has zero_page (KStr "results") = false /\
   response_schema_version sample_request <> "2.0.0" /\
   response_schema_version sample_request_v2 = "2.0.0") /\
  response_context sample_settings sample_messages sample_request_v2
    (VDict zero_page) init = Raise ZeroDivisionError /\
  response_context sample_settings sample_messages sample_request
    (VDict zero_page) init
  = Ok (plain_envelope (VDict [ "result" :-> VDict zero_page ]),
        with_data (VDict zero_page) init) /\
  field (plain_envelope (VDict [ "result" :-> VDict zero_page ])) "data"
  = Some (_response_validator (VDict [ "result" :-> VDict zero_page ])).
Proof.
  assert (N : NoDup (keys zero_page)).
  { simpl. repeat constructor; simpl; intuition discriminate. }
  split.
  - repeat split; try reflexivity; [exact N | discriminate].
  - destruct (@zero_page_size_raises_in_v2 sample_settings sample_messages
                sample_request sample_request_v2 zero_page
                (VInt 5) (VInt 0) 5 init)
      as [R F]; try reflexivity; [exact N | discriminate |].
    split; [exact R|]. split; [reflexivity|].
    apply (F _ (with_data (VDict zero_page) init)). reflexivity.
Defined.

(** X15. When the count is an exact multiple of a positive page size, both
    below [2^52] so that the float quotient of the source is the exact one,
    the links are right: from page 1 on, the next link is null exactly on
    and after page [count / page_size] and otherwise points to the next
    page, and the previous link is null on page 1 and otherwise points to
    the page before. *)
Theorem pagination_links_for_exact_multiples
    (rq : Request) (page_size page_number count : Z) :
  0 < page_size < 2 ^ 52 ->
  0 <= count < 2 ^ 52 ->
  count mod page_size = 0 ->
  1 <= page_number ->
  __get_pagination_url rq (VInt page_size) (VInt page_number) (VInt count)
  = Ok ((if count / page_size <=? page_number then VNone
         else VStr (get_request_path rq ++ "?page=" ++
                    string_of_Z (page_number + 1))),
        (if page_number =? 1 then VNone
         else VStr (get_request_path rq ++ "?page=" ++
                    string_of_Z (page_number - 1)))).
Proof.
  intros [Hp _] _ Hm Hn. unfold __get_pagination_url, as_number.
  replace (page_size =? 0) with false by (symmetry; apply Z.eqb_neq; lia).
  f_equal. f_equal.
  - unfold next_page_number, last_page. rewrite Hm. cbn [Z.eqb].
    destruct (count / page_size <=? page_number); [reflexivity|].
    unfold page_url.
    replace (page_number + 1 =? 0) with false by (symmetry; apply Z.eqb_neq; lia).
    reflexivity.
  - unfold previous_page_number, truthy.
    destruct (Z.eqb_spec page_number 1) as [->|Hne].
    + destruct (negb (count =? 0)); reflexivity.
    + assert (L : (page_number <=? 1) = false) by (apply Z.leb_gt; lia).
      assert (L0 : (page_number <=? 0) = false) by (apply Z.leb_gt; lia).
      destruct (negb (count =? 0)); rewrite ?L, ?L0; cbn [andb];
        unfold page_url;
        replace (page_number - 1 =? 0) with false
          by (symmetry; apply Z.eqb_neq; lia);
        reflexivity.
Qed.

Lemma pagination_links_for_exact_multiples_witness :
  (0 < 10 < 2 ^ 52 /\ 0 <= 30 < 2 ^ 52 /\ 30 mod 10 = 0 /\ 1 <= 2) /\
  __get_pagination_url sample_request (VInt 10) (VInt 2) (VInt 30)
  = Ok ((if 30 / 10 <=? 2 then VNone
         else VStr (get_request_path sample_request ++ "?page=" ++
                    string_of_Z (2 + 1))),
        (if 2 =? 1 then VNone
         else VStr (get_request_path sample_request ++ "?page=" ++
                    string_of_Z (2 - 1)))).
Proof.
  split; [repeat split; first [reflexivity | discriminate]|].
  apply (@pagination_links_for_exact_multiples sample_request 10 2 30);
    repeat split; first [reflexivity | discriminate].
Defined.

Lemma last_page_is_ceiling_iff_witness :
  (0 <= 25 < 2 ^ 52 /\ 0 < 10 < 2 ^ 52) /\
  (last_page 25 10 = ceiling 25 10 <->
   25 mod 10 = 0 \/
   2 * (25 mod 10) < 10 \/
   (2 * (25 mod 10) = 10 /\ Z.even (25 / 10) = true)).
Proof.
  split; [split; split; first [reflexivity | discriminate]|].
  apply (@last_page_is_ceiling_iff 25 10);
    split; first [reflexivity | discriminate].
Defined.

(** ** Exceptions of the REST framework *)

Lemma fold_set_error_errors (l : list (key * value)) (s : State) :
  __errors_message
    (fold_left (fun acc kv => set_error_message (fst kv) (snd kv) acc) l s)
  = (__errors_message s ++ l)%list.
Proof.
  revert s. induction l as [|[k v] r IH]; intro s; simpl.
  - now rewrite app_nil_r.
  - rewrite IH. simpl. now rewrite <- app_assoc.
Qed.

Lemma fold_set_error_frame (l : list (key * value)) (s : State) :
  let s' := fold_left (fun acc kv => set_error_message (fst kv) (snd kv) acc) l s in
  __messenger s' = __messenger s /\
  __logs_message s' = __logs_message s /\
  __infos_message s' = __infos_message s /\
  __warnings_message s' = __warnings_message s /\
  __exceptions_message s' = __exceptions_message s /\
  __status_code s' = __status_code s /\
  __exception_status s' = __exception_status s /\
  exc s' = exc s.
Proof.
  cbv zeta. revert s. induction l as [|[k v] r IH]; intro s; simpl.
  - repeat split.
  - specialize (IH (set_error_message k v s)). simpl in IH. exact IH.
Qed.

Lemma exception_handler_messages_fold (d : detail) (base_key : string)
    (s : State) :
  _exception_handler_messages d base_key s
  = fold_left (fun acc kv => set_error_message (fst kv) (snd kv) acc)
      (detail_messages d base_key) s.
Proof.
  revert base_key s.
  induction d as [code text | l IH | m IH] using detail_ind;
    intros base_key s.
  - reflexivity.
  - cbn [_exception_handler_messages detail_messages]. revert s.
    induction IH as [|x r Hx _ IHr]; intro s; [reflexivity|].
    cbn [fold_left flat_map]. rewrite fold_left_app, <- Hx. apply IHr.
  - cbn [_exception_handler_messages detail_messages]. revert s.
    induction IH as [|x r Hx _ IHr]; intro s; [reflexivity|].
    cbn [fold_left flat_map]. rewrite fold_left_app, <- Hx. apply IHr.
Qed.

(** X16. [_exception_handler_messages] appends to the error list one
    message per [ErrorDetail] leaf of the detail, in order, and changes
    nothing else.  A leaf is keyed by its code, prefixed with the dict key
    only when the leaf is the dict value itself: under the usual shape
    [{field: [error]}] the list is read without the field name, so the key
    is the bare code. *)
Theorem exception_messages_follow_detail
    (d : detail) (base_key : string) (s : State) :
  let s' := _exception_handler_messages d base_key s in
  __errors_message s' = (__errors_message s ++ detail_messages d base_key)%list /\
  (__messenger s' = __messenger s /\
   __logs_message s' = __logs_message s /\
   __infos_message s' = __infos_message s /\
   __warnings_message s' = __warnings_message s /\
   __exceptions_message s' = __exceptions_message s /\
   __status_code s' = __status_code s /\
   __exception_status s' = __exception_status s /\
   exc s' = exc s) /\
  (forall field_name code text,
     _exception_handler_messages
       (ErrorDict [ (field_name, ErrorList [ ErrorLeaf code text ]) ])
       EmptyString s
     = set_error_message (KStr code) (VStr text) s) /\
  (forall code text,
     _exception_handler_messages
       (ErrorDict [ ("name", ErrorLeaf code text) ]) EmptyString s
     = set_error_message (KStr ("name__" ++ code)) (VStr text) s).
Proof.
  cbv zeta. rewrite exception_handler_messages_fold.
  split; [apply fold_set_error_errors|].
  split; [apply fold_set_error_frame|].
  split; reflexivity.
Qed.

(** [{'name': [required]}] gives the key [required]. *)
Lemma name_required_is_keyed_by_code :
  detail_messages name_required EmptyString
  = [ (KStr "required", VStr "This field is required.") ].
Proof. reflexivity. Qed.

(** ** Authentication errors and the strict mode *)

Lemma exception_handler_api (e : exception) (auth_header : string)
    (s : State) (d : detail) :
  is_authentication_error e = true ->
  exc_api e = Some d ->
  exists r,
    exception_handler e auth_header s
    = (Some r, _exception_handler_messages d EmptyString s) /\
    resp_data r = VNone /\
    resp_exception r = false /\
    resp_status r = exc_status_code e /\
    dict_get (resp_headers r) (KStr "WWW-Authenticate")
    = (if String.eqb auth_header EmptyString then None
       else Some (VStr auth_header)).
Proof.
  intros Ha Hd. unfold exception_handler, as_api_exception. rewrite Hd.
  assert (A : dict_get
                (if String.eqb auth_header EmptyString then []
                 else dict_set [] (KStr "WWW-Authenticate") (VStr auth_header))
                (KStr "WWW-Authenticate")
              = (if String.eqb auth_header EmptyString then None
                 else Some (VStr auth_header)))
    by (destruct (String.eqb auth_header EmptyString); reflexivity).
  unfold is_authentication_error in Ha.
  destruct (exc_class_of e); try discriminate;
    (eexists; split; [reflexivity|];
     cbn [resp_data resp_exception resp_status resp_headers];
     repeat split;
     destruct (exc_wait e) as [w|]; [|exact A];
     destruct (w =? 0); [exact A|];
     rewrite dict_get_dict_set; exact A).
Qed.

(** What [exception_handler] does with an exception, by its kind. *)
Lemma exception_handler_cases (e : exception) (auth_header : string)
    (s : State) :
  if is_unhandled e then exception_handler e auth_header s = (None, s)
  else
    exists r,
      exception_handler e auth_header s
      = (Some r, _exception_handler_messages (handled_detail e) EmptyString s) /\
      resp_data r = VNone /\
      resp_exception r = false /\
      resp_status r = handled_status e.
Proof.
  unfold is_unhandled, exception_handler, as_api_exception, handled_detail,
    handled_status.
  destruct (exc_class_of e), (exc_api e) as [d|]; cbn [detail_or];
    first [ reflexivity
          | eexists; split; [reflexivity|]; repeat split ].
Qed.

(** X17. An authentication error ([NotAuthenticated] or
    [AuthenticationFailed]) is answered, in both handling modes, with a
    response flagged as an exception: when the view has no challenge header
    the response has status 403 whatever the status of the exception, and
    no [WWW-Authenticate] header; when it has one, the response keeps the
    status of the exception and carries the challenge. *)
Theorem authentication_error_without_challenge_is_403
    (cfg : Settings) (rq : Request) (e : exception) (s : State) (d : detail) :
  is_authentication_error e = true ->
  exc_api e = Some d ->
  exists r s',
    handle_exception cfg rq e s = Ok (r, s') /\
    resp_exception r = true /\
    resp_status r
    = (if String.eqb (authenticate_header rq) EmptyString then 403
       else exc_status_code e) /\
    dict_get (resp_headers r) (KStr "WWW-Authenticate")
    = (if String.eqb (authenticate_header rq) EmptyString then None
       else Some (VStr (authenticate_header rq))).
Proof.
  intros Ha Hd.
  assert (Ha' : is_authentication_error (with_status 403 e) = true) by exact Ha.
  unfold handle_exception, _handle_exception_gando_handling_true,
    _handle_exception_gando_handling_false, coerce_authentication.
  rewrite Ha.
  set (s0 := classify e (with_exc (Some e) s)).
  destruct (String.eqb (authenticate_header rq) EmptyString) eqn:Eh.
  - destruct (@exception_handler_api (with_status 403 e) EmptyString
                (with_exc (Some (with_status 403 e)) s0) d Ha' Hd)
      as (r & Er & _ & _ & Es & Ew).
    cbn [exc_status_code with_status] in Es. cbn [String.eqb] in Ew.
    destruct (HANDLING cfg); cbv beta iota zeta; rewrite Er;
      do 2 eexists; (split; [reflexivity|]);
      cbn [resp_exception resp_status resp_headers with_exception_flag];
      repeat split; assumption.
  - destruct (@exception_handler_api e (authenticate_header rq) s0 d Ha Hd)
      as (r & Er & _ & _ & Es & Ew).
    rewrite Eh in Ew.
    destruct (HANDLING cfg); cbv beta iota zeta; rewrite Er;
      do 2 eexists; (split; [reflexivity|]);
      cbn [resp_exception resp_status resp_headers with_exception_flag];
      repeat split; assumption.
Qed.

Lemma authentication_error_without_challenge_is_403_witness :
  (is_authentication_error not_authenticated = true /\
   exc_api not_authenticated
   = Some (ErrorLeaf "not_authenticated"
             "Authentication credentials were not provided.")) /\
  (authenticate_header sample_request = EmptyString /\
   exc_status_code not_authenticated = 401) /\
  exists r s',
    handle_exception strict_settings sample_request not_authenticated init
    = Ok (r, s') /\
    resp_exception r = true /\
    resp_status r
    = (if String.eqb (authenticate_header sample_request) EmptyString then 403
       else exc_status_code not_authenticated) /\
    dict_get (resp_headers r) (KStr "WWW-Authenticate")
    = (if String.eqb (authenticate_header sample_request) EmptyString then None
       else Some (VStr (authenticate_header sample_request))).
Proof.
  split; [split; reflexivity|]. split; [split; reflexivity|].
  apply (@authentication_error_without_challenge_is_403 strict_settings
           sample_request not_authenticated init
           (ErrorLeaf "not_authenticated"
              "Authentication credentials were not provided."));
    reflexivity.
Defined.

(** With a challenge the same exception keeps its 401. *)
Lemma not_authenticated_with_challenge_keeps_401 :
  match handle_exception strict_settings bearer_request not_authenticated init with
  | Ok (r, _) =>
      resp_status r = 401 /\
      dict_get (resp_headers r) (KStr "WWW-Authenticate") = Some (VStr "Bearer")
  | Raise _ => False
  end.
Proof. vm_compute. split; reflexivity. Qed.

Lemma coerce_authentication_kind (rq : Request) (e : exception) (s : State) :
  let e1 := fst (fst (coerce_authentication rq e s)) in
  is_unhandled e1 = is_unhandled e /\
  handled_detail e1 = handled_detail e /\
  (is_authentication_error e = false ->
   coerce_authentication rq e s = (e, EmptyString, s)).
Proof.
  cbv zeta. unfold coerce_authentication.
  destruct (is_authentication_error e); [|repeat split].
  destruct (String.eqb (authenticate_header rq) EmptyString);
    repeat split; discriminate.
Qed.

(** X18. With the verbose-handling flag off, [handle_exception] answers
    exactly the exceptions the REST framework knows: its own API
    exceptions, and Django's [Http404] and [PermissionDenied], which it
    converts.  Any other exception, recognised by [gando] or not, is raised
    again, itself when it is not an authentication error.  A handled one
    gets an empty response flagged as an exception, with status 404 or 403
    for the two converted classes, and the error list gains the messages of
    its detail. *)
Theorem strict_mode_answers_api_exceptions_only
    (cfg : Settings) (rq : Request) (e : exception) (s : State) :
  HANDLING cfg = false ->
  if is_unhandled e then
    exists e',
      handle_exception cfg rq e s = Raise (Reraised e') /\
      (is_authentication_error e = false -> e' = e)
  else
    exists r s',
      handle_exception cfg rq e s = Ok (r, s') /\
      resp_exception r = true /\
      resp_data r = VNone /\
      (is_authentication_error e = false -> resp_status r = handled_status e) /\
      exists before,
        __errors_message s'
        = (before ++ detail_messages (handled_detail e) EmptyString)%list.
Proof.
  intro H. unfold handle_exception. rewrite H.
  unfold _handle_exception_gando_handling_false.
  set (s0 := classify e (with_exc (Some e) s)).
  pose proof (coerce_authentication_kind rq e s0) as (Ku & Kd & Ke).
  destruct (coerce_authentication rq e s0) as [[e1 auth_header] s1].
  cbn [fst] in Ku, Kd.
  pose proof (exception_handler_cases e1 auth_header s1) as C.
  rewrite Ku in C.
  destruct (is_unhandled e).
  - rewrite C. eexists. split; [reflexivity|].
    intro F. specialize (Ke F). congruence.
  - destruct C as (r & Er & Ed & _ & Es). rewrite Er.
    do 2 eexists. split; [reflexivity|].
    cbn [resp_exception resp_data resp_status with_exception_flag].
    split; [reflexivity|]. split; [exact Ed|]. split.
    + intro F. specialize (Ke F). rewrite Es. congruence.
    + eexists. rewrite Kd, exception_handler_messages_fold.
      apply fold_set_error_errors.
Qed.

Lemma strict_mode_answers_api_exceptions_only_witness :
  HANDLING strict_settings = false /\
  (if is_unhandled value_error then
     exists e',
       handle_exception strict_settings sample_request value_error init
       = Raise (Reraised e') /\
       (is_authentication_error value_error = false -> e' = value_error)
   else
     exists r s',
       handle_exception strict_settings sample_request value_error init
       = Ok (r, s') /\
       resp_exception r = true /\
       resp_data r = VNone /\
       (is_authentication_error value_error = false ->
        resp_status r = handled_status value_error) /\
       exists before,
         __errors_message s'
         = (before ++ detail_messages (handled_detail value_error) EmptyString)%list).
Proof.
  split; [reflexivity|].
  apply (@strict_mode_answers_api_exceptions_only strict_settings
           sample_request value_error init).
  reflexivity.
Defined.

(** In the strict mode a [ValueError] is raised again, a bare [Http404] is
    answered with 404 and the framework's default detail, and the end-user
    exception of the package, an API exception, with its own 400. *)
Lemma strict_mode_samples :
  handle_exception strict_settings sample_request value_error init
  = Raise (Reraised value_error) /\
  match handle_exception strict_settings sample_request page_not_found init with
  | Ok (r, s') =>
      resp_status r = 404 /\ resp_exception r = true /\
      __errors_message s' = [ (KStr "not_found", VStr "Not found.") ]
  | Raise _ => False
  end /\
  match handle_exception strict_settings sample_request quota_exceeded init with
  | Ok (r, s') =>
      resp_status r = 400 /\ resp_exception r = true /\
      __status_code s' = Some 400
  | Raise _ => False
  end.
Proof. vm_compute. repeat split. Qed.

(** ** Monitor hooks, headers and query fields *)

Lemma dict_has_dict_set (d : dict) (k k' : key) (v : value) :
  dict_has (dict_set d k v) k' = key_eqb k k' || dict_has d k'.
Proof.
  unfold dict_has. rewrite dict_get_dict_set. now destruct (key_eqb k k').
Qed.

Lemma monitor_fold (hooks : list (key * hook_outcome)) (mon : dict) (s : State)
    (k : key) :
  let run :=
    fold_left
      (fun (acc : dict * State) (kh : key * hook_outcome) =>
         let (v, s1) := __monitor_func_loader (snd kh) (snd acc) in
         (dict_set (fst acc) (fst kh) v, s1))
      hooks (mon, s) in
  dict_has (fst run) k
  = existsb (fun kh => key_eqb (fst kh) k) hooks || dict_has mon k /\
  List.length (__logs_message (snd run))
  = (List.length (__logs_message s) + List.length (filter is_pass hooks))%nat.
Proof.
  cbv zeta. revert mon s.
  induction hooks as [|[k0 h] r IH]; intros mon s.
  - simpl. split; [reflexivity | lia].
  - cbn [fold_left fst snd].
    destruct h as [v|line]; cbn [__monitor_func_loader fst snd].
    + destruct (IH (dict_set mon k0 v) s) as [I1 I2]. rewrite I1, I2.
      rewrite dict_has_dict_set. cbn [existsb filter is_pass fst snd].
      split; [|reflexivity].
      destruct (key_eqb k0 k); simpl; [now rewrite orb_true_r | reflexivity].
    + destruct (IH (dict_set mon k0 VNone)
                  (set_log_message (KStr "pass") (VStr line) s)) as [I1 I2].
      rewrite I1, I2. rewrite dict_has_dict_set.
      cbn [existsb filter is_pass fst snd __logs_message set_log_message].
      split.
      * destruct (key_eqb k0 k); simpl; [now rewrite orb_true_r | reflexivity].
      * rewrite length_app. simpl. lia.
Qed.

(** X19. After [monitor_play], the monitor dict has a key exactly when it
    is the name of a configured hook or was in the view's monitor before;
    and the log list has grown by one entry for each hook that raised
    [PassException], by nothing else. *)
Theorem monitor_play_fills_every_hook_key
    (cfg : Settings) (s : State) (k : key) :
  dict_has (fst (monitor_play cfg s)) k
  = existsb (fun kh => key_eqb (fst kh) k) (MONITOR cfg) || dict_has (__monitor s) k /\
  List.length (__logs_message (snd (monitor_play cfg s)))
  = (List.length (__logs_message s) + List.length (filter is_pass (MONITOR cfg)))%nat.
Proof.
  pose proof (monitor_fold (MONITOR cfg) (__monitor s) s k) as F.
  cbv zeta in F. unfold monitor_play.
  destruct (__monitor s); exact F.
Qed.

Lemma fold_set_headers_headers (l : dict) (s : State) :
  __headers (fold_left (fun acc e => set_headers (fst e) (snd e) acc) l s)
  = dict_update (__headers s) l.
Proof.
  unfold dict_update. revert s.
  induction l as [|e l IH]; intro s; [reflexivity|].
  simpl. now rewrite IH.
Qed.

Lemma dict_get_dict_update_distinct (d e : dict) (k : key) :
  NoDup (keys e) ->
  dict_get (dict_update d e) k
  = match dict_get e k with
    | Some v => Some v
    | None => dict_get d k
    end.
Proof.
  unfold dict_update. intro N. revert d.
  induction e as [|[k0 v0] r IH]; intro d; [reflexivity|].
  inversion N as [|? ? Hin Hr]; subst.
  cbn [fold_left fst snd dict_get]. rewrite IH by exact Hr.
  destruct (key_eqb k0 k) eqn:E.
  - apply key_eqb_eq in E. subst k0.
    assert (A : dict_get r k = None).
    { clear -Hin. induction r as [|[k1 v1] r IH]; [reflexivity|].
      simpl. destruct (key_eqb k1 k) eqn:E1.
      - apply key_eqb_eq in E1. subst. exfalso. apply Hin. now left.
      - apply IH. intro I. apply Hin. now right. }
    rewrite A, dict_get_dict_set, key_eqb_refl. reflexivity.
  - destruct (dict_get r k); [reflexivity|].
    rewrite dict_get_dict_set, E. reflexivity.
Qed.

(** X20. [get_headers] with the headers of a response merges them into the
    view's: afterwards a header that the response has holds the value of
    the response, and every other header holds what the view had set; the
    dict returned is the one the view keeps. *)
Theorem get_headers_merges_response_headers
    (h : dict) (s : State) (k : key) :
  NoDup (keys h) ->
  dict_get (fst (get_headers (Some h) s)) k
  = match dict_get h k with
    | Some v => Some v
    | None => dict_get (__headers s) k
    end /\
  fst (get_headers (Some h) s) = __headers (snd (get_headers (Some h) s)).
Proof.
  intro N. unfold get_headers. cbn [fst snd]. split; [|reflexivity].
  destruct h as [|kv r]; [reflexivity|].
  rewrite fold_set_headers_headers. now apply dict_get_dict_update_distinct.
Qed.

Lemma get_headers_merges_response_headers_witness :
  let h := [ "Allow" :-> VStr "GET"; "Vary" :-> VStr "Accept" ] in
  let s := set_headers (KStr "Vary") (VStr "Cookie")
             (set_headers (KStr "X-Trace") (VStr "7") init) in
  NoDup (keys h) /\
  (dict_get (fst (get_headers (Some h) s)) (KStr "Vary") = Some (VStr "Accept") /\
   dict_get (fst (get_headers (Some h) s)) (KStr "X-Trace") = Some (VStr "7")) /\
  dict_get (fst (get_headers (Some h) s)) (KStr "Vary")
  = match dict_get h (KStr "Vary") with
    | Some v => Some v
    | None => dict_get (__headers s) (KStr "Vary")
    end /\
  fst (get_headers (Some h) s) = __headers (snd (get_headers (Some h) s)).
Proof.
  cbv zeta.
  assert (N : NoDup (keys [ "Allow" :-> VStr "GET"; "Vary" :-> VStr "Accept" ])).
  { simpl. repeat constructor; simpl; intuition discriminate. }
  split; [exact N|]. split; [split; reflexivity|].
  apply (@get_headers_merges_response_headers
           [ "Allow" :-> VStr "GET"; "Vary" :-> VStr "Accept" ]
           (set_headers (KStr "Vary") (VStr "Cookie")
              (set_headers (KStr "X-Trace") (VStr "7") init))
           (KStr "Vary")).
  exact N.
Defined.

Lemma split_commas_not_nil (fields : string) : split_commas fields <> [].
Proof.
  induction fields as [|c rest IH]; simpl; [discriminate|].
  destruct (Ascii.eqb c ","%char); [discriminate|].
  destruct (split_commas rest); discriminate.
Qed.

(** X21. [get_query_params_fields] answers [None] when the query has no
    [fields], and otherwise a list that is never empty (the empty value
    gives one empty field), whose items hold no comma, and which joined
    with commas gives the query value back. *)
Theorem query_fields_split_and_join (fields : option string) :
  match fields, get_query_params_fields fields with
  | None, None => True
  | Some v, Some items =>
      items <> [] /\
      Forall (fun item => has_comma item = false) items /\
      String.concat "," items = v
  | _, _ => False
  end.
Proof.
  destruct fields as [v|]; cbn [get_query_params_fields]; [|exact I].
  split; [apply split_commas_not_nil|].
  induction v as [|c rest [IH1 IH2]]; cbn [split_commas].
  - split; [repeat constructor | reflexivity].
  - pose proof (split_commas_not_nil rest) as N.
    destruct (Ascii.eqb c ","%char) eqn:E.
    + apply Ascii.eqb_eq in E. subst c. split.
      * constructor; [reflexivity | exact IH1].
      * destruct (split_commas rest) as [|first others]; [contradiction|].
        change (String.concat "," (EmptyString :: first :: others))
          with (String ","%char (String.concat "," (first :: others))).
        now rewrite IH2.
    + destruct (split_commas rest) as [|first others]; [contradiction|].
      apply Forall_cons_iff in IH1. destruct IH1 as [Hf Ho]. split.
      * constructor; [|exact Ho].
        unfold has_comma in *. cbn [list_ascii_of_string existsb].
        rewrite E. exact Hf.
      * destruct others as [|second more]; simpl in *; now rewrite IH2.
Qed.

(** ** Strings and unsupported values as data *)

Lemma v2_result_envelope (a b c z : value) :
  dict_update [ "success" :-> a; "status_code" :-> b; "messenger" :-> c ]
              [ "result" :-> z ]
  = [ "success" :-> a; "status_code" :-> b; "messenger" :-> c; "result" :-> z ].
Proof. reflexivity. Qed.

Lemma v2_result_envelope_keys_distinct (a b c z : value) :
  NoDup (keys [ "success" :-> a; "status_code" :-> b; "messenger" :-> c;
                "result" :-> z ]).
Proof. simpl. repeat constructor; simpl; intuition discriminate. Qed.

(** X22. Data that is a number, a bool, a tuple or any other object is
    dropped: the envelope the builder returns, in either schema version, has
    a null result (under [data] outside version 2.0.0, at the top in 2.0.0),
    and, unlike for [None], no default messenger entry and no message was
    added for it. *)
Theorem unsupported_data_is_dropped
    (cfg : Settings) (m : Messages) (rq : Request) (data : value)
    (s s' : State) (envelope : value) :
  is_unsupported data = true ->
  response_context cfg m rq data s = Ok (envelope, s') ->
  (if String.eqb (response_schema_version rq) "2.0.0"
   then field envelope "result" = Some VNone
   else field envelope "data" = Some (VDict [ "result" :-> VNone ])) /\
  __messenger s' = __messenger s /\
  __infos_message s' = __infos_message s /\
  __warnings_message s' = __warnings_message s /\
  __errors_message s' = __errors_message s.
Proof.
  intro U. unfold response_context.
  destruct (String.eqb (response_schema_version rq) "2.0.0").
  - rewrite v2_envelope. cbv zeta.
    destruct data; try discriminate;
      cbn [normalised wrappers fold_left];
      unfold validate_data_v_2_0_0_response; cbn [__data with_data];
      cbv beta iota; rewrite v2_result_envelope;
      intro H; ok_injection H;
      (split; [|repeat split]);
      (apply (@field_response_validator _ "result" (VDict []));
       [ apply NoDup_keys_add_development_keys, v2_result_envelope_keys_distinct
       | rewrite dict_get_add_development_keys by discriminate; reflexivity ]).
  - rewrite v1_envelope. cbv beta iota zeta. intro H. ok_injection H.
    destruct data; try discriminate;
      cbn [normalised wrappers fold_left];
      unfold validate_data; cbn [__data with_data]; cbn [fst snd];
      match goal with
      | |- context [monitor_play cfg ?t] =>
          pose proof (monitor_play_logs cfg t) as L
      end;
      destruct L as (L1 & _ & L2 & L3 & L4 & _);
      (split; [|repeat split; assumption]);
      (apply (@field_response_validator _ "data" (VDict [ "result" :-> VDict [] ]));
       [ apply NoDup_keys_add_development_keys, v1_envelope_keys_distinct
       | rewrite dict_get_add_development_keys by discriminate; reflexivity ]).
Qed.

Lemma unsupported_data_is_dropped_witness :
  (is_unsupported (VInt 5) = true /\
   response_context sample_settings sample_messages sample_request (VInt 5) init
   = Ok (plain_envelope (VDict [ "result" :-> VNone ]),
         with_data (VInt 5) init)) /\
  (if String.eqb (response_schema_version sample_request) "2.0.0"
   then field (plain_envelope (VDict [ "result" :-> VNone ])) "result"
        = Some VNone
   else field (plain_envelope (VDict [ "result" :-> VNone ])) "data"
        = Some (VDict [ "result" :-> VNone ])) /\
  __messenger (with_data (VInt 5) init) = __messenger init /\
  __infos_message (with_data (VInt 5) init) = __infos_message init /\
  __warnings_message (with_data (VInt 5) init) = __warnings_message init /\
  __errors_message (with_data (VInt 5) init) = __errors_message init.
Proof.
  split; [split; reflexivity|].
  apply (@unsupported_data_is_dropped sample_settings sample_messages
           sample_request (VInt 5) init (with_data (VInt 5) init)
           (plain_envelope (VDict [ "result" :-> VNone ])));
    reflexivity.
Defined.

(** X23. A plain string as data is answered, in either schema version, as
    [{string: <the string>}] under [result], and the empty string as a null
    result, in the envelope the builder returns; nothing is added to the
    messenger for it. *)
Theorem plain_string_is_wrapped
    (cfg : Settings) (m : Messages) (rq : Request) (text : string)
    (s s' : State) (envelope : value) :
  response_context cfg m rq (VStr text) s = Ok (envelope, s') ->
  let result :=
    if String.eqb text EmptyString then VNone
    else VDict [ "string" :-> VStr text ] in
  (if String.eqb (response_schema_version rq) "2.0.0"
   then field envelope "result" = Some result
   else field envelope "data" = Some (VDict [ "result" :-> result ])) /\
  __messenger s' = __messenger s.
Proof.
  cbv zeta. unfold response_context.
  destruct (String.eqb (response_schema_version rq) "2.0.0").
  - rewrite v2_envelope. cbv zeta. cbn [normalised wrappers fold_left].
    unfold validate_data_v_2_0_0_response.
    cbn [__data with_data __set_dynamic_message truthy]. cbv beta iota.
    rewrite v2_result_envelope.
    intro H. ok_injection H. split; [|reflexivity].
    destruct (String.eqb text EmptyString); cbn [negb];
      [ apply (@field_response_validator _ "result" (VDict []))
      | apply (@field_response_validator _ "result" (VDict [ "string" :-> VStr text ])) ];
      try apply NoDup_keys_add_development_keys, v2_result_envelope_keys_distinct;
      (rewrite dict_get_add_development_keys by discriminate; reflexivity).
  - rewrite v1_envelope. cbv beta iota zeta. intro H. ok_injection H.
    cbn [normalised wrappers fold_left].
    unfold validate_data.
    cbn [__data with_data __set_dynamic_message truthy]. cbn [fst snd].
    match goal with
    | |- context [monitor_play cfg ?t] =>
        pose proof (monitor_play_logs cfg t) as L
    end.
    destruct L as (L1 & _).
    split; [|exact L1].
    destruct (String.eqb text EmptyString); cbn [negb];
      [ apply (@field_response_validator _ "data" (VDict [ "result" :-> VDict [] ]))
      | apply (@field_response_validator _ "data"
                 (VDict [ "result" :-> VDict [ "string" :-> VStr text ] ])) ];
      try apply NoDup_keys_add_development_keys, v1_envelope_keys_distinct;
      (rewrite dict_get_add_development_keys by discriminate; reflexivity).
Qed.

Lemma plain_string_is_wrapped_witness :
  response_context sample_settings sample_messages sample_request
    (VStr "hello") init
  = Ok (plain_envelope (VDict [ "result" :-> VDict [ "string" :-> VStr "hello" ] ]),
        with_data (VStr "hello") init) /\
  let result :=
    if String.eqb "hello" EmptyString then VNone
    else VDict [ "string" :-> VStr "hello" ] in
  (if String.eqb (response_schema_version sample_request) "2.0.0"
   then field (plain_envelope
                 (VDict [ "result" :-> VDict [ "string" :-> VStr "hello" ] ]))
          "result" = Some result
   else field (plain_envelope
                 (VDict [ "result" :-> VDict [ "string" :-> VStr "hello" ] ]))
          "data" = Some (VDict [ "result" :-> result ])) /\
  __messenger (with_data (VStr "hello") init) = __messenger init.
Proof.
  split; [reflexivity|].
  apply (@plain_string_is_wrapped sample_settings sample_messages
           sample_request "hello" init (with_data (VStr "hello") init)
           (plain_envelope
              (VDict [ "result" :-> VDict [ "string" :-> VStr "hello" ] ]))).
  reflexivity.
Defined.
